(** * Rubric labelling scripts: [rubric_0_shot.py] and [rubric_many_shots.py]

    A shallow embedding of the two batch scripts and the properties of
    their loader, prompt builder, response collector and writer.

    Python strings are sequences of Unicode code points, Python objects are
    a small tagged union, a pandas frame is an index length together with
    its labelled columns in order, and the effects of [main] (console
    lines, engine start-up, the batch request, the file written) are
    recorded in an event trace next to the value or the exception that the
    run ends with. *)

From Stdlib Require Import ZArith NArith List Bool Lia.
From Stdlib Require Import Ascii String DecimalString.
From stdpp Require Import base option list.

Set Default Proof Using "Type".
Set Warnings "-register-all".
Open Scope list_scope.

(** ** Python strings *)

(** A [str] is its sequence of code points. *)
Abbreviation pystr := (list N).

Definition cp (a : ascii) : N := N_of_ascii a.

(** An ASCII literal of the source as a [str]. *)
Definition str_lit (s : string) : pystr := map cp (list_ascii_of_string s).

(** The line feed written [\n] in the source literals. *)
Definition LF : pystr := [10%N].

Definition str_of_nat (n : nat) : pystr :=
  str_lit (NilZero.string_of_uint (Nat.to_uint n)).

Definition str_of_Z (z : Z) : pystr :=
  str_lit (NilZero.string_of_int (Z.to_int z)).

(** [Py_UNICODE_ISSPACE]: the code points [str.strip()] removes. *)
Definition isspace (c : N) : bool :=
  ((9 <=? c) && (c <=? 13) || (28 <=? c) && (c <=? 32)
   || (c =? 133) || (c =? 160) || (c =? 5760)
   || (8192 <=? c) && (c <=? 8202)
   || (c =? 8232) || (c =? 8233) || (c =? 8239) || (c =? 8287)
   || (c =? 12288))%N.

Fixpoint lstrip (s : pystr) : pystr :=
  match s with
  | c :: s' => if isspace c then lstrip s' else s
  | [] => []
  end.

Definition rstrip (s : pystr) : pystr := rev (lstrip (rev s)).

(** [s.strip()] with no argument. *)
Definition strip (s : pystr) : pystr := rstrip (lstrip s).

(** ** Python objects *)

(** A [float] is kept as the literal it was read from; the two
    infinities and not-a-number are told apart because missing table
    cells are not-a-number. *)
Inductive pyfloat : Type :=
| FNaN
| FInf (negative : bool)
| FDec (lexeme : pystr).

Inductive pyval : Type :=
| PyNone
| PyBool (b : bool)
| PyInt (z : Z)
| PyFloat (f : pyfloat)
| PyStr (s : pystr)
| PyList (l : list pyval)
| PyDict (d : list (pystr * pyval)).

(** [type(v).__name__] *)
Definition type_name (v : pyval) : pystr :=
  match v with
  | PyNone => str_lit "NoneType"
  | PyBool _ => str_lit "bool"
  | PyInt _ => str_lit "int"
  | PyFloat _ => str_lit "float"
  | PyStr _ => str_lit "str"
  | PyList _ => str_lit "list"
  | PyDict _ => str_lit "dict"
  end.

Definition pystr_eqb (a b : pystr) : bool := bool_decide (a = b).

(** ** Exceptions *)

(** The classes that occur; all derive from [Exception]. *)
Inductive exc_class : Type :=
| ValueError
| TypeError
| AttributeError
| KeyError
| JSONDecodeError
| RecursionError.

(** An exception object: its class and [str(e)]. *)
Record pyexc : Type := mk_exc { exc_type : exc_class; exc_str : pystr }.

Inductive pyresult (A : Type) : Type :=
| Ok (a : A)
| Raise (e : pyexc).
Arguments Ok {A} a.
Arguments Raise {A} e.

#[global] Instance pyresult_ret : MRet pyresult := fun A (a : A) => Ok a.

#[global] Instance pyresult_bind : MBind pyresult :=
  fun A B (k : A -> pyresult B) (r : pyresult A) =>
    match r with
    | Ok a => k a
    | Raise e => Raise e
    end.

(** ** State and exceptions

    A computation reads and writes a state of type [S] and either
    returns a value or raises; what it wrote before raising stays
    written, as with the lists and the frame the scripts update in place. *)
Definition StErr (S A : Type) : Type := S -> S * pyresult A.

#[global] Instance sterr_ret {S} : MRet (StErr S) :=
  fun A (a : A) s => (s, Ok a).

#[global] Instance sterr_bind {S} : MBind (StErr S) :=
  fun A B (k : A -> StErr S B) (m : StErr S A) s =>
    match m s with
    | (s', Ok a) => k a s'
    | (s', Raise e) => (s', Raise e)
    end.

(** [raise e] *)
Definition raise {S A} (e : pyexc) : StErr S A := fun s => (s, Raise e).

(** A call that touches no state. *)
Definition lift {S A} (r : pyresult A) : StErr S A := fun s => (s, r).

Definition modify {S} (f : S -> S) : StErr S unit := fun s => (f s, Ok tt).

(** [try: body except Exception as e: handler] *)
Definition try_except {S A} (body : StErr S A) (handler : pyexc -> StErr S A)
  : StErr S A :=
  fun s =>
    match body s with
    | (s', Ok a) => (s', Ok a)
    | (s', Raise e) => handler e s'
    end.

(** [for x in xs: body] *)
Fixpoint for_each {S X} (xs : list X) (body : X -> StErr S unit) : StErr S unit :=
  match xs with
  | [] => mret tt
  | x :: xs' => body x ;; for_each xs' body
  end.

(** ** Dictionaries *)

(** A [dict] keeps its keys in insertion order; storing under a key that
    is present replaces the value where it stands. *)
Fixpoint dict_set (d : list (pystr * pyval)) (k : pystr) (v : pyval)
  : list (pystr * pyval) :=
  match d with
  | [] => [(k, v)]
  | (k', v') :: d' =>
      if pystr_eqb k' k then (k, v) :: d' else (k', v') :: dict_set d' k v
  end.

Fixpoint dict_lookup (d : list (pystr * pyval)) (k : pystr) : option pyval :=
  match d with
  | [] => None
  | (k', v') :: d' => if pystr_eqb k' k then Some v' else dict_lookup d' k
  end.

(** [dict(pairs)] *)
Definition dict_of_pairs (pairs : list (pystr * pyval)) : list (pystr * pyval) :=
  fold_left (fun d kv => dict_set d (fst kv) (snd kv)) pairs [].

(** [obj.get(key, default)]: only a [dict] has the attribute. *)
Definition py_get (obj : pyval) (key : pystr) (default : pyval) : pyresult pyval :=
  match obj with
  | PyDict d => Ok (match dict_lookup d key with
                    | Some v => v
                    | None => default
                    end)
  | _ => Raise (mk_exc AttributeError
                  (str_lit "'" ++ type_name obj
                   ++ str_lit "' object has no attribute 'get'"))
  end.

(** ** The JSON decoder of the standard library

    [json.loads] as CPython 3.11 runs it on a [str]: the scanner of the
    [_json] accelerator with [strict=True] and no hooks, wrapped by
    [JSONDecoder.decode].  The scripts only call it; it is written out
    here so that the collector can be run on concrete generated texts. *)
Module json.

Inductive scanned (A : Type) : Type :=
| Scanned (a : A) (idx : nat) (rest : pystr)
| StopIteration (idx : nat)
| DecodeError (msg : string) (pos : nat)
| Raised (e : pyexc).
Arguments Scanned {A} a idx rest.
Arguments StopIteration {A} idx.
Arguments DecodeError {A} msg pos.
Arguments Raised {A} e.

Definition scanned_map {A B} (f : A -> B) (r : scanned A) : scanned B :=
  match r with
  | Scanned a idx rest => Scanned (f a) idx rest
  | StopIteration idx => StopIteration idx
  | DecodeError msg pos => DecodeError msg pos
  | Raised e => Raised e
  end.

Definition recursion_error (what : string) : pyexc :=
  mk_exc RecursionError
    (str_lit "maximum recursion depth exceeded while decoding a JSON "
     ++ str_lit what ++ str_lit " from a unicode string").

(** [IS_WHITESPACE]: space, tab, line feed, carriage return. *)
Definition is_whitespace (c : N) : bool :=
  ((c =? 32) || (c =? 9) || (c =? 10) || (c =? 13))%N.

Fixpoint skip_whitespace (idx : nat) (rest : pystr) : nat * pystr :=
  match rest with
  | c :: rest' =>
      if is_whitespace c then skip_whitespace (S idx) rest' else (idx, rest)
  | [] => (idx, [])
  end.

Definition is_digit (c : N) : bool := ((48 <=? c) && (c <=? 57))%N.

Definition hex_digit (c : N) : option N :=
  if ((48 <=? c) && (c <=? 57))%N then Some (c - 48)%N
  else if ((97 <=? c) && (c <=? 102))%N then Some (c - 87)%N
  else if ((65 <=? c) && (c <=? 70))%N then Some (c - 55)%N
  else None.

Definition hex4 (a b c d : N) : option N :=
  match hex_digit a, hex_digit b, hex_digit c, hex_digit d with
  | Some x, Some y, Some z, Some w => Some (((x * 16 + y) * 16 + z) * 16 + w)%N
  | _, _, _, _ => None
  end.

Definition is_high_surrogate (c : N) : bool := ((55296 <=? c) && (c <=? 56319))%N.
Definition is_low_surrogate (c : N) : bool := ((56320 <=? c) && (c <=? 57343))%N.

Definition join_surrogates (hi lo : N) : N :=
  (65536 + N.lor (N.shiftl (N.land hi 1023) 10) (N.land lo 1023))%N.

(** The one-character escapes after a backslash. *)
Definition simple_escape (c : N) : option N :=
  if (c =? 34)%N then Some 34%N
  else if (c =? 92)%N then Some 92%N
  else if (c =? 47)%N then Some 47%N
  else if (c =? 98)%N then Some 8%N
  else if (c =? 102)%N then Some 12%N
  else if (c =? 110)%N then Some 10%N
  else if (c =? 114)%N then Some 13%N
  else if (c =? 116)%N then Some 9%N
  else None.

(** [scanstring] from the character after the opening quote, which
    stands at [begin].  [idx] is the position of the head of [rest].
    Every round consumes a character, so the fuel, which starts above
    the number of characters left, is never used up. *)
Fixpoint scanstring_from (fuel begin : nat) (acc : pystr) (idx : nat) (rest : pystr)
  : scanned pystr :=
  match fuel with
  | O => Raised (recursion_error "string")
  | S fuel' =>
    match rest with
    | [] => DecodeError "Unterminated string starting at" begin
    | c :: rest1 =>
      if (c =? 34)%N then Scanned acc (S idx) rest1
      else if (c =? 92)%N then
        match rest1 with
        | [] => DecodeError "Unterminated string starting at" begin
        | e :: rest2 =>
          if (e =? 117)%N then
            match rest2 with
            | h1 :: h2 :: h3 :: h4 :: ((_ :: _) as rest3) =>
              match hex4 h1 h2 h3 h4 with
              | None => DecodeError "Invalid \uXXXX escape" (S idx)
              | Some u =>
                match rest3 with
                | 92%N :: 117%N :: l1 :: l2 :: l3 :: l4 :: ((_ :: _) as rest4) =>
                  if is_high_surrogate u then
                    match hex4 l1 l2 l3 l4 with
                    | None => DecodeError "Invalid \uXXXX escape" (idx + 7)
                    | Some u2 =>
                      if is_low_surrogate u2
                      then scanstring_from fuel' begin
                             (acc ++ [join_surrogates u u2]) (idx + 12) rest4
                      else scanstring_from fuel' begin (acc ++ [u]) (idx + 6) rest3
                    end
                  else scanstring_from fuel' begin (acc ++ [u]) (idx + 6) rest3
                | _ => scanstring_from fuel' begin (acc ++ [u]) (idx + 6) rest3
                end
              end
            | _ => DecodeError "Invalid \uXXXX escape" (S idx)
            end
          else
            match simple_escape e with
            | Some ch => scanstring_from fuel' begin (acc ++ [ch]) (idx + 2) rest2
            | None => DecodeError "Invalid \escape" idx
            end
        end
      else if (c <=? 31)%N then DecodeError "Invalid control character at" idx
      else scanstring_from fuel' begin (acc ++ [c]) (S idx) rest1
    end
  end.

Definition scanstring (idx : nat) (rest : pystr) : scanned pystr :=
  scanstring_from (S (length rest)) (idx - 1) [] idx rest.

Fixpoint span_digits (rest : pystr) : pystr * pystr :=
  match rest with
  | c :: rest' =>
      if is_digit c
      then let '(ds, r) := span_digits rest' in (c :: ds, r)
      else ([], rest)
  | [] => ([], [])
  end.

(** The integer part: an optional minus sign, then a single zero or a
    non-zero digit followed by digits. *)
Definition match_integer (rest : pystr) : option (pystr * pystr) :=
  let '(sign, r0) := match rest with
                     | 45%N :: r => ([45%N], r)
                     | _ => ([], rest)
                     end in
  match r0 with
  | d :: r1 =>
      if ((49 <=? d) && (d <=? 57))%N
      then let '(ds, r2) := span_digits r1 in Some (sign ++ d :: ds, r2)
      else if (d =? 48)%N then Some (sign ++ [d], r1)
      else None
  | [] => None
  end.

(** The optional fraction: a dot followed by at least one digit. *)
Definition match_frac (rest : pystr) : pystr * pystr :=
  match rest with
  | 46%N :: ((d :: _) as r) =>
      if is_digit d
      then let '(ds, r') := span_digits r in (46%N :: ds, r')
      else ([], rest)
  | _ => ([], rest)
  end.

(** The optional exponent: [e] or [E], an optional sign, at least one
    digit. *)
Definition match_exp (rest : pystr) : pystr * pystr :=
  match rest with
  | e :: r =>
      if ((e =? 101) || (e =? 69))%N then
        let '(sign, r1) := match r with
                           | s :: r' =>
                               if ((s =? 45) || (s =? 43))%N
                               then ([s], r') else ([], r)
                           | [] => ([], r)
                           end in
        let '(ds, r2) := span_digits r1 in
        match ds with
        | [] => ([], rest)
        | _ :: _ => (e :: sign ++ ds, r2)
        end
      else ([], rest)
  | [] => ([], rest)
  end.

Definition Z_of_digits (ds : pystr) : Z :=
  fold_left (fun acc d => (acc * 10 + Z.of_N (d - 48))%Z) ds 0%Z.

(** [int(numstr)], with the interpreter's limit on the number of digits. *)
Definition parse_int (numstr : pystr) : pyresult pyval :=
  let '(neg, ds) := match numstr with
                    | 45%N :: ds => (true, ds)
                    | _ => (false, numstr)
                    end in
  if (4300 <? length ds)%nat
  then Raise (mk_exc ValueError
                (str_lit "Exceeds the limit (4300 digits) for integer string conversion: value has "
                 ++ str_of_nat (length ds)
                 ++ str_lit " digits; use sys.set_int_max_str_digits() to increase the limit"))
  else Ok (PyInt (if neg then (- Z_of_digits ds)%Z else Z_of_digits ds)).

Definition match_number (idx : nat) (rest : pystr) : scanned pyval :=
  match match_integer rest with
  | None => StopIteration idx
  | Some (integer, r1) =>
      let '(frac, r2) := match_frac r1 in
      let '(exp, r3) := match_exp r2 in
      let numstr := integer ++ frac ++ exp in
      let next_idx := (idx + length numstr)%nat in
      match frac, exp with
      | [], [] =>
          match parse_int integer with
          | Ok v => Scanned v next_idx r3
          | Raise e => Raised e
          end
      | _, _ => Scanned (PyFloat (FDec numstr)) next_idx r3
      end
  end.

Definition starts_with (lit : string) (rest : pystr) : bool :=
  pystr_eqb (take (String.length lit) rest) (str_lit lit).

Definition constant (lit : string) (v : pyval) (idx : nat) (rest : pystr)
  : scanned pyval :=
  Scanned v (idx + String.length lit) (drop (String.length lit) rest).

(** The members of an object after its opening brace.  [scan_once] is
    the scanner for the values, as in [JSONObject]; every member consumes
    characters, so the fuel is never used up. *)
Fixpoint parse_object_members (scan_once : nat -> pystr -> scanned pyval)
    (fuel : nat) (rval : list (pystr * pyval)) (idx : nat) (rest : pystr)
  : scanned pyval :=
  match fuel with
  | O => Raised (recursion_error "object")
  | S fuel' =>
    match rest with
    | 34%N :: rest1 =>
      match scanstring (S idx) rest1 with
      | Scanned key idx1 rest2 =>
        let '(idx2, rest3) := skip_whitespace idx1 rest2 in
        match rest3 with
        | 58%N :: rest4 =>
          let '(idx3, rest5) := skip_whitespace (S idx2) rest4 in
          match scan_once idx3 rest5 with
          | Scanned val idx4 rest6 =>
            let rval' := dict_set rval key val in
            let '(idx5, rest7) := skip_whitespace idx4 rest6 in
            match rest7 with
            | 125%N :: rest8 => Scanned (PyDict rval') (S idx5) rest8
            | 44%N :: rest8 =>
              let '(idx6, rest9) := skip_whitespace (S idx5) rest8 in
              parse_object_members scan_once fuel' rval' idx6 rest9
            | _ => DecodeError "Expecting ',' delimiter" idx5
            end
          | StopIteration i => StopIteration i
          | DecodeError msg pos => DecodeError msg pos
          | Raised e => Raised e
          end
        | _ => DecodeError "Expecting ':' delimiter" idx2
        end
      | StopIteration i => StopIteration i
      | DecodeError msg pos => DecodeError msg pos
      | Raised e => Raised e
      end
    | _ => DecodeError "Expecting property name enclosed in double quotes" idx
    end
  end.

Definition parse_object (scan_once : nat -> pystr -> scanned pyval)
    (idx : nat) (rest : pystr) : scanned pyval :=
  let '(idx1, rest1) := skip_whitespace idx rest in
  match rest1 with
  | 125%N :: rest2 => Scanned (PyDict []) (S idx1) rest2
  | _ => parse_object_members scan_once (S (length rest1)) [] idx1 rest1
  end.

(** The items of an array after its opening bracket, with the fuel as
    for the members of an object. *)
Fixpoint parse_array_items (scan_once : nat -> pystr -> scanned pyval)
    (fuel : nat) (rval : list pyval) (idx : nat) (rest : pystr)
  : scanned pyval :=
  match fuel with
  | O => Raised (recursion_error "array")
  | S fuel' =>
    match scan_once idx rest with
    | Scanned val idx1 rest1 =>
      let rval' := rval ++ [val] in
      let '(idx2, rest2) := skip_whitespace idx1 rest1 in
      match rest2 with
      | 93%N :: rest3 => Scanned (PyList rval') (S idx2) rest3
      | 44%N :: rest3 =>
        let '(idx3, rest4) := skip_whitespace (S idx2) rest3 in
        parse_array_items scan_once fuel' rval' idx3 rest4
      | _ => DecodeError "Expecting ',' delimiter" idx2
      end
    | other => other
    end
  end.

Definition parse_array (scan_once : nat -> pystr -> scanned pyval)
    (idx : nat) (rest : pystr) : scanned pyval :=
  let '(idx1, rest1) := skip_whitespace idx rest in
  match rest1 with
  | 93%N :: rest2 => Scanned (PyList []) (S idx1) rest2
  | _ => parse_array_items scan_once (S (length rest1)) [] idx1 rest1
  end.

(** [scan_once]: one JSON term at [idx].  [depth] is the number of
    nested containers the interpreter's recursion limit still allows. *)
Fixpoint scan_once (depth : nat) (idx : nat) (rest : pystr) {struct depth}
  : scanned pyval :=
  match rest with
  | [] => StopIteration idx
  | c :: rest1 =>
    if (c =? 34)%N then scanned_map PyStr (scanstring (S idx) rest1)
    else if (c =? 123)%N then
      match depth with
      | O => Raised (recursion_error "object")
      | S depth' => parse_object (scan_once depth') (S idx) rest1
      end
    else if (c =? 91)%N then
      match depth with
      | O => Raised (recursion_error "array")
      | S depth' => parse_array (scan_once depth') (S idx) rest1
      end
    else if starts_with "null" rest then constant "null" PyNone idx rest
    else if starts_with "true" rest then constant "true" (PyBool true) idx rest
    else if starts_with "false" rest then constant "false" (PyBool false) idx rest
    else if starts_with "NaN" rest then constant "NaN" (PyFloat FNaN) idx rest
    else if starts_with "Infinity" rest
         then constant "Infinity" (PyFloat (FInf false)) idx rest
    else if starts_with "-Infinity" rest
         then constant "-Infinity" (PyFloat (FInf true)) idx rest
    else match_number idx rest
  end.

(** [JSONDecodeError(msg, doc, pos)]: the message names line, column and
    offset of [pos] in [doc]. *)
Definition lineno (doc : pystr) (pos : nat) : nat :=
  S (length (filter (fun c => c = 10%N) (take pos doc))).

Fixpoint until_newline (s : pystr) : pystr :=
  match s with
  | c :: s' => if (c =? 10)%N then [] else c :: until_newline s'
  | [] => []
  end.

Definition colno (doc : pystr) (pos : nat) : nat :=
  S (length (until_newline (rev (take pos doc)))).

Definition decode_error (msg : string) (doc : pystr) (pos : nat) : pyexc :=
  mk_exc JSONDecodeError
    (str_lit msg ++ str_lit ": line " ++ str_of_nat (lineno doc pos)
     ++ str_lit " column " ++ str_of_nat (colno doc pos)
     ++ str_lit " (char " ++ str_of_nat pos ++ str_lit ")").

(** [JSONDecoder.raw_decode] followed by the check of [JSONDecoder.decode]
    that only whitespace is left. *)
Definition decode (depth : nat) (s : pystr) : pyresult pyval :=
  let '(idx, rest) := skip_whitespace 0 s in
  match scan_once depth idx rest with
  | Scanned obj end_ rest1 =>
      let '(end', rest2) := skip_whitespace end_ rest1 in
      match rest2 with
      | [] => Ok obj
      | _ :: _ => Raise (decode_error "Extra data" s end')
      end
  | StopIteration i => Raise (decode_error "Expecting value" s i)
  | DecodeError msg pos => Raise (decode_error msg s pos)
  | Raised e => Raise e
  end.

(** Containers nested deeper than this exhaust the default recursion
    limit of 1000 frames when the decoder is called from [main].  What
    the interpreter does with a malformed text right at that bound is
    not modelled. *)
Definition max_depth : nat := 994.

(** [json.loads(s)] for a [str] argument. *)
Definition loads (s : pystr) : pyresult pyval :=
  match s with
  | 65279%N :: _ =>
      Raise (decode_error "Unexpected UTF-8 BOM (decode using utf-8-sig)" s 0)
  | _ => decode max_depth s
  end.

End json.

(** ** Frames

    What the scripts use of a pandas [DataFrame]: a row index, of which
    only the length matters, and the labelled columns in order.  A cell
    is a Python object; a cell with no value reads as not-a-number. *)
Module pandas.

Record DataFrame : Type := mk_df {
  index_len : nat;
  columns : list (pystr * list pyval)
}.

(** [df.columns] *)
Definition labels (df : DataFrame) : list pystr := (columns df).*1.

(** [key in df.columns] *)
Definition contains (key : pystr) (df : DataFrame) : bool :=
  bool_decide (key ∈ labels df).

Fixpoint column (cols : list (pystr * list pyval)) (key : pystr)
  : option (list pyval) :=
  match cols with
  | [] => None
  | (k, c) :: cols' => if pystr_eqb k key then Some c else column cols' key
  end.

(** [df[key]] for a label [key]. *)
Definition getitem (df : DataFrame) (key : pystr) : pyresult (list pyval) :=
  match column (columns df) key with
  | Some c => Ok c
  | None => Raise (mk_exc KeyError (str_lit "'" ++ key ++ str_lit "'"))
  end.

(** [pd.isna] on a cell. *)
Definition isna (v : pyval) : bool :=
  match v with
  | PyNone => true
  | PyFloat FNaN => true
  | _ => false
  end.

(** [series.fillna(value)]: a new column, the frame is left as it is. *)
Definition fillna (value : pyval) (series : list pyval) : list pyval :=
  (fun v => if isna v then value else v) <$> series.

(** [series.tolist()] *)
Definition tolist (series : list pyval) : list pyval := series.

(** Replace the column labelled [key] where it stands, or add it last. *)
Fixpoint set_column (cols : list (pystr * list pyval)) (key : pystr)
    (values : list pyval) : list (pystr * list pyval) :=
  match cols with
  | [] => [(key, values)]
  | (k, c) :: cols' =>
      if pystr_eqb k key then (k, values) :: cols'
      else (k, c) :: set_column cols' key values
  end.

Definition length_mismatch (n_values n_index : nat) : pyexc :=
  mk_exc ValueError
    (str_lit "Length of values (" ++ str_of_nat n_values
     ++ str_lit ") does not match length of index (" ++ str_of_nat n_index
     ++ str_lit ")").

(** [df[key] = values] for a Python list [values].  The list must be as
    long as the index; a frame whose index is empty takes its index from
    a non-empty list instead, and its columns are then filled with
    not-a-number.  The cells of the column are the objects of the list;
    the conversion of a list that holds numbers to one numeric type is
    not followed. *)
Definition setitem (df : DataFrame) (key : pystr) (values : list pyval)
  : pyresult DataFrame :=
  if bool_decide (length values = index_len df) then
    Ok (mk_df (index_len df) (set_column (columns df) key values))
  else if bool_decide (index_len df = 0) then
    Ok (mk_df (length values)
          (set_column
             ((fun kc => (kc.1, replicate (length values) (PyFloat FNaN)))
                <$> columns df)
             key values))
  else Raise (length_mismatch (length values) (index_len df)).

(** A frame as [read_csv] returns it: distinct labels, and every column
    as long as the index. *)
Definition wf (df : DataFrame) : Prop :=
  NoDup (labels df) ∧ Forall (fun kc => length kc.2 = index_len df) (columns df).

End pandas.

(** ** The inference engine

    What the scripts use of vLLM: the sampling parameters they pass, and
    per prompt one [RequestOutput] whose [outputs] list holds the
    completions, each with its [text]. *)
Module vllm.

Inductive schema_type : Type := boolean | string_.

(** A JSON schema of type [object], as far as [JSON_SCHEMA] uses them. *)
Record ObjectSchema : Type := {
  properties : list (pystr * schema_type);
  required : list pystr;
  additionalProperties : bool
}.

Record GuidedDecodingParams : Type := { json_schema : ObjectSchema }.

Record SamplingParams : Type := {
  temperature : pyfloat;
  max_tokens : Z;
  guided_decoding : option GuidedDecodingParams
}.

Record CompletionOutput : Type := { text : pystr }.

Record RequestOutput : Type := { outputs : list CompletionOutput }.

Definition has_type (t : schema_type) (v : pyval) : bool :=
  match t, v with
  | boolean, PyBool _ => true
  | string_, PyStr _ => true
  | _, _ => false
  end.

Fixpoint property_type (props : list (pystr * schema_type)) (k : pystr)
  : option schema_type :=
  match props with
  | [] => None
  | (k', t) :: props' => if pystr_eqb k' k then Some t else property_type props' k
  end.

(** The decoded value is an instance of the schema. *)
Definition accepts (sch : ObjectSchema) (v : pyval) : bool :=
  match v with
  | PyDict d =>
      forallb (fun k => bool_decide (is_Some (dict_lookup d k))) (required sch)
      && forallb (fun kv => match property_type (properties sch) kv.1 with
                            | Some t => has_type t kv.2
                            | None => additionalProperties sch
                            end) d
  | _ => false
  end.

End vllm.

(** ** What a run does to the world *)
Inductive event : Type :=
| EvPrint (line : pystr)
| EvLLM (model : pystr) (max_model_len : Z)
| EvGenerate (prompts : list pystr) (sampling_params : vllm.SamplingParams)
| EvToCsv (path : pystr) (df : pandas.DataFrame).


Definition emit (ev : event) : StErr (list event) unit :=
  modify (fun trace => trace ++ [ev]).

(** [print(line)] *)
Definition print (line : pystr) : StErr (list event) unit := emit (EvPrint line).

(** [a + b] where [a] is a [str]. *)
Definition str_add (a : pystr) (b : pyval) : pyresult pystr :=
  match b with
  | PyStr s => Ok (a ++ s)
  | _ => Raise (mk_exc TypeError
                  (str_lit "can only concatenate str (not " ++ [34%N]
                   ++ type_name b ++ [34%N] ++ str_lit ") to str"))
  end.

(** ** [rubric_0_shot.py]

    [SYSTEM_INSTRUCTIONS] is the rubric text of the script, which no
    code path inspects; [repr_labels] is [repr] on the list of column
    labels; [json_loads] is [json.loads]; [llm_generate] is the engine's
    answer to a batch. *)
Module rubric_0_shot.
Import pandas vllm.

Definition INPUT_CSV : pystr := str_lit "comment_sheet.csv".
Definition OUTPUT_CSV : pystr := str_lit "rubric_0_shot.csv".
Definition TEXT_COLUMN : pystr := str_lit "body_text".

Definition MODEL_NAME : pystr := str_lit "openai/gpt-oss-120b".
Definition MAX_MODEL_LEN : Z := 16384.

Definition JSON_SCHEMA : ObjectSchema := {|
  properties := [
    (str_lit "individual_voice", boolean);
    (str_lit "collective_voice", boolean);
    (str_lit "internal_deliberation", boolean);
    (str_lit "align_with_company", boolean);
    (str_lit "none_of_the_above", boolean);
    (str_lit "reason", string_)
  ];
  required := [
    str_lit "individual_voice";
    str_lit "collective_voice";
    str_lit "internal_deliberation";
    str_lit "align_with_company";
    str_lit "none_of_the_above";
    str_lit "reason"
  ];
  additionalProperties := false
|}.

(** Guided decoding: the generated text is to match [JSON_SCHEMA]. *)
Definition guided_params : GuidedDecodingParams := {| json_schema := JSON_SCHEMA |}.

Definition sampling_params : SamplingParams := {|
  temperature := FDec (str_lit "0.0");
  max_tokens := 256;
  guided_decoding := Some guided_params
|}.

(** The lists the collector appends to. *)
Record Lists : Type := mk_lists {
  raw_json_outputs : list pyval;
  indiv_list : list pyval;
  coll_list : list pyval;
  deliber_list : list pyval;
  align_list : list pyval;
  none_list : list pyval;
  reasons : list pyval
}.

Definition raw_json_outputs_append (v : pyval) : StErr Lists unit :=
  modify (fun '(mk_lists r i c d a n e) => mk_lists (r ++ [v]) i c d a n e).
Definition indiv_list_append (v : pyval) : StErr Lists unit :=
  modify (fun '(mk_lists r i c d a n e) => mk_lists r (i ++ [v]) c d a n e).
Definition coll_list_append (v : pyval) : StErr Lists unit :=
  modify (fun '(mk_lists r i c d a n e) => mk_lists r i (c ++ [v]) d a n e).
Definition deliber_list_append (v : pyval) : StErr Lists unit :=
  modify (fun '(mk_lists r i c d a n e) => mk_lists r i c (d ++ [v]) a n e).
Definition align_list_append (v : pyval) : StErr Lists unit :=
  modify (fun '(mk_lists r i c d a n e) => mk_lists r i c d (a ++ [v]) n e).
Definition none_list_append (v : pyval) : StErr Lists unit :=
  modify (fun '(mk_lists r i c d a n e) => mk_lists r i c d a (n ++ [v]) e).
Definition reasons_append (v : pyval) : StErr Lists unit :=
  modify (fun '(mk_lists r i c d a n e) => mk_lists r i c d a n (e ++ [v])).

Section Script.

Variable SYSTEM_INSTRUCTIONS : pystr.
Variable repr_labels : list pystr -> pystr.
Variable json_loads : pystr -> pyresult pyval.
Variable llm_generate : list pystr -> SamplingParams -> pyresult (list RequestOutput).

Definition column_not_found (df : DataFrame) : pyexc :=
  mk_exc ValueError
    (str_lit "Column '" ++ TEXT_COLUMN
     ++ str_lit "' not found in CSV. Available columns: "
     ++ repr_labels (labels df)).

(** The body of the loop that builds the prompts. *)
Definition build_prompt (c : pyval) : pyresult pystr :=
  p ← str_add (SYSTEM_INSTRUCTIONS ++ LF ++ LF ++ str_lit "Comment:" ++ LF) c;
  str_add p (PyStr (LF ++ LF ++ str_lit "Return ONLY the JSON object.")).

Definition build_prompts (comments : list pyval) : pyresult (list pystr) :=
  mapM build_prompt comments.

(** The body of the loop that collects the labels. *)
Definition collect (out : RequestOutput) : StErr Lists unit :=
  match outputs out with
  | [] =>
      raw_json_outputs_append (PyStr []);;
      indiv_list_append PyNone;;
      coll_list_append PyNone;;
      deliber_list_append PyNone;;
      align_list_append PyNone;;
      none_list_append PyNone;;
      reasons_append (PyStr (str_lit "LLM returned empty output"))
  | o :: _ =>
      let text := strip (text o) in
      raw_json_outputs_append (PyStr text);;
      try_except
        (parsed ← lift (json_loads text);
         v ← lift (py_get parsed (str_lit "individual_voice") PyNone);
         indiv_list_append v;;
         v ← lift (py_get parsed (str_lit "collective_voice") PyNone);
         coll_list_append v;;
         v ← lift (py_get parsed (str_lit "internal_deliberation") PyNone);
         deliber_list_append v;;
         v ← lift (py_get parsed (str_lit "align_with_company") PyNone);
         align_list_append v;;
         v ← lift (py_get parsed (str_lit "none_of_the_above") PyNone);
         none_list_append v;;
         v ← lift (py_get parsed (str_lit "reason") (PyStr []));
         reasons_append v)
        (fun e =>
           indiv_list_append PyNone;;
           coll_list_append PyNone;;
           deliber_list_append PyNone;;
           align_list_append PyNone;;
           none_list_append PyNone;;
           reasons_append (PyStr (str_lit "JSON parse error: " ++ exc_str e)))
  end.

Definition empty_lists : Lists := mk_lists [] [] [] [] [] [] [].

(** The columns added to the frame, in the order of the assignments. *)
Definition add_columns (df : DataFrame) (ls : Lists) : pyresult DataFrame :=
  df ← setitem df (str_lit "voice_label_raw_json") (raw_json_outputs ls);
  df ← setitem df (str_lit "individual_voice") (indiv_list ls);
  df ← setitem df (str_lit "collective_voice") (coll_list ls);
  df ← setitem df (str_lit "internal_deliberation") (deliber_list ls);
  df ← setitem df (str_lit "align_with_company") (align_list ls);
  df ← setitem df (str_lit "none_of_the_above") (none_list ls);
  setitem df (str_lit "reason") (reasons ls).

(** [if TEXT_COLUMN not in df.columns: raise ValueError(...)] *)
Definition check_text_column (df : DataFrame) : StErr (list event) unit :=
  if negb (contains TEXT_COLUMN df) then raise (column_not_found df) else mret tt.

(** [comments = df[TEXT_COLUMN].fillna('').tolist()] *)
Definition load_comments (df : DataFrame) : pyresult (list pyval) :=
  series ← getitem df TEXT_COLUMN;
  mret (tolist (fillna (PyStr []) series)).

(** [main()], from the frame that [pd.read_csv(INPUT_CSV)] returned. *)
Definition main (df : DataFrame) : StErr (list event) unit :=
  print (str_lit "Loading CSV: " ++ INPUT_CSV);;
  check_text_column df;;
  comments ← lift (load_comments df);
  print (str_lit "Loaded " ++ str_of_nat (length comments) ++ str_lit " comments.");;
  print (str_lit "Initializing LLM: " ++ MODEL_NAME);;
  emit (EvLLM MODEL_NAME MAX_MODEL_LEN);;
  prompts ← lift (build_prompts comments);
  print (str_lit "Sending prompts to LLM...");;
  emit (EvGenerate prompts sampling_params);;
  outputs ← lift (llm_generate prompts sampling_params);
  let '(ls, collected) := for_each outputs collect empty_lists in
  lift collected;;
  df ← lift (add_columns df ls);
  emit (EvToCsv OUTPUT_CSV df);;
  print (str_lit "Saved labeled CSV to " ++ OUTPUT_CSV).

End Script.
End rubric_0_shot.

(** ** [rubric_many_shots.py]

    The same pipeline with the worked examples in the instructions, no
    schema on the request and no decoding of the answer. *)
Module rubric_many_shots.
Import pandas vllm.

Definition INPUT_CSV : pystr := str_lit "comment_sheet.csv".
Definition OUTPUT_CSV : pystr := str_lit "rubric_many_shots.csv".
Definition TEXT_COLUMN : pystr := str_lit "body_text".

Definition MODEL_NAME : pystr := str_lit "openai/gpt-oss-120b".
Definition MAX_MODEL_LEN : Z := 16384.

Definition sampling_params : SamplingParams := {|
  temperature := FDec (str_lit "0.0");
  max_tokens := 256;
  guided_decoding := None
|}.

(** [labels.append(v)] *)
Definition labels_append (v : pyval) : StErr (list pyval) unit :=
  modify (fun labels => labels ++ [v]).

Section Script.

Variable SYSTEM_INSTRUCTIONS : pystr.
Variable repr_labels : list pystr -> pystr.
Variable llm_generate : list pystr -> SamplingParams -> pyresult (list RequestOutput).

Definition column_not_found (df : DataFrame) : pyexc :=
  mk_exc ValueError
    (str_lit "Column '" ++ TEXT_COLUMN
     ++ str_lit "' not found in CSV. Available columns: "
     ++ repr_labels (pandas.labels df)).

(** The body of the loop that builds the prompts. *)
Definition build_prompt (c : pyval) : pyresult pystr :=
  p ← str_add (SYSTEM_INSTRUCTIONS ++ LF ++ LF ++ str_lit "Comment:" ++ LF) c;
  str_add p (PyStr (LF ++ LF ++ str_lit "Label:")).

Definition build_prompts (comments : list pyval) : pyresult (list pystr) :=
  mapM build_prompt comments.

(** The body of the loop that collects the labels. *)
Definition collect (out : RequestOutput) : StErr (list pyval) unit :=
  match outputs out with
  | [] => labels_append (PyStr (str_lit "ERROR:EMPTY_OUTPUT"))
  | o :: _ =>
      let text := strip (text o) in
      labels_append (PyStr text)
  end.

(** [if TEXT_COLUMN not in df.columns: raise ValueError(...)] *)
Definition check_text_column (df : DataFrame) : StErr (list event) unit :=
  if negb (contains TEXT_COLUMN df) then raise (column_not_found df) else mret tt.

(** [comments = df[TEXT_COLUMN].fillna('').tolist()] *)
Definition load_comments (df : DataFrame) : pyresult (list pyval) :=
  series ← getitem df TEXT_COLUMN;
  mret (tolist (fillna (PyStr []) series)).

(** [main()], from the frame that [pd.read_csv(INPUT_CSV)] returned. *)
Definition main (df : DataFrame) : StErr (list event) unit :=
  print (str_lit "Loading CSV: " ++ INPUT_CSV);;
  check_text_column df;;
  comments ← lift (load_comments df);
  print (str_lit "Loaded " ++ str_of_nat (length comments) ++ str_lit " comments.");;
  print (str_lit "Initializing LLM: " ++ MODEL_NAME);;
  emit (EvLLM MODEL_NAME MAX_MODEL_LEN);;
  prompts ← lift (build_prompts comments);
  print (str_lit "Sending prompts to LLM...");;
  emit (EvGenerate prompts sampling_params);;
  outputs ← lift (llm_generate prompts sampling_params);
  let '(labels, collected) := for_each outputs collect [] in
  lift collected;;
  df ← lift (setitem df (str_lit "voice_label") labels);
  emit (EvToCsv OUTPUT_CSV df);;
  print (str_lit "Saved labeled CSV to " ++ OUTPUT_CSV).

End Script.
End rubric_many_shots.

(** ** Sample data for running the scripts *)
Module samples.
Import pandas vllm.

(** A short stand-in for the rubric text. *)
Definition instructions : pystr := str_lit "You will classify the comments.".

(** [repr] of a list of labels made of plain letters. *)
Definition repr_plain (ls : list pystr) : pystr :=
  str_lit "["
  ++ concat (imap (fun i l => (if i is 0 then [] else str_lit ", ")
                              ++ str_lit "'" ++ l ++ str_lit "'") ls)
  ++ str_lit "]".

Definition answer (s : pystr) : RequestOutput := {| outputs := [{| text := s |}] |}.
Definition no_answer : RequestOutput := {| outputs := [] |}.

(** An engine that answers every batch with the same results. *)
Definition canned (outs : list RequestOutput)
  : list pystr -> SamplingParams -> pyresult (list RequestOutput) :=
  fun _ _ => Ok outs.

Definition full_json : pystr :=
  str_lit "{" ++ [34%N] ++ str_lit "individual_voice" ++ [34%N] ++ str_lit ": true, "
  ++ [34%N] ++ str_lit "collective_voice" ++ [34%N] ++ str_lit ": false, "
  ++ [34%N] ++ str_lit "internal_deliberation" ++ [34%N] ++ str_lit ": false, "
  ++ [34%N] ++ str_lit "align_with_company" ++ [34%N] ++ str_lit ": false, "
  ++ [34%N] ++ str_lit "none_of_the_above" ++ [34%N] ++ str_lit ": false, "
  ++ [34%N] ++ str_lit "reason" ++ [34%N] ++ str_lit ": "
  ++ [34%N] ++ str_lit "Personal view." ++ [34%N] ++ str_lit "}".

(** An object with one label only. *)
Definition partial_json : pystr :=
  str_lit "{" ++ [34%N] ++ str_lit "collective_voice" ++ [34%N] ++ str_lit ": true}".

(** The same object with the absent fields spelled out as null and
    empty. *)
Definition explicit_json : pystr :=
  str_lit "{" ++ [34%N] ++ str_lit "individual_voice" ++ [34%N] ++ str_lit ": null, "
  ++ [34%N] ++ str_lit "collective_voice" ++ [34%N] ++ str_lit ": true, "
  ++ [34%N] ++ str_lit "internal_deliberation" ++ [34%N] ++ str_lit ": null, "
  ++ [34%N] ++ str_lit "align_with_company" ++ [34%N] ++ str_lit ": null, "
  ++ [34%N] ++ str_lit "none_of_the_above" ++ [34%N] ++ str_lit ": null, "
  ++ [34%N] ++ str_lit "reason" ++ [34%N] ++ str_lit ": " ++ [34%N; 34%N] ++ str_lit "}".

(** Two comments, the second one missing, next to an identifier column. *)
Definition sheet : DataFrame := {|
  index_len := 2;
  columns := [
    (str_lit "id", [PyInt 1; PyInt 2]);
    (str_lit "body_text",
       [PyStr (str_lit "I do not support this strike."); PyFloat FNaN])
  ]
|}.

(** A sheet without the text column. *)
Definition sheet_no_text : DataFrame := {|
  index_len := 2;
  columns := [(str_lit "id", [PyInt 1; PyInt 2]);
              (str_lit "text", [PyStr (str_lit "a"); PyStr (str_lit "b")])]
|}.

(** A sheet that already has columns named like the results. *)
Definition sheet_labelled : DataFrame := {|
  index_len := 1;
  columns := [
    (str_lit "body_text", [PyStr (str_lit "We stand together.")]);
    (str_lit "reason", [PyStr (str_lit "moderator note")]);
    (str_lit "voice_label", [PyStr (str_lit "hand label")])
  ]
|}.

End samples.

(** ** Derived views used in the proofs *)

(** One row of the seven result columns of the zero-shot script. *)
Record Row : Type := mk_row {
  row_raw : pyval;
  row_indiv : pyval;
  row_coll : pyval;
  row_deliber : pyval;
  row_align : pyval;
  row_none : pyval;
  row_reason : pyval
}.

(** One value appended to each of the seven lists. *)
Definition push_row (ls : rubric_0_shot.Lists) (r : Row) : rubric_0_shot.Lists :=
  rubric_0_shot.mk_lists
    (rubric_0_shot.raw_json_outputs ls ++ [row_raw r])
    (rubric_0_shot.indiv_list ls ++ [row_indiv r])
    (rubric_0_shot.coll_list ls ++ [row_coll r])
    (rubric_0_shot.deliber_list ls ++ [row_deliber r])
    (rubric_0_shot.align_list ls ++ [row_align r])
    (rubric_0_shot.none_list ls ++ [row_none r])
    (rubric_0_shot.reasons ls ++ [row_reason r]).

(** The [i]-th entries of the seven lists, when all are there. *)
Definition row_at (ls : rubric_0_shot.Lists) (i : nat) : option Row :=
  r ← rubric_0_shot.raw_json_outputs ls !! i;
  v1 ← rubric_0_shot.indiv_list ls !! i;
  v2 ← rubric_0_shot.coll_list ls !! i;
  v3 ← rubric_0_shot.deliber_list ls !! i;
  v4 ← rubric_0_shot.align_list ls !! i;
  v5 ← rubric_0_shot.none_list ls !! i;
  e ← rubric_0_shot.reasons ls !! i;
  Some (mk_row r v1 v2 v3 v4 v5 e).

(** Every one of the seven lists has [n] entries. *)
Definition all_length (ls : rubric_0_shot.Lists) (n : nat) : Prop :=
  length (rubric_0_shot.raw_json_outputs ls) = n
  ∧ length (rubric_0_shot.indiv_list ls) = n
  ∧ length (rubric_0_shot.coll_list ls) = n
  ∧ length (rubric_0_shot.deliber_list ls) = n
  ∧ length (rubric_0_shot.align_list ls) = n
  ∧ length (rubric_0_shot.none_list ls) = n
  ∧ length (rubric_0_shot.reasons ls) = n.

(** [d.get(k)] and [d.get(k, default)] on a dictionary. *)
Definition dict_get (d : list (pystr * pyval)) (k : pystr) (default : pyval) : pyval :=
  match dict_lookup d k with
  | Some v => v
  | None => default
  end.

(** The row that one pass through the body of the collecting loop
    leaves behind, read off the three ways the body can end. *)
Definition row_of (json_loads : pystr -> pyresult pyval) (out : vllm.RequestOutput)
  : Row :=
  match vllm.outputs out with
  | [] =>
      mk_row (PyStr []) PyNone PyNone PyNone PyNone PyNone
        (PyStr (str_lit "LLM returned empty output"))
  | o :: _ =>
      let text := strip (vllm.text o) in
      let failed (e : pyexc) :=
        mk_row (PyStr text) PyNone PyNone PyNone PyNone PyNone
          (PyStr (str_lit "JSON parse error: " ++ exc_str e)) in
      match json_loads text with
      | Raise e => failed e
      | Ok (PyDict d) =>
          mk_row (PyStr text)
            (dict_get d (str_lit "individual_voice") PyNone)
            (dict_get d (str_lit "collective_voice") PyNone)
            (dict_get d (str_lit "internal_deliberation") PyNone)
            (dict_get d (str_lit "align_with_company") PyNone)
            (dict_get d (str_lit "none_of_the_above") PyNone)
            (dict_get d (str_lit "reason") (PyStr []))
      | Ok v =>
          failed (mk_exc AttributeError
                    (str_lit "'" ++ type_name v
                     ++ str_lit "' object has no attribute 'get'"))
      end
  end.

(** The label that one pass through the body of the few-shot collecting
    loop appends. *)
Definition label_of (out : vllm.RequestOutput) : pyval :=
  match vllm.outputs out with
  | [] => PyStr (str_lit "ERROR:EMPTY_OUTPUT")
  | o :: _ => PyStr (strip (vllm.text o))
  end.

(** The names of the result columns. *)
Definition result_columns_0_shot : list pystr := [
  str_lit "voice_label_raw_json";
  str_lit "individual_voice";
  str_lit "collective_voice";
  str_lit "internal_deliberation";
  str_lit "align_with_company";
  str_lit "none_of_the_above";
  str_lit "reason"
].

Definition result_columns_many_shots : list pystr := [str_lit "voice_label"].

(** The result columns of the zero-shot script with their values. *)
Definition result_table_0_shot (ls : rubric_0_shot.Lists)
  : list (pystr * list pyval) := [
  (str_lit "voice_label_raw_json", rubric_0_shot.raw_json_outputs ls);
  (str_lit "individual_voice", rubric_0_shot.indiv_list ls);
  (str_lit "collective_voice", rubric_0_shot.coll_list ls);
  (str_lit "internal_deliberation", rubric_0_shot.deliber_list ls);
  (str_lit "align_with_company", rubric_0_shot.align_list ls);
  (str_lit "none_of_the_above", rubric_0_shot.none_list ls);
  (str_lit "reason", rubric_0_shot.reasons ls)
].

(** The assignments [df[k] = values] of a table of columns, in order. *)
Definition set_columns (cols table : list (pystr * list pyval))
  : list (pystr * list pyval) :=
  foldl (fun cols kc => pandas.set_column cols kc.1 kc.2) cols table.

(** A cell that holds text or nothing. *)
Definition text_or_missing (v : pyval) : Prop :=
  pandas.isna v = true ∨ ∃ s, v = PyStr s.

(** The trace of a run has written the frame [df']. *)
Definition written (trace : list event) (df' : pandas.DataFrame) : Prop :=
  ∃ path, EvToCsv path df' ∈ trace.

(** The trace of a run has reached the engine. *)
Definition reached_engine (trace : list event) : Prop :=
  ∃ model len, EvLLM model len ∈ trace.

(** The trace of a run has sent a batch to the engine. *)
Definition sent_batch (trace : list event) : Prop :=
  ∃ prompts sp, EvGenerate prompts sp ∈ trace.

(** The cell of row [i] in the column labelled [k]. *)
Definition cell (df : pandas.DataFrame) (k : pystr) (i : nat) : option pyval :=
  c ← pandas.column (pandas.columns df) k; c !! i.

(** Row [i] of the seven result columns of a frame. *)
Definition frame_row (df : pandas.DataFrame) (i : nat) : option Row :=
  r ← cell df (str_lit "voice_label_raw_json") i;
  v1 ← cell df (str_lit "individual_voice") i;
  v2 ← cell df (str_lit "collective_voice") i;
  v3 ← cell df (str_lit "internal_deliberation") i;
  v4 ← cell df (str_lit "align_with_company") i;
  v5 ← cell df (str_lit "none_of_the_above") i;
  e ← cell df (str_lit "reason") i;
  Some (mk_row r v1 v2 v3 v4 v5 e).

(** The engine answered the batch recorded in the trace with [outs]. *)
Definition answered
    (llm_generate : list pystr -> vllm.SamplingParams
                    -> pyresult (list vllm.RequestOutput))
    (trace : list event) (outs : list vllm.RequestOutput) : Prop :=
  ∃ prompts sp, EvGenerate prompts sp ∈ trace ∧ llm_generate prompts sp = Ok outs.

(** The zero-shot run ends normally and has written a frame whose
    result columns hold [r] in row [i]. *)
Definition zero_shot_writes (SYSTEM_INSTRUCTIONS : pystr)
    (repr_labels : list pystr -> pystr)
    (json_loads : pystr -> pyresult pyval)
    (llm_generate : list pystr -> vllm.SamplingParams
                    -> pyresult (list vllm.RequestOutput))
    (df : pandas.DataFrame) (i : nat) (r : Row) : Prop :=
  let run := rubric_0_shot.main SYSTEM_INSTRUCTIONS repr_labels json_loads
               llm_generate df [] in
  run.2 = Ok tt ∧ ∃ df', written run.1 df' ∧ frame_row df' i = Some r.

(** The few-shot run ends normally and has written a frame whose label
    column holds [v] in row [i]. *)
Definition many_shots_writes (SYSTEM_INSTRUCTIONS : pystr)
    (repr_labels : list pystr -> pystr)
    (llm_generate : list pystr -> vllm.SamplingParams
                    -> pyresult (list vllm.RequestOutput))
    (df : pandas.DataFrame) (i : nat) (v : pyval) : Prop :=
  let run := rubric_many_shots.main SYSTEM_INSTRUCTIONS repr_labels
               llm_generate df [] in
  run.2 = Ok tt ∧ ∃ df', written run.1 df' ∧ cell df' (str_lit "voice_label") i = Some v.

(** The text a cell contributes to its prompt once the missing cells
    are filled: its own when it is a string, none when it is missing. *)
Definition cell_text (v : pyval) : pystr :=
  match v with
  | PyStr s => s
  | _ => []
  end.

Definition is_str (v : pyval) : bool :=
  match v with
  | PyStr _ => true
  | _ => false
  end.

(** The prompt of either script for a row text. *)
Definition prompt_0_shot (SYSTEM_INSTRUCTIONS text : pystr) : pystr :=
  SYSTEM_INSTRUCTIONS ++ (LF ++ LF ++ str_lit "Comment:" ++ LF) ++ text
  ++ (LF ++ LF ++ str_lit "Return ONLY the JSON object.").

Definition prompt_many_shots (SYSTEM_INSTRUCTIONS text : pystr) : pystr :=
  SYSTEM_INSTRUCTIONS ++ (LF ++ LF ++ str_lit "Comment:" ++ LF) ++ text
  ++ (LF ++ LF ++ str_lit "Label:").

(** What [str + b] raises when [b] is not a string. *)
Definition concat_type_error (b : pyval) : pyexc :=
  mk_exc TypeError
    (str_lit "can only concatenate str (not " ++ [34%N] ++ type_name b
     ++ [34%N] ++ str_lit ") to str").

(** More sample sheets. *)
Module more_samples.
Import pandas.

(** A sheet whose text column was read as numbers from the second row on. *)
Definition sheet_numeric : DataFrame := {|
  index_len := 3;
  columns := [
    (str_lit "body_text", [PyStr (str_lit "first"); PyInt 42; PyStr (str_lit "third")])
  ]
|}.

(** A sheet with its header and no row. *)
Definition sheet_empty : DataFrame := {|
  index_len := 0;
  columns := [(str_lit "id", []); (str_lit "body_text", [])]
|}.

(** An engine that fails on every batch. *)
Definition failing (e : pyexc)
  : list pystr -> vllm.SamplingParams -> pyresult (list vllm.RequestOutput) :=
  fun _ _ => Raise e.

Definition out_of_memory : pyexc :=
  mk_exc ValueError (str_lit "CUDA out of memory").

End more_samples.

(** The batches a trace has sent the engine, in order. *)
Definition batches (trace : list event)
  : list (list pystr * vllm.SamplingParams) :=
  omap (fun ev => match ev with
                  | EvGenerate prompts sp => Some (prompts, sp)
                  | _ => None
                  end) trace.

(** The values a column takes as they are, whatever else is in the
    list assigned: booleans, [None] and strings.  A list with numbers in
    it is converted to one numeric type by the frame, which the
    assignment [setitem] does not follow. *)
Definition stored_as_given (v : pyval) : Prop :=
  match v with
  | PyNone | PyBool _ | PyStr _ => True
  | _ => False
  end.

Definition lists_stored_as_given (ls : rubric_0_shot.Lists) : Prop :=
  Forall stored_as_given (rubric_0_shot.raw_json_outputs ls)
  ∧ Forall stored_as_given (rubric_0_shot.indiv_list ls)
  ∧ Forall stored_as_given (rubric_0_shot.coll_list ls)
  ∧ Forall stored_as_given (rubric_0_shot.deliber_list ls)
  ∧ Forall stored_as_given (rubric_0_shot.align_list ls)
  ∧ Forall stored_as_given (rubric_0_shot.none_list ls)
  ∧ Forall stored_as_given (rubric_0_shot.reasons ls).

(** * Properties *)

(** ** Stripping *)

Lemma lstrip_split (s : pystr) :
  ∃ l, s = l ++ lstrip s ∧ Forall (fun c => isspace c = true) l.
Proof.
  induction s as [|c s IH]; simpl.
  - exists []. split; [done | constructor].
  - destruct (isspace c) eqn:Hc.
    + destruct IH as (l & Hs & Hl). exists (c :: l). split.
      * simpl. by rewrite <- Hs.
      * by constructor.
    + exists []. split; [done | constructor].
Qed.

Lemma lstrip_head (s : pystr) (c : N) (r : pystr) :
  lstrip s = c :: r → isspace c = false.
Proof.
  induction s as [|a s IH]; simpl; [done |].
  destruct (isspace a) eqn:Ha; [done |].
  intros [= <- <-]. done.
Qed.

Lemma rstrip_split (s : pystr) :
  ∃ r, s = rstrip s ++ r ∧ Forall (fun c => isspace c = true) r.
Proof.
  unfold rstrip. destruct (lstrip_split (rev s)) as (l & Hs & Hl).
  exists (rev l). split.
  - rewrite <- rev_app_distr, <- Hs. by rewrite rev_involutive.
  - apply Forall_forall. intros x Hx. rewrite Forall_forall in Hl.
    apply Hl. by apply list_elem_of_In, in_rev, list_elem_of_In.
Qed.

Lemma rstrip_last (s t : pystr) (c : N) :
  rstrip s = t ++ [c] → isspace c = false.
Proof.
  unfold rstrip. intros H.
  apply (f_equal (@rev N)) in H. rewrite rev_involutive, rev_app_distr in H.
  simpl in H. by apply lstrip_head in H.
Qed.

(** [strip] removes a run of whitespace at each end and nothing else,
    and what is left neither starts nor ends with whitespace. *)
Lemma strip_spec (s : pystr) :
  (∃ l r, s = l ++ strip s ++ r
          ∧ Forall (fun c => isspace c = true) l
          ∧ Forall (fun c => isspace c = true) r)
  ∧ (∀ c t, strip s = c :: t → isspace c = false)
  ∧ (∀ c t, strip s = t ++ [c] → isspace c = false).
Proof.
  unfold strip. split; [| split].
  - destruct (lstrip_split s) as (l & Hs & Hl).
    destruct (rstrip_split (lstrip s)) as (r & Hs' & Hr).
    exists l, r. split; [| done]. by rewrite <- Hs', <- Hs.
  - intros c t H.
    destruct (rstrip_split (lstrip s)) as (r & Hs' & _).
    rewrite H in Hs'. simpl in Hs'. by apply lstrip_head in Hs'.
  - intros c t H. by apply rstrip_last in H.
Qed.

(** ** The collecting loops *)

Section Collector.
Import rubric_0_shot.
Variable json_loads : pystr -> pyresult pyval.

(** Whichever way the body of the loop ends, it has appended one value
    to each list and raised nothing. *)
Lemma collect_row (out : vllm.RequestOutput) (ls : Lists) :
  collect json_loads out ls = (push_row ls (row_of json_loads out), Ok tt).
Proof.
  unfold collect, row_of. destruct ls as [r i c d a n e].
  destruct (vllm.outputs out) as [|o os]; [reflexivity |].
  cbv [mbind sterr_bind try_except lift modify raw_json_outputs_append].
  destruct (json_loads (strip (vllm.text o))) as [v|err]; [| reflexivity].
  destruct v; reflexivity.
Qed.

Lemma collect_all (outs : list vllm.RequestOutput) (ls : Lists) :
  for_each outs (collect json_loads) ls
  = (foldl push_row ls (row_of json_loads <$> outs), Ok tt).
Proof.
  revert ls. induction outs as [|out outs IH]; intros ls; [reflexivity |].
  simpl. unfold mbind at 1, sterr_bind at 1.
  rewrite collect_row. apply IH.
Qed.

End Collector.

Lemma push_rows_fields (ls : rubric_0_shot.Lists) (rows : list Row) :
  foldl push_row ls rows
  = rubric_0_shot.mk_lists
      (rubric_0_shot.raw_json_outputs ls ++ (row_raw <$> rows))
      (rubric_0_shot.indiv_list ls ++ (row_indiv <$> rows))
      (rubric_0_shot.coll_list ls ++ (row_coll <$> rows))
      (rubric_0_shot.deliber_list ls ++ (row_deliber <$> rows))
      (rubric_0_shot.align_list ls ++ (row_align <$> rows))
      (rubric_0_shot.none_list ls ++ (row_none <$> rows))
      (rubric_0_shot.reasons ls ++ (row_reason <$> rows)).
Proof.
  revert ls. induction rows as [|r rows IH]; intros ls.
  - destruct ls. simpl. by rewrite !app_nil_r.
  - simpl. rewrite IH. unfold push_row. simpl.
    by rewrite <- !app_assoc.
Qed.

Lemma row_at_rows (rows : list Row) (i : nat) :
  row_at (foldl push_row rubric_0_shot.empty_lists rows) i = rows !! i.
Proof.
  rewrite push_rows_fields. unfold row_at. simpl.
  rewrite !list_lookup_fmap.
  destruct (rows !! i) as [[]|]; reflexivity.
Qed.

Lemma all_length_rows (rows : list Row) :
  all_length (foldl push_row rubric_0_shot.empty_lists rows) (length rows).
Proof.
  rewrite push_rows_fields. unfold all_length. simpl.
  by rewrite !length_fmap.
Qed.

Lemma collect_labels_row (out : vllm.RequestOutput) (labels : list pyval) :
  rubric_many_shots.collect out labels = (labels ++ [label_of out], Ok tt).
Proof.
  unfold rubric_many_shots.collect, label_of.
  destruct (vllm.outputs out); reflexivity.
Qed.

Lemma collect_labels_all (outs : list vllm.RequestOutput) (labels : list pyval) :
  for_each outs rubric_many_shots.collect labels
  = (labels ++ (label_of <$> outs), Ok tt).
Proof.
  revert labels. induction outs as [|out outs IH]; intros labels.
  - simpl. by rewrite app_nil_r.
  - simpl. unfold mbind at 1, sterr_bind at 1.
    rewrite collect_labels_row, IH. by rewrite <- app_assoc.
Qed.

(** ** Frames *)

Lemma pystr_eqb_eq (a b : pystr) : pystr_eqb a b = true ↔ a = b.
Proof. unfold pystr_eqb. apply bool_decide_eq_true. Qed.

Lemma pystr_eqb_refl (a : pystr) : pystr_eqb a a = true.
Proof. by apply pystr_eqb_eq. Qed.

Lemma pystr_eqb_ne (a b : pystr) : a ≠ b → pystr_eqb a b = false.
Proof. unfold pystr_eqb. apply bool_decide_eq_false. Qed.

Section Columns.
Import pandas.
Implicit Types (cols table : list (pystr * list pyval)) (k : pystr) (v c : list pyval).

Lemma column_set_column_eq cols k v :
  column (set_column cols k v) k = Some v.
Proof.
  induction cols as [|[k' c'] cols IH]; simpl.
  - by rewrite pystr_eqb_refl.
  - destruct (pystr_eqb k' k) eqn:Hk; simpl; rewrite Hk; [done | apply IH].
Qed.

Lemma column_set_column_ne cols k k' v :
  k ≠ k' → column (set_column cols k v) k' = column cols k'.
Proof.
  intros Hne. induction cols as [|[k0 c0] cols IH]; simpl.
  - by rewrite pystr_eqb_ne.
  - destruct (pystr_eqb k0 k) eqn:Hk; simpl.
    + apply pystr_eqb_eq in Hk as ->. by rewrite pystr_eqb_ne.
    + by rewrite IH.
Qed.

Lemma set_column_fresh cols k v :
  k ∉ cols.*1 → set_column cols k v = cols ++ [(k, v)].
Proof.
  induction cols as [|[k' c'] cols IH]; simpl; [done |].
  intros Hk. apply not_elem_of_cons in Hk as [Hne Hk].
  rewrite pystr_eqb_ne by done. by rewrite IH.
Qed.

Lemma set_column_labels_present cols k v :
  k ∈ cols.*1 → (set_column cols k v).*1 = cols.*1.
Proof.
  induction cols as [|[k' c'] cols IH]; simpl.
  - by intros ?%elem_of_nil.
  - intros Hk. destruct (pystr_eqb k' k) eqn:Hkk; simpl; [done |].
    f_equal. apply IH. apply elem_of_cons in Hk as [->|Hk]; [| done].
    by rewrite pystr_eqb_refl in Hkk.
Qed.

Lemma set_column_labels cols k v :
  (set_column cols k v).*1 = cols.*1 ∨ (set_column cols k v).*1 = cols.*1 ++ [k].
Proof.
  destruct (decide (k ∈ cols.*1)) as [Hin|Hout].
  - left. by apply set_column_labels_present.
  - right. rewrite set_column_fresh by done. by rewrite fmap_app.
Qed.

Lemma set_column_NoDup cols k v :
  NoDup cols.*1 → NoDup (set_column cols k v).*1.
Proof.
  intros Hnd. destruct (decide (k ∈ cols.*1)) as [Hin|Hout].
  - by rewrite set_column_labels_present.
  - rewrite set_column_fresh, fmap_app by done. simpl.
    apply NoDup_app. split; [done |]. split.
    + intros x Hx ->%list_elem_of_singleton. done.
    + apply NoDup_singleton.
Qed.

Lemma set_column_Forall (P : pystr * list pyval → Prop) cols k v :
  (∀ k', P (k', v)) → Forall P cols → Forall P (set_column cols k v).
Proof.
  intros Hv. induction 1 as [|[k' c'] cols Hc Hcols IH]; simpl.
  - by repeat constructor.
  - destruct (pystr_eqb k' k); constructor; auto.
Qed.

(** A label of the frame has a column, as long as the index when the
    frame is well formed. *)
Lemma contains_column (df : DataFrame) k :
  contains k df = true → ∃ c, column (columns df) k = Some c ∧ (k, c) ∈ columns df.
Proof.
  unfold contains, labels. rewrite bool_decide_eq_true.
  induction (columns df) as [|[k' c'] cols IH]; simpl.
  - by intros ?%elem_of_nil.
  - intros Hk. destruct (pystr_eqb k' k) eqn:Hkk.
    + apply pystr_eqb_eq in Hkk as ->. exists c'. split; [done | by left].
    + apply elem_of_cons in Hk as [->|Hk].
      * by rewrite pystr_eqb_refl in Hkk.
      * destruct (IH Hk) as (c & Hc & Hin). exists c. split; [done | by right].
Qed.

Lemma column_None cols k : k ∉ cols.*1 → column cols k = None.
Proof.
  induction cols as [|[k' c'] cols IH]; simpl; [done |].
  intros [Hne Hk]%not_elem_of_cons. by rewrite pystr_eqb_ne, IH.
Qed.

Lemma column_elem_of cols k c : column cols k = Some c → (k, c) ∈ cols.
Proof.
  induction cols as [|[k' c'] cols IH]; simpl; [done |].
  destruct (pystr_eqb k' k) eqn:Hkk.
  - apply pystr_eqb_eq in Hkk as ->. intros [= ->]. by left.
  - intros H. right. by apply IH.
Qed.

Lemma set_columns_column_other cols table k :
  k ∉ table.*1 → column (set_columns cols table) k = column cols k.
Proof.
  unfold set_columns. revert cols.
  induction table as [|[k' c'] table IH]; intros cols; simpl; [done |].
  intros [Hne Hk]%not_elem_of_cons.
  rewrite IH by done. by apply column_set_column_ne.
Qed.

Lemma set_columns_fresh cols table :
  NoDup table.*1 → (∀ k, k ∈ table.*1 → k ∉ cols.*1) →
  set_columns cols table = cols ++ table.
Proof.
  unfold set_columns. revert cols.
  induction table as [|[k c] table IH]; intros cols; simpl.
  - intros _ _. by rewrite app_nil_r.
  - intros [Hk Hnd]%NoDup_cons Hfresh.
    rewrite set_column_fresh by (apply Hfresh; by left).
    rewrite IH; [by rewrite <- app_assoc | done |].
    intros k' Hk'. rewrite fmap_app. simpl.
    rewrite not_elem_of_app. split.
    + apply Hfresh. by right.
    + intros ->%list_elem_of_singleton. done.
Qed.

Lemma set_columns_labels_prefix cols table :
  cols.*1 `prefix_of` (set_columns cols table).*1.
Proof.
  unfold set_columns. revert cols.
  induction table as [|[k c] table IH]; intros cols; simpl; [done |].
  etrans; [| apply IH].
  destruct (set_column_labels cols k c) as [-> | ->]; [done |].
  by apply prefix_app_r.
Qed.

Lemma set_columns_NoDup cols table :
  NoDup cols.*1 → NoDup (set_columns cols table).*1.
Proof.
  unfold set_columns. revert cols.
  induction table as [|[k c] table IH]; intros cols; simpl; [done |].
  intros Hnd. apply IH. by apply set_column_NoDup.
Qed.

Lemma set_columns_Forall (P : pystr * list pyval → Prop) cols table :
  (∀ k k' c, P (k, c) → P (k', c)) →
  Forall P table → Forall P cols → Forall P (set_columns cols table).
Proof.
  intros HP. unfold set_columns. revert cols.
  induction table as [|[k c] table IH]; intros cols; simpl; [done |].
  intros [Hc Htable]%Forall_cons Hcols. apply IH; [done |].
  apply set_column_Forall; [| done]. intros k'. by apply (HP k).
Qed.

(** When the list is as long as the index, the assignment keeps the
    index and sets the column. *)
Lemma setitem_paired (df : DataFrame) k v :
  length v = index_len df →
  setitem df k v = Ok (mk_df (index_len df) (set_column (columns df) k v)).
Proof.
  intros Hlen. unfold setitem. by rewrite bool_decide_true.
Qed.

End Columns.

(** ** Whole runs *)

(** Membership of an event in an explicit trace. *)
Ltac trace_cases H :=
  repeat (rewrite ?elem_of_app, ?elem_of_cons, ?elem_of_nil in H);
  repeat match type of H with
         | _ ∨ _ => destruct H as [H|H]
         end;
  try discriminate H; try contradiction.

Section Run0.
Import pandas vllm rubric_0_shot.
Variable SYSTEM_INSTRUCTIONS : pystr.
Variable repr_labels : list pystr -> pystr.
Variable json_loads : pystr -> pyresult pyval.
Variable llm_generate : list pystr -> SamplingParams -> pyresult (list RequestOutput).

Local Abbreviation main0 := (main SYSTEM_INSTRUCTIONS repr_labels json_loads llm_generate).

Lemma zero_shot_run (df : DataFrame) :
  main0 df []
  = let p1 := EvPrint (str_lit "Loading CSV: " ++ INPUT_CSV) in
    if negb (contains TEXT_COLUMN df) then ([p1], Raise (column_not_found repr_labels df))
    else
      match load_comments df with
      | Raise e => ([p1], Raise e)
      | Ok comments =>
        let t1 := [p1;
                   EvPrint (str_lit "Loaded " ++ str_of_nat (length comments)
                            ++ str_lit " comments.");
                   EvPrint (str_lit "Initializing LLM: " ++ MODEL_NAME);
                   EvLLM MODEL_NAME MAX_MODEL_LEN] in
        match build_prompts SYSTEM_INSTRUCTIONS comments with
        | Raise e => (t1, Raise e)
        | Ok prompts =>
          let t2 := t1 ++ [EvPrint (str_lit "Sending prompts to LLM...");
                           EvGenerate prompts sampling_params] in
          match llm_generate prompts sampling_params with
          | Raise e => (t2, Raise e)
          | Ok outs =>
            match add_columns df (foldl push_row empty_lists
                                    (row_of json_loads <$> outs)) with
            | Raise e => (t2, Raise e)
            | Ok df' =>
              (t2 ++ [EvToCsv OUTPUT_CSV df';
                      EvPrint (str_lit "Saved labeled CSV to " ++ OUTPUT_CSV)],
               Ok tt)
            end
          end
        end
      end.
Proof.
  unfold main, check_text_column.
  cbv [mbind sterr_bind print emit modify lift raise mret sterr_ret].
  simpl app.
  destruct (negb (contains TEXT_COLUMN df)); [reflexivity |].
  destruct (load_comments df) as [comments|e]; [| reflexivity].
  destruct (build_prompts SYSTEM_INSTRUCTIONS comments) as [prompts|e]; [| reflexivity].
  destruct (llm_generate prompts sampling_params) as [outs|e]; [| reflexivity].
  rewrite collect_all.
  destruct (add_columns _ _) as [df'|e]; reflexivity.
Qed.

(** A batch in the trace is the list of prompts built from the loaded
    comments, sent with the script's sampling parameters. *)
Lemma zero_shot_sent (df : DataFrame) prompts sp :
  EvGenerate prompts sp ∈ (main0 df []).1 →
  contains TEXT_COLUMN df = true
  ∧ sp = sampling_params
  ∧ ∃ comments, load_comments df = Ok comments
                ∧ build_prompts SYSTEM_INSTRUCTIONS comments = Ok prompts.
Proof.
  rewrite zero_shot_run. cbv zeta.
  destruct (contains TEXT_COLUMN df); simpl negb; cbv iota;
    [| intros H; cbn [fst app] in H; trace_cases H].
  destruct (load_comments df) as [comments|e];
    [| intros H; cbn [fst app] in H; trace_cases H].
  destruct (build_prompts SYSTEM_INSTRUCTIONS comments) as [ps|e] eqn:Hps;
    [| intros H; cbn [fst app] in H; trace_cases H].
  intros H. split; [done |].
  assert (prompts = ps ∧ sp = sampling_params) as [-> ->]; [| eauto].
  destruct (llm_generate ps sampling_params) as [outs|e];
    [destruct (add_columns _ _) as [df'|e] |];
    cbn [fst app] in H; trace_cases H; by injection H as -> ->.
Qed.

(** With one value per row in each list, the seven assignments go
    through and keep the index. *)
Lemma add_columns_paired (df : DataFrame) (ls : Lists) :
  all_length ls (index_len df) →
  add_columns df ls
  = Ok (mk_df (index_len df) (set_columns (columns df) (result_table_0_shot ls))).
Proof.
  intros (H1 & H2 & H3 & H4 & H5 & H6 & H7). unfold add_columns.
  rewrite setitem_paired by done. cbn [mbind pyresult_bind index_len columns].
  rewrite setitem_paired by done. cbn [mbind pyresult_bind index_len columns].
  rewrite setitem_paired by done. cbn [mbind pyresult_bind index_len columns].
  rewrite setitem_paired by done. cbn [mbind pyresult_bind index_len columns].
  rewrite setitem_paired by done. cbn [mbind pyresult_bind index_len columns].
  rewrite setitem_paired by done. cbn [mbind pyresult_bind index_len columns].
  rewrite setitem_paired by done. reflexivity.
Qed.

(** A run whose batch the engine answered with one result per row ends
    normally, having written the frame with the result columns set. *)
Lemma zero_shot_answered (df : DataFrame) (outs : list RequestOutput) :
  answered llm_generate (main0 df []).1 outs →
  length outs = index_len df →
  let ls := foldl push_row empty_lists (row_of json_loads <$> outs) in
  let df' := mk_df (index_len df)
               (set_columns (columns df) (result_table_0_shot ls)) in
  (main0 df []).2 = Ok tt
  ∧ written (main0 df []).1 df'
  ∧ ∀ df'', written (main0 df []).1 df'' → df'' = df'.
Proof.
  intros (prompts & sp & Hsent & Hans) Hlen ls df'.
  destruct (zero_shot_sent _ _ _ Hsent) as (Hcol & -> & comments & Hload & Hbuild).
  assert (add_columns df ls = Ok df') as Hadd.
  { apply add_columns_paired. subst ls. rewrite <- Hlen, <- (length_fmap (row_of json_loads)).
    apply all_length_rows. }
  rewrite zero_shot_run. cbv zeta. rewrite Hcol. simpl negb. cbv iota.
  rewrite Hload, Hbuild, Hans. fold ls. rewrite Hadd. cbn [fst snd app].
  split; [done |]. split.
  - exists OUTPUT_CSV. repeat (rewrite elem_of_cons). tauto.
  - intros df'' (path & H). trace_cases H. by injection H as _ ->.
Qed.

(** Conversely, once the column is there and the prompts are built, the
    batch is sent. *)
Lemma zero_shot_sends (df : DataFrame) comments prompts :
  contains TEXT_COLUMN df = true →
  load_comments df = Ok comments →
  build_prompts SYSTEM_INSTRUCTIONS comments = Ok prompts →
  EvGenerate prompts sampling_params ∈ (main0 df []).1.
Proof.
  intros Hcol Hload Hbuild. rewrite zero_shot_run. cbv zeta.
  rewrite Hcol. simpl negb. cbv iota. rewrite Hload, Hbuild.
  destruct (llm_generate prompts sampling_params) as [outs|e];
    [destruct (add_columns _ _) as [df'|e] |];
    cbn [fst app]; repeat (rewrite elem_of_cons); tauto.
Qed.

End Run0.

Section Run1.
Import pandas vllm rubric_many_shots.
Variable SYSTEM_INSTRUCTIONS : pystr.
Variable repr_labels : list pystr -> pystr.
Variable llm_generate : list pystr -> SamplingParams -> pyresult (list RequestOutput).

Local Abbreviation main1 := (main SYSTEM_INSTRUCTIONS repr_labels llm_generate).

Lemma many_shots_run (df : DataFrame) :
  main1 df []
  = let p1 := EvPrint (str_lit "Loading CSV: " ++ INPUT_CSV) in
    if negb (contains TEXT_COLUMN df) then ([p1], Raise (column_not_found repr_labels df))
    else
      match load_comments df with
      | Raise e => ([p1], Raise e)
      | Ok comments =>
        let t1 := [p1;
                   EvPrint (str_lit "Loaded " ++ str_of_nat (length comments)
                            ++ str_lit " comments.");
                   EvPrint (str_lit "Initializing LLM: " ++ MODEL_NAME);
                   EvLLM MODEL_NAME MAX_MODEL_LEN] in
        match build_prompts SYSTEM_INSTRUCTIONS comments with
        | Raise e => (t1, Raise e)
        | Ok prompts =>
          let t2 := t1 ++ [EvPrint (str_lit "Sending prompts to LLM...");
                           EvGenerate prompts sampling_params] in
          match llm_generate prompts sampling_params with
          | Raise e => (t2, Raise e)
          | Ok outs =>
            match setitem df (str_lit "voice_label") (label_of <$> outs) with
            | Raise e => (t2, Raise e)
            | Ok df' =>
              (t2 ++ [EvToCsv OUTPUT_CSV df';
                      EvPrint (str_lit "Saved labeled CSV to " ++ OUTPUT_CSV)],
               Ok tt)
            end
          end
        end
      end.
Proof.
  unfold main, check_text_column.
  cbv [mbind sterr_bind print emit modify lift raise mret sterr_ret].
  simpl app.
  destruct (negb (contains TEXT_COLUMN df)); [reflexivity |].
  destruct (load_comments df) as [comments|e]; [| reflexivity].
  destruct (build_prompts SYSTEM_INSTRUCTIONS comments) as [prompts|e]; [| reflexivity].
  destruct (llm_generate prompts sampling_params) as [outs|e]; [| reflexivity].
  rewrite collect_labels_all. simpl app.
  destruct (setitem _ _ _) as [df'|e]; reflexivity.
Qed.

Lemma many_shots_sent (df : DataFrame) prompts sp :
  EvGenerate prompts sp ∈ (main1 df []).1 →
  contains TEXT_COLUMN df = true
  ∧ sp = sampling_params
  ∧ ∃ comments, load_comments df = Ok comments
                ∧ build_prompts SYSTEM_INSTRUCTIONS comments = Ok prompts.
Proof.
  rewrite many_shots_run. cbv zeta.
  destruct (contains TEXT_COLUMN df); simpl negb; cbv iota;
    [| intros H; cbn [fst app] in H; trace_cases H].
  destruct (load_comments df) as [comments|e];
    [| intros H; cbn [fst app] in H; trace_cases H].
  destruct (build_prompts SYSTEM_INSTRUCTIONS comments) as [ps|e] eqn:Hps;
    [| intros H; cbn [fst app] in H; trace_cases H].
  intros H. split; [done |].
  assert (prompts = ps ∧ sp = sampling_params) as [-> ->]; [| eauto].
  destruct (llm_generate ps sampling_params) as [outs|e];
    [destruct (setitem _ _ _) as [df'|e] |];
    cbn [fst app] in H; trace_cases H; by injection H as -> ->.
Qed.

Lemma many_shots_answered (df : DataFrame) (outs : list RequestOutput) :
  answered llm_generate (main1 df []).1 outs →
  length outs = index_len df →
  let df' := mk_df (index_len df)
               (set_column (columns df) (str_lit "voice_label") (label_of <$> outs)) in
  (main1 df []).2 = Ok tt
  ∧ written (main1 df []).1 df'
  ∧ ∀ df'', written (main1 df []).1 df'' → df'' = df'.
Proof.
  intros (prompts & sp & Hsent & Hans) Hlen df'.
  destruct (many_shots_sent _ _ _ Hsent) as (Hcol & -> & comments & Hload & Hbuild).
  rewrite many_shots_run. cbv zeta. rewrite Hcol. simpl negb. cbv iota.
  rewrite Hload, Hbuild, Hans.
  rewrite setitem_paired by (by rewrite length_fmap). fold df'. cbn [fst snd app].
  split; [done |]. split.
  - exists OUTPUT_CSV. repeat (rewrite elem_of_cons). tauto.
  - intros df'' (path & H). trace_cases H. by injection H as _ ->.
Qed.

Lemma many_shots_sends (df : DataFrame) comments prompts :
  contains TEXT_COLUMN df = true →
  load_comments df = Ok comments →
  build_prompts SYSTEM_INSTRUCTIONS comments = Ok prompts →
  EvGenerate prompts sampling_params ∈ (main1 df []).1.
Proof.
  intros Hcol Hload Hbuild. rewrite many_shots_run. cbv zeta.
  rewrite Hcol. simpl negb. cbv iota. rewrite Hload, Hbuild.
  destruct (llm_generate prompts sampling_params) as [outs|e];
    [destruct (setitem _ _ _) as [df'|e] |];
    cbn [fst app]; repeat (rewrite elem_of_cons); tauto.
Qed.

End Run1.

(** ** The sample sheet *)

Lemma sheet_wf : pandas.wf samples.sheet.
Proof.
  split.
  - apply (bool_decide_unpack _). vm_compute. reflexivity.
  - repeat constructor.
Qed.

Lemma sheet_labelled_wf : pandas.wf samples.sheet_labelled.
Proof.
  split.
  - apply (bool_decide_unpack _). vm_compute. reflexivity.
  - repeat constructor.
Qed.

(** A canned engine has answered the batch of a run on a sheet whose
    text column holds text. *)
Lemma canned_answered_0 (json_loads : pystr -> pyresult pyval)
    (df : pandas.DataFrame) (outs : list vllm.RequestOutput) comments prompts :
  pandas.contains rubric_0_shot.TEXT_COLUMN df = true →
  rubric_0_shot.load_comments df = Ok comments →
  rubric_0_shot.build_prompts samples.instructions comments = Ok prompts →
  answered (samples.canned outs)
    (rubric_0_shot.main samples.instructions samples.repr_plain json_loads
       (samples.canned outs) df []).1 outs.
Proof.
  intros Hcol Hload Hbuild. exists prompts, rubric_0_shot.sampling_params.
  split; [| reflexivity]. by eapply zero_shot_sends.
Qed.

Lemma canned_answered_many
    (df : pandas.DataFrame) (outs : list vllm.RequestOutput) comments prompts :
  pandas.contains rubric_many_shots.TEXT_COLUMN df = true →
  rubric_many_shots.load_comments df = Ok comments →
  rubric_many_shots.build_prompts samples.instructions comments = Ok prompts →
  answered (samples.canned outs)
    (rubric_many_shots.main samples.instructions samples.repr_plain
       (samples.canned outs) df []).1 outs.
Proof.
  intros Hcol Hload Hbuild. exists prompts, rubric_many_shots.sampling_params.
  split; [| reflexivity]. by eapply many_shots_sends.
Qed.

(** ** Row counts (C1) *)

Lemma set_columns_wf (df : pandas.DataFrame) (table : list (pystr * list pyval)) :
  pandas.wf df →
  Forall (fun kc => length kc.2 = pandas.index_len df) table →
  pandas.wf (pandas.mk_df (pandas.index_len df)
               (set_columns (pandas.columns df) table)).
Proof.
  intros [Hnd Hlen] Htable. split; simpl.
  - unfold pandas.labels. simpl. by apply set_columns_NoDup.
  - by apply set_columns_Forall.
Qed.

Lemma result_table_lengths (ls : rubric_0_shot.Lists) (n : nat) :
  all_length ls n → Forall (fun kc => length kc.2 = n) (result_table_0_shot ls).
Proof.
  intros (H1 & H2 & H3 & H4 & H5 & H6 & H7).
  unfold result_table_0_shot. by repeat constructor.
Qed.

Section RowCount.
Import pandas vllm.
Variables SYSTEM_INSTRUCTIONS_0 SYSTEM_INSTRUCTIONS_many : pystr.
Variable repr_labels : list pystr -> pystr.
Variable json_loads : pystr -> pyresult pyval.
Variables llm_0 llm_many : list pystr -> SamplingParams -> pyresult (list RequestOutput).

Local Abbreviation main0 :=
  (rubric_0_shot.main SYSTEM_INSTRUCTIONS_0 repr_labels json_loads llm_0).
Local Abbreviation main1 :=
  (rubric_many_shots.main SYSTEM_INSTRUCTIONS_many repr_labels llm_many).

(** C1.  For a frame as read from the CSV and a list of results with one
    entry per row: each collecting loop appends exactly one value per
    result to each of its lists and raises nothing; and a run whose
    batch the engine answered with these results writes exactly one
    frame, which has as many rows as the input, in its index and in
    every column, the result columns included. *)
Theorem output_rows_match_input (df : DataFrame) (outs : list RequestOutput) :
  wf df →
  length outs = index_len df →
  (∃ ls, for_each outs (rubric_0_shot.collect json_loads) rubric_0_shot.empty_lists
         = (ls, Ok tt)
         ∧ all_length ls (index_len df))
  ∧ (∃ labels, for_each outs rubric_many_shots.collect [] = (labels, Ok tt)
               ∧ length labels = index_len df)
  ∧ (answered llm_0 (main0 df []).1 outs →
     ∃ df', written (main0 df []).1 df'
            ∧ (∀ df'', written (main0 df []).1 df'' → df'' = df')
            ∧ index_len df' = index_len df ∧ wf df')
  ∧ (answered llm_many (main1 df []).1 outs →
     ∃ df', written (main1 df []).1 df'
            ∧ (∀ df'', written (main1 df []).1 df'' → df'' = df')
            ∧ index_len df' = index_len df ∧ wf df').
Proof.
  intros Hwf Hlen.
  assert (all_length (foldl push_row rubric_0_shot.empty_lists
                        (row_of json_loads <$> outs)) (index_len df)) as Hall.
  { rewrite <- Hlen, <- (length_fmap (row_of json_loads)). apply all_length_rows. }
  split; [| split; [| split]].
  - eexists. split; [apply collect_all | done].
  - eexists. split; [apply collect_labels_all |].
    simpl. by rewrite length_fmap.
  - intros Hans.
    destruct (zero_shot_answered _ _ _ _ _ _ Hans Hlen) as (_ & Hw & Huniq).
    eexists. split; [exact Hw |]. split; [exact Huniq |]. split; [done |].
    apply set_columns_wf; [done |]. by apply result_table_lengths.
  - intros Hans.
    destruct (many_shots_answered _ _ _ _ _ Hans Hlen) as (_ & Hw & Huniq).
    eexists. split; [exact Hw |]. split; [exact Huniq |]. split; [done |].
    refine (set_columns_wf df [(str_lit "voice_label", label_of <$> outs)] Hwf _).
    repeat constructor. simpl. by rewrite length_fmap.
Qed.

End RowCount.

(** The run on the sample sheet, with one answer and one empty result. *)
Lemma output_rows_match_input_witness :
  let outs := [samples.answer samples.full_json; samples.no_answer] in
  (∃ df', written (rubric_0_shot.main samples.instructions samples.repr_plain
                     json.loads (samples.canned outs) samples.sheet []).1 df'
          ∧ pandas.index_len df' = 2 ∧ pandas.wf df')
  ∧ (∃ df', written (rubric_many_shots.main samples.instructions samples.repr_plain
                       (samples.canned outs) samples.sheet []).1 df'
            ∧ pandas.index_len df' = 2 ∧ pandas.wf df').
Proof.
  intros outs.
  destruct (output_rows_match_input samples.instructions samples.instructions
              samples.repr_plain json.loads (samples.canned outs)
              (samples.canned outs) samples.sheet outs sheet_wf eq_refl)
    as (_ & _ & H0 & H1).
  split.
  - destruct H0 as (df' & Hw & _ & Hn & Hwf).
    + eapply canned_answered_0; reflexivity.
    + exists df'. auto.
  - destruct H1 as (df' & Hw & _ & Hn & Hwf).
    + eapply canned_answered_many; reflexivity.
    + exists df'. auto.
Defined.

(** ** The text column (C2, C7) *)

Lemma load_comments_0 (df : pandas.DataFrame) :
  pandas.contains rubric_0_shot.TEXT_COLUMN df = true →
  ∃ series, pandas.column (pandas.columns df) rubric_0_shot.TEXT_COLUMN = Some series
            ∧ rubric_0_shot.load_comments df
              = Ok (pandas.fillna (PyStr []) series).
Proof.
  intros (series & Hcol & _)%contains_column. exists series. split; [done |].
  unfold rubric_0_shot.load_comments, pandas.getitem. by rewrite Hcol.
Qed.

Lemma load_comments_many (df : pandas.DataFrame) :
  pandas.contains rubric_many_shots.TEXT_COLUMN df = true →
  ∃ series, pandas.column (pandas.columns df) rubric_many_shots.TEXT_COLUMN = Some series
            ∧ rubric_many_shots.load_comments df
              = Ok (pandas.fillna (PyStr []) series).
Proof.
  intros (series & Hcol & _)%contains_column. exists series. split; [done |].
  unfold rubric_many_shots.load_comments, pandas.getitem. by rewrite Hcol.
Qed.

Section MissingColumn.
Import pandas vllm.
Variables SYSTEM_INSTRUCTIONS_0 SYSTEM_INSTRUCTIONS_many : pystr.
Variable repr_labels : list pystr -> pystr.
Variable json_loads : pystr -> pyresult pyval.
Variables llm_0 llm_many : list pystr -> SamplingParams -> pyresult (list RequestOutput).

Local Abbreviation main0 :=
  (rubric_0_shot.main SYSTEM_INSTRUCTIONS_0 repr_labels json_loads llm_0).
Local Abbreviation main1 :=
  (rubric_many_shots.main SYSTEM_INSTRUCTIONS_many repr_labels llm_many).

(** C2.  On a frame without the text column each script stops right
    after its first console line with a [ValueError] whose message
    contains the name of the column; the engine is not started and no
    batch is sent.  On a frame with the column the check raises nothing
    and the run goes on to start the engine. *)
Theorem missing_text_column_is_fatal (df : DataFrame) :
  (contains rubric_0_shot.TEXT_COLUMN df = false →
   main0 df [] = ([EvPrint (str_lit "Loading CSV: " ++ rubric_0_shot.INPUT_CSV)],
                  Raise (rubric_0_shot.column_not_found repr_labels df))
   ∧ main1 df [] = ([EvPrint (str_lit "Loading CSV: " ++ rubric_many_shots.INPUT_CSV)],
                    Raise (rubric_many_shots.column_not_found repr_labels df))
   ∧ exc_type (rubric_0_shot.column_not_found repr_labels df) = ValueError
   ∧ exc_type (rubric_many_shots.column_not_found repr_labels df) = ValueError
   ∧ (∃ before after,
        exc_str (rubric_0_shot.column_not_found repr_labels df)
        = before ++ rubric_0_shot.TEXT_COLUMN ++ after
        ∧ exc_str (rubric_many_shots.column_not_found repr_labels df)
          = before ++ rubric_many_shots.TEXT_COLUMN ++ after)
   ∧ ¬ reached_engine (main0 df []).1 ∧ ¬ sent_batch (main0 df []).1
   ∧ ¬ reached_engine (main1 df []).1 ∧ ¬ sent_batch (main1 df []).1)
  ∧ (contains rubric_0_shot.TEXT_COLUMN df = true →
     (∀ trace, rubric_0_shot.check_text_column repr_labels df trace = (trace, Ok tt))
     ∧ (∀ trace, rubric_many_shots.check_text_column repr_labels df trace
                 = (trace, Ok tt))
     ∧ reached_engine (main0 df []).1
     ∧ reached_engine (main1 df []).1).
Proof.
  split.
  - intros Hcol.
    assert (main0 df [] = ([EvPrint (str_lit "Loading CSV: " ++ rubric_0_shot.INPUT_CSV)],
                           Raise (rubric_0_shot.column_not_found repr_labels df))) as H0.
    { rewrite zero_shot_run. cbv zeta. by rewrite Hcol. }
    assert (main1 df [] = ([EvPrint (str_lit "Loading CSV: " ++ rubric_many_shots.INPUT_CSV)],
                           Raise (rubric_many_shots.column_not_found repr_labels df))) as H1.
    { rewrite many_shots_run. cbv zeta.
      change rubric_many_shots.TEXT_COLUMN with rubric_0_shot.TEXT_COLUMN.
      by rewrite Hcol. }
    rewrite H0, H1. cbn [fst].
    split; [done |]. split; [done |]. split; [done |]. split; [done |].
    split; [by exists (str_lit "Column '"),
                      (str_lit "' not found in CSV. Available columns: "
                       ++ repr_labels (labels df)) |].
    repeat split.
    + intros (m & l & H). trace_cases H.
    + intros (p & sp & H). trace_cases H.
    + intros (m & l & H). trace_cases H.
    + intros (p & sp & H). trace_cases H.
  - intros Hcol. split; [| split; [| split]].
    + intros trace. unfold rubric_0_shot.check_text_column. by rewrite Hcol.
    + intros trace. unfold rubric_many_shots.check_text_column.
      change rubric_many_shots.TEXT_COLUMN with rubric_0_shot.TEXT_COLUMN.
      by rewrite Hcol.
    + destruct (load_comments_0 df Hcol) as (series & _ & Hload).
      exists rubric_0_shot.MODEL_NAME, rubric_0_shot.MAX_MODEL_LEN.
      rewrite zero_shot_run. cbv zeta. rewrite Hcol. simpl negb. cbv iota.
      rewrite Hload.
      destruct (rubric_0_shot.build_prompts _ _) as [prompts|e];
        [destruct (llm_0 _ _) as [outs|e];
         [destruct (rubric_0_shot.add_columns _ _) as [df'|e] |] |];
        cbn [fst app]; repeat (rewrite elem_of_cons); tauto.
    + destruct (load_comments_many df Hcol) as (series & _ & Hload).
      exists rubric_many_shots.MODEL_NAME, rubric_many_shots.MAX_MODEL_LEN.
      rewrite many_shots_run. cbv zeta.
      change (contains rubric_many_shots.TEXT_COLUMN df)
        with (contains rubric_0_shot.TEXT_COLUMN df).
      rewrite Hcol. simpl negb. cbv iota.
      rewrite Hload.
      destruct (rubric_many_shots.build_prompts _ _) as [prompts|e];
        [destruct (llm_many _ _) as [outs|e];
         [destruct (setitem _ _ _) as [df'|e] |] |];
        cbn [fst app]; repeat (rewrite elem_of_cons); tauto.
Qed.

End MissingColumn.

(** The sheet without the text column, and the sample sheet. *)
Lemma missing_text_column_is_fatal_witness :
  (rubric_0_shot.main samples.instructions samples.repr_plain json.loads
     (samples.canned []) samples.sheet_no_text []).2
  = Raise (mk_exc ValueError
             (str_lit "Column 'body_text' not found in CSV. Available columns: ['id', 'text']"))
  ∧ ¬ sent_batch
        (rubric_0_shot.main samples.instructions samples.repr_plain json.loads
           (samples.canned []) samples.sheet_no_text []).1
  ∧ reached_engine
      (rubric_0_shot.main samples.instructions samples.repr_plain json.loads
         (samples.canned []) samples.sheet []).1.
Proof.
  destruct (missing_text_column_is_fatal samples.instructions samples.instructions
              samples.repr_plain json.loads (samples.canned []) (samples.canned [])
              samples.sheet_no_text) as [Hmissing _].
  destruct (missing_text_column_is_fatal samples.instructions samples.instructions
              samples.repr_plain json.loads (samples.canned []) (samples.canned [])
              samples.sheet) as [_ Hpresent].
  destruct (Hmissing eq_refl) as (H0 & _ & _ & _ & _ & _ & Hsent & _).
  destruct (Hpresent eq_refl) as (_ & _ & Hreached & _).
  split; [| split; [exact Hsent | exact Hreached]].
  rewrite H0. reflexivity.
Defined.

Lemma fillna_not_na (value : pyval) (series : list pyval) :
  pandas.isna value = false →
  Forall (fun c => pandas.isna c = false) (pandas.fillna value series).
Proof.
  intros Hvalue. unfold pandas.fillna. apply Forall_fmap, Forall_forall.
  intros v _. simpl. by destruct (pandas.isna v) eqn:Hv.
Qed.

Lemma fillna_lookup (value : pyval) (series : list pyval) (i : nat) (v : pyval) :
  series !! i = Some v →
  pandas.fillna value series !! i = Some (if pandas.isna v then value else v).
Proof.
  intros Hv. unfold pandas.fillna. by rewrite list_lookup_fmap, Hv.
Qed.

(** C7.  On a frame that has the text column, the comment list of either
    script is that column with each missing cell replaced by the empty
    string and every other cell as it is: one entry per cell, in order,
    none of them missing, and one per row of a frame as read from the
    CSV. *)
Theorem loader_fills_missing (df : pandas.DataFrame) :
  pandas.contains rubric_0_shot.TEXT_COLUMN df = true →
  ∃ series comments,
    (rubric_0_shot.TEXT_COLUMN, series) ∈ pandas.columns df
    ∧ pandas.column (pandas.columns df) rubric_0_shot.TEXT_COLUMN = Some series
    ∧ rubric_0_shot.load_comments df = Ok comments
    ∧ rubric_many_shots.load_comments df = Ok comments
    ∧ length comments = length series
    ∧ (∀ i v, series !! i = Some v →
              comments !! i = Some (if pandas.isna v then PyStr [] else v))
    ∧ Forall (fun c => pandas.isna c = false) comments
    ∧ (pandas.wf df → length comments = pandas.index_len df).
Proof.
  intros Hcol.
  destruct (load_comments_0 df Hcol) as (series & Hseries & Hload0).
  destruct (load_comments_many df Hcol) as (series' & Hseries' & Hload1).
  change rubric_many_shots.TEXT_COLUMN with rubric_0_shot.TEXT_COLUMN in Hseries'.
  rewrite Hseries in Hseries'. injection Hseries' as <-.
  exists series, (pandas.fillna (PyStr []) series).
  pose proof (column_elem_of _ _ _ Hseries) as Hin.
  split; [done |]. split; [done |]. split; [done |]. split; [done |].
  split; [apply length_fmap |].
  split; [intros i v; apply fillna_lookup |].
  split; [by apply fillna_not_na |].
  intros [_ Hlen]. unfold pandas.fillna. rewrite length_fmap.
  rewrite Forall_forall in Hlen. apply (Hlen _ Hin).
Qed.

(** The sample sheet: one comment and one missing cell. *)
Lemma loader_fills_missing_witness :
  ∃ series comments,
    (rubric_0_shot.TEXT_COLUMN, series) ∈ pandas.columns samples.sheet
    ∧ pandas.column (pandas.columns samples.sheet) rubric_0_shot.TEXT_COLUMN
      = Some series
    ∧ rubric_0_shot.load_comments samples.sheet = Ok comments
    ∧ rubric_many_shots.load_comments samples.sheet = Ok comments
    ∧ length comments = length series
    ∧ (∀ i v, series !! i = Some v →
              comments !! i = Some (if pandas.isna v then PyStr [] else v))
    ∧ Forall (fun c => pandas.isna c = false) comments
    ∧ (pandas.wf samples.sheet → length comments = pandas.index_len samples.sheet).
Proof.
  apply (loader_fills_missing samples.sheet). reflexivity.
Defined.

(** ** Prompts (C6) *)

Lemma mapM_Ok {A B C : Type} (f : B → pyresult C) (h : A → B) (g : A → C)
    (l : list A) :
  (∀ a, f (h a) = Ok (g a)) → mapM f (h <$> l) = Ok (g <$> l).
Proof.
  intros Hf. induction l as [|a l IH]; [reflexivity |].
  cbn [mapM fmap list_fmap]. rewrite Hf.
  change (list_fmap A B h l) with (h <$> l). rewrite IH. reflexivity.
Qed.

Example delimiter_code_points :
  LF ++ LF ++ str_lit "Comment:" ++ LF
  = [10; 10; 67; 111; 109; 109; 101; 110; 116; 58; 10]%N.
Proof. reflexivity. Qed.

(** C6.  For any instruction text and any row text, the empty one
    included, the prompt is the instructions, the delimiter, the row text
    as it is and the closing directive, one after the other; building it
    for a string never raises, for one row and for a whole list. *)
Theorem prompt_is_plain_concatenation (SYSTEM_INSTRUCTIONS text : pystr) :
  rubric_0_shot.build_prompt SYSTEM_INSTRUCTIONS (PyStr text)
  = Ok (SYSTEM_INSTRUCTIONS ++ (LF ++ LF ++ str_lit "Comment:" ++ LF) ++ text
        ++ (LF ++ LF ++ str_lit "Return ONLY the JSON object."))
  ∧ rubric_many_shots.build_prompt SYSTEM_INSTRUCTIONS (PyStr text)
    = Ok (SYSTEM_INSTRUCTIONS ++ (LF ++ LF ++ str_lit "Comment:" ++ LF) ++ text
          ++ (LF ++ LF ++ str_lit "Label:"))
  ∧ rubric_0_shot.build_prompt SYSTEM_INSTRUCTIONS (PyStr [])
    = Ok (SYSTEM_INSTRUCTIONS ++ (LF ++ LF ++ str_lit "Comment:" ++ LF)
          ++ (LF ++ LF ++ str_lit "Return ONLY the JSON object."))
  ∧ rubric_many_shots.build_prompt SYSTEM_INSTRUCTIONS (PyStr [])
    = Ok (SYSTEM_INSTRUCTIONS ++ (LF ++ LF ++ str_lit "Comment:" ++ LF)
          ++ (LF ++ LF ++ str_lit "Label:"))
  ∧ (∀ texts : list pystr,
       rubric_0_shot.build_prompts SYSTEM_INSTRUCTIONS (PyStr <$> texts)
       = Ok ((fun t => SYSTEM_INSTRUCTIONS ++ (LF ++ LF ++ str_lit "Comment:" ++ LF)
                       ++ t ++ (LF ++ LF ++ str_lit "Return ONLY the JSON object."))
               <$> texts)
       ∧ rubric_many_shots.build_prompts SYSTEM_INSTRUCTIONS (PyStr <$> texts)
         = Ok ((fun t => SYSTEM_INSTRUCTIONS ++ (LF ++ LF ++ str_lit "Comment:" ++ LF)
                         ++ t ++ (LF ++ LF ++ str_lit "Label:"))
                 <$> texts)).
Proof.
  assert (∀ t, rubric_0_shot.build_prompt SYSTEM_INSTRUCTIONS (PyStr t)
               = Ok (SYSTEM_INSTRUCTIONS ++ (LF ++ LF ++ str_lit "Comment:" ++ LF) ++ t
                     ++ (LF ++ LF ++ str_lit "Return ONLY the JSON object."))) as H0.
  { intros t. unfold rubric_0_shot.build_prompt, str_add.
    cbn [mbind pyresult_bind]. f_equal. by rewrite <- !app_assoc. }
  assert (∀ t, rubric_many_shots.build_prompt SYSTEM_INSTRUCTIONS (PyStr t)
               = Ok (SYSTEM_INSTRUCTIONS ++ (LF ++ LF ++ str_lit "Comment:" ++ LF) ++ t
                     ++ (LF ++ LF ++ str_lit "Label:"))) as H1.
  { intros t. unfold rubric_many_shots.build_prompt, str_add.
    cbn [mbind pyresult_bind]. f_equal. by rewrite <- !app_assoc. }
  split; [apply H0 |]. split; [apply H1 |].
  split; [apply (H0 []) |]. split; [apply (H1 []) |].
  intros texts. unfold rubric_0_shot.build_prompts, rubric_many_shots.build_prompts.
  split.
  - by apply mapM_Ok.
  - by apply mapM_Ok.
Qed.

(** ** Rows of the result columns *)

Lemma column_set_columns_in (cols table : list (pystr * list pyval))
    (k : pystr) (v : list pyval) :
  NoDup table.*1 → (k, v) ∈ table →
  pandas.column (set_columns cols table) k = Some v.
Proof.
  revert cols. induction table as [|[k' v'] table IH]; intros cols Hnd Hin.
  - by apply elem_of_nil in Hin.
  - simpl in Hnd. apply NoDup_cons in Hnd as [Hk' Hnd].
    apply elem_of_cons in Hin as [[= -> ->]|Hin].
    + unfold set_columns. simpl. fold (set_columns (pandas.set_column cols k' v') table).
      rewrite set_columns_column_other by done. apply column_set_column_eq.
    + unfold set_columns. simpl. fold (set_columns (pandas.set_column cols k' v') table).
      by apply IH.
Qed.

Lemma result_columns_NoDup (ls : rubric_0_shot.Lists) :
  NoDup (result_table_0_shot ls).*1.
Proof. apply (bool_decide_unpack _). vm_compute. reflexivity. Qed.

(** The rows of the result columns of the written frame are the rows of
    the lists. *)
Lemma frame_row_set_columns (n : nat) (cols : list (pystr * list pyval))
    (ls : rubric_0_shot.Lists) (i : nat) :
  frame_row (pandas.mk_df n (set_columns cols (result_table_0_shot ls))) i
  = row_at ls i.
Proof.
  unfold frame_row, cell, row_at. cbn [pandas.columns].
  pose proof (result_columns_NoDup ls) as Hnd.
  assert (∀ k v, (k, v) ∈ result_table_0_shot ls →
                 pandas.column (set_columns cols (result_table_0_shot ls)) k = Some v)
    as Hcol by (intros k v; by apply column_set_columns_in).
  rewrite (Hcol (str_lit "voice_label_raw_json") (rubric_0_shot.raw_json_outputs ls)),
    (Hcol (str_lit "individual_voice") (rubric_0_shot.indiv_list ls)),
    (Hcol (str_lit "collective_voice") (rubric_0_shot.coll_list ls)),
    (Hcol (str_lit "internal_deliberation") (rubric_0_shot.deliber_list ls)),
    (Hcol (str_lit "align_with_company") (rubric_0_shot.align_list ls)),
    (Hcol (str_lit "none_of_the_above") (rubric_0_shot.none_list ls)),
    (Hcol (str_lit "reason") (rubric_0_shot.reasons ls));
    [reflexivity | ..]; unfold result_table_0_shot;
    repeat (rewrite elem_of_cons); tauto.
Qed.

Lemma collected_row_at (json_loads : pystr -> pyresult pyval)
    (pre post : list vllm.RequestOutput) (out : vllm.RequestOutput) :
  row_at (foldl push_row rubric_0_shot.empty_lists
            (row_of json_loads <$> (pre ++ out :: post))) (length pre)
  = Some (row_of json_loads out).
Proof.
  rewrite row_at_rows, list_lookup_fmap.
  by rewrite list_lookup_middle.
Qed.

(** A run answered with one result per row writes, for each result, the
    row that the loop body leaves for it. *)
Lemma zero_shot_writes_row (SYSTEM_INSTRUCTIONS : pystr)
    (repr_labels : list pystr -> pystr) (json_loads : pystr -> pyresult pyval)
    (llm_generate : list pystr -> vllm.SamplingParams
                    -> pyresult (list vllm.RequestOutput))
    (df : pandas.DataFrame) (pre post : list vllm.RequestOutput)
    (out : vllm.RequestOutput) :
  answered llm_generate
    (rubric_0_shot.main SYSTEM_INSTRUCTIONS repr_labels json_loads llm_generate
       df []).1 (pre ++ out :: post) →
  length (pre ++ out :: post) = pandas.index_len df →
  zero_shot_writes SYSTEM_INSTRUCTIONS repr_labels json_loads llm_generate df
    (length pre) (row_of json_loads out).
Proof.
  intros Hans Hlen.
  destruct (zero_shot_answered _ _ _ _ _ _ Hans Hlen) as (Hok & Hw & _).
  split; [exact Hok |]. eexists. split; [exact Hw |].
  rewrite frame_row_set_columns. apply collected_row_at.
Qed.

Lemma many_shots_writes_label (SYSTEM_INSTRUCTIONS : pystr)
    (repr_labels : list pystr -> pystr)
    (llm_generate : list pystr -> vllm.SamplingParams
                    -> pyresult (list vllm.RequestOutput))
    (df : pandas.DataFrame) (pre post : list vllm.RequestOutput)
    (out : vllm.RequestOutput) :
  answered llm_generate
    (rubric_many_shots.main SYSTEM_INSTRUCTIONS repr_labels llm_generate df []).1
    (pre ++ out :: post) →
  length (pre ++ out :: post) = pandas.index_len df →
  many_shots_writes SYSTEM_INSTRUCTIONS repr_labels llm_generate df
    (length pre) (label_of out).
Proof.
  intros Hans Hlen.
  destruct (many_shots_answered _ _ _ _ _ Hans Hlen) as (Hok & Hw & _).
  split; [exact Hok |]. eexists. split; [exact Hw |].
  unfold cell. cbn [pandas.columns]. rewrite column_set_column_eq. simpl.
  rewrite list_lookup_fmap. by rewrite list_lookup_middle.
Qed.

(** What the zero-shot loop leaves for the result at position
    [length pre]: the loop ends normally with one entry per result in
    every list, and the entries at that position form the row [r]. *)
Lemma collected (json_loads : pystr -> pyresult pyval)
    (pre post : list vllm.RequestOutput) (out : vllm.RequestOutput) :
  ∃ ls, for_each (pre ++ out :: post) (rubric_0_shot.collect json_loads)
          rubric_0_shot.empty_lists = (ls, Ok tt)
        ∧ row_at ls (length pre) = Some (row_of json_loads out)
        ∧ all_length ls (length (pre ++ out :: post)).
Proof.
  eexists. split; [apply collect_all |]. split.
  - apply collected_row_at.
  - rewrite <- (length_fmap (row_of json_loads)). apply all_length_rows.
Qed.

(** ** Rows that fail (C3, C4) *)

(** C3.  Zero-shot: when decoding the stripped text of a result raises,
    the loop goes on to its end without raising and every list gets one
    entry per result; the entries for that result are the stripped text,
    five times [None], and the reason [JSON parse error: ] followed by
    the description of the exception.  A run answered with one result per
    row ends normally with that row in the written frame. *)
Theorem parse_failure_is_recorded
    (json_loads : pystr -> pyresult pyval)
    (pre post : list vllm.RequestOutput) (out : vllm.RequestOutput)
    (o : vllm.CompletionOutput) (os : list vllm.CompletionOutput) (e : pyexc) :
  vllm.outputs out = o :: os →
  json_loads (strip (vllm.text o)) = Raise e →
  let failed := mk_row (PyStr (strip (vllm.text o)))
                  PyNone PyNone PyNone PyNone PyNone
                  (PyStr (str_lit "JSON parse error: " ++ exc_str e)) in
  (∃ ls, for_each (pre ++ out :: post) (rubric_0_shot.collect json_loads)
           rubric_0_shot.empty_lists = (ls, Ok tt)
         ∧ row_at ls (length pre) = Some failed
         ∧ all_length ls (length (pre ++ out :: post)))
  ∧ (∀ SYSTEM_INSTRUCTIONS repr_labels llm_generate df,
       answered llm_generate
         (rubric_0_shot.main SYSTEM_INSTRUCTIONS repr_labels json_loads
            llm_generate df []).1 (pre ++ out :: post) →
       length (pre ++ out :: post) = pandas.index_len df →
       zero_shot_writes SYSTEM_INSTRUCTIONS repr_labels json_loads llm_generate df
         (length pre) failed).
Proof.
  intros Hout Hraise failed.
  assert (row_of json_loads out = failed) as Hrow.
  { unfold row_of. by rewrite Hout, Hraise. }
  rewrite <- Hrow. split.
  - apply collected.
  - intros SI repr_labels llm df. apply zero_shot_writes_row.
Qed.

(** An opening brace alone in the first row, nothing in the second. *)
Lemma parse_failure_is_recorded_witness :
  zero_shot_writes samples.instructions samples.repr_plain json.loads
    (samples.canned [samples.answer (str_lit " {"); samples.no_answer])
    samples.sheet 0
    (mk_row (PyStr (str_lit "{")) PyNone PyNone PyNone PyNone PyNone
       (PyStr (str_lit "JSON parse error: Expecting property name enclosed in double quotes: line 1 column 2 (char 1)"))).
Proof.
  apply (parse_failure_is_recorded json.loads [] [samples.no_answer]
           (samples.answer (str_lit " {")) {| vllm.text := str_lit " {" |} []
           (json.decode_error "Expecting property name enclosed in double quotes"
              (str_lit "{") 1)
           eq_refl eq_refl).
  - eapply canned_answered_0; reflexivity.
  - reflexivity.
Defined.

(** C4.  A result without completions raises nothing in either loop,
    which goes on to its end with one entry per result.  Zero-shot: the
    entries for that result are the empty text, five times [None] and
    the reason [LLM returned empty output].  Few-shot: the label is
    [ERROR:EMPTY_OUTPUT].  A run answered with one result per row ends
    normally with these values in that row of the written frame. *)
Theorem empty_output_is_recorded
    (json_loads : pystr -> pyresult pyval)
    (pre post : list vllm.RequestOutput) (out : vllm.RequestOutput) :
  vllm.outputs out = [] →
  let empty := mk_row (PyStr []) PyNone PyNone PyNone PyNone PyNone
                 (PyStr (str_lit "LLM returned empty output")) in
  let sentinel := PyStr (str_lit "ERROR:EMPTY_OUTPUT") in
  (∃ ls, for_each (pre ++ out :: post) (rubric_0_shot.collect json_loads)
           rubric_0_shot.empty_lists = (ls, Ok tt)
         ∧ row_at ls (length pre) = Some empty
         ∧ all_length ls (length (pre ++ out :: post)))
  ∧ (∃ labels, for_each (pre ++ out :: post) rubric_many_shots.collect []
               = (labels, Ok tt)
               ∧ labels !! length pre = Some sentinel
               ∧ length labels = length (pre ++ out :: post))
  ∧ (∀ SYSTEM_INSTRUCTIONS repr_labels llm_generate df,
       answered llm_generate
         (rubric_0_shot.main SYSTEM_INSTRUCTIONS repr_labels json_loads
            llm_generate df []).1 (pre ++ out :: post) →
       length (pre ++ out :: post) = pandas.index_len df →
       zero_shot_writes SYSTEM_INSTRUCTIONS repr_labels json_loads llm_generate df
         (length pre) empty)
  ∧ (∀ SYSTEM_INSTRUCTIONS repr_labels llm_generate df,
       answered llm_generate
         (rubric_many_shots.main SYSTEM_INSTRUCTIONS repr_labels
            llm_generate df []).1 (pre ++ out :: post) →
       length (pre ++ out :: post) = pandas.index_len df →
       many_shots_writes SYSTEM_INSTRUCTIONS repr_labels llm_generate df
         (length pre) sentinel).
Proof.
  intros Hout empty sentinel.
  assert (row_of json_loads out = empty) as Hrow.
  { unfold row_of. by rewrite Hout. }
  assert (label_of out = sentinel) as Hlabel.
  { unfold label_of. by rewrite Hout. }
  rewrite <- Hrow, <- Hlabel. split; [| split; [| split]].
  - apply collected.
  - eexists. split; [apply collect_labels_all |]. simpl. split.
    + rewrite list_lookup_fmap. by rewrite list_lookup_middle.
    + by rewrite length_fmap.
  - intros SI repr_labels llm df. apply zero_shot_writes_row.
  - intros SI repr_labels llm df. apply many_shots_writes_label.
Qed.

(** An answer in the first row, nothing in the second. *)
Lemma empty_output_is_recorded_witness :
  let outs := [samples.answer samples.full_json; samples.no_answer] in
  zero_shot_writes samples.instructions samples.repr_plain json.loads
    (samples.canned outs) samples.sheet 1
    (mk_row (PyStr []) PyNone PyNone PyNone PyNone PyNone
       (PyStr (str_lit "LLM returned empty output")))
  ∧ many_shots_writes samples.instructions samples.repr_plain
      (samples.canned outs) samples.sheet 1
      (PyStr (str_lit "ERROR:EMPTY_OUTPUT")).
Proof.
  intros outs.
  destruct (empty_output_is_recorded json.loads [samples.answer samples.full_json] []
              samples.no_answer eq_refl) as (_ & _ & H0 & H1).
  split.
  - apply H0; [eapply canned_answered_0; reflexivity | reflexivity].
  - apply H1; [eapply canned_answered_many; reflexivity | reflexivity].
Defined.

(** ** Rows that decode (C5, C10) *)

Lemma dict_lookup_In (d : list (pystr * pyval)) (k : pystr) (x : pyval) :
  dict_lookup d k = Some x → In (k, x) d.
Proof.
  induction d as [|[k' x'] d IH]; simpl; [done |].
  destruct (pystr_eqb k' k) eqn:Hk.
  - apply pystr_eqb_eq in Hk as ->. intros [= ->]. by left.
  - intros H. right. by apply IH.
Qed.

Lemma dict_get_None (d : list (pystr * pyval)) (k : pystr) (default : pyval) :
  dict_lookup d k = None → dict_get d k default = default.
Proof. unfold dict_get. by intros ->. Qed.

Lemma dict_get_Some (d : list (pystr * pyval)) (k : pystr) (default x : pyval) :
  dict_lookup d k = Some x → dict_get d k default = x.
Proof. unfold dict_get. by intros ->. Qed.

(** A required property of a schema without additional properties is
    present in every accepted value and has the type the schema gives. *)
Lemma accepts_required (sch : vllm.ObjectSchema) (d : list (pystr * pyval))
    (k : pystr) (t : vllm.schema_type) :
  vllm.accepts sch (PyDict d) = true →
  In k (vllm.required sch) →
  vllm.property_type (vllm.properties sch) k = Some t →
  ∃ x, dict_lookup d k = Some x ∧ vllm.has_type t x = true.
Proof.
  unfold vllm.accepts. intros [Hreq Htyped]%andb_true_iff Hk Ht.
  rewrite forallb_forall in Hreq. specialize (Hreq k Hk).
  apply bool_decide_eq_true in Hreq as [x Hx].
  exists x. split; [done |].
  rewrite forallb_forall in Htyped.
  specialize (Htyped (k, x) (dict_lookup_In _ _ _ Hx)). simpl in Htyped.
  by rewrite Ht in Htyped.
Qed.

Lemma has_type_boolean (x : pyval) :
  vllm.has_type vllm.boolean x = true → ∃ b, x = PyBool b.
Proof. destruct x; try discriminate. eauto. Qed.

Lemma has_type_string (x : pyval) :
  vllm.has_type vllm.string_ x = true → ∃ s, x = PyStr s.
Proof. destruct x; try discriminate. eauto. Qed.

Lemma accepts_object (sch : vllm.ObjectSchema) (v : pyval) :
  vllm.accepts sch v = true → ∃ d, v = PyDict d.
Proof. destruct v; try discriminate. eauto. Qed.

(** What [JSON_SCHEMA] accepts is an object with five booleans and a
    string under the six names. *)
Lemma accepts_JSON_SCHEMA (v : pyval) :
  vllm.accepts rubric_0_shot.JSON_SCHEMA v = true →
  ∃ d b1 b2 b3 b4 b5 s,
    v = PyDict d
    ∧ dict_lookup d (str_lit "individual_voice") = Some (PyBool b1)
    ∧ dict_lookup d (str_lit "collective_voice") = Some (PyBool b2)
    ∧ dict_lookup d (str_lit "internal_deliberation") = Some (PyBool b3)
    ∧ dict_lookup d (str_lit "align_with_company") = Some (PyBool b4)
    ∧ dict_lookup d (str_lit "none_of_the_above") = Some (PyBool b5)
    ∧ dict_lookup d (str_lit "reason") = Some (PyStr s).
Proof.
  intros Hv. destruct (accepts_object _ _ Hv) as (d & ->).
  pose proof (λ k t, accepts_required _ d k t Hv) as Hfield.
  destruct (Hfield (str_lit "individual_voice") vllm.boolean)
    as (x1 & H1 & (b1 & ->)%has_type_boolean);
    [simpl; tauto | reflexivity |].
  destruct (Hfield (str_lit "collective_voice") vllm.boolean)
    as (x2 & H2 & (b2 & ->)%has_type_boolean);
    [simpl; tauto | reflexivity |].
  destruct (Hfield (str_lit "internal_deliberation") vllm.boolean)
    as (x3 & H3 & (b3 & ->)%has_type_boolean);
    [simpl; tauto | reflexivity |].
  destruct (Hfield (str_lit "align_with_company") vllm.boolean)
    as (x4 & H4 & (b4 & ->)%has_type_boolean);
    [simpl; tauto | reflexivity |].
  destruct (Hfield (str_lit "none_of_the_above") vllm.boolean)
    as (x5 & H5 & (b5 & ->)%has_type_boolean);
    [simpl; tauto | reflexivity |].
  destruct (Hfield (str_lit "reason") vllm.string_)
    as (x6 & H6 & (s & ->)%has_type_string);
    [simpl; tauto | reflexivity |].
  exists d, b1, b2, b3, b4, b5, s. auto 10.
Qed.

(** C5.  Zero-shot: when the stripped text of a result decodes to a
    value that [JSON_SCHEMA] accepts, the five label entries for that
    result are the booleans of the decoded object and the reason entry
    is its string; none of them is [None].  A run answered with one
    result per row ends normally with that row in the written frame. *)
Theorem schema_valid_row_is_typed
    (json_loads : pystr -> pyresult pyval)
    (pre post : list vllm.RequestOutput) (out : vllm.RequestOutput)
    (o : vllm.CompletionOutput) (os : list vllm.CompletionOutput) (v : pyval) :
  vllm.outputs out = o :: os →
  json_loads (strip (vllm.text o)) = Ok v →
  vllm.accepts rubric_0_shot.JSON_SCHEMA v = true →
  ∃ d b1 b2 b3 b4 b5 s,
    let typed := mk_row (PyStr (strip (vllm.text o)))
                   (PyBool b1) (PyBool b2) (PyBool b3) (PyBool b4) (PyBool b5)
                   (PyStr s) in
    v = PyDict d
    ∧ dict_lookup d (str_lit "individual_voice") = Some (PyBool b1)
    ∧ dict_lookup d (str_lit "collective_voice") = Some (PyBool b2)
    ∧ dict_lookup d (str_lit "internal_deliberation") = Some (PyBool b3)
    ∧ dict_lookup d (str_lit "align_with_company") = Some (PyBool b4)
    ∧ dict_lookup d (str_lit "none_of_the_above") = Some (PyBool b5)
    ∧ dict_lookup d (str_lit "reason") = Some (PyStr s)
    ∧ (∃ ls, for_each (pre ++ out :: post) (rubric_0_shot.collect json_loads)
               rubric_0_shot.empty_lists = (ls, Ok tt)
             ∧ row_at ls (length pre) = Some typed
             ∧ all_length ls (length (pre ++ out :: post)))
    ∧ (∀ SYSTEM_INSTRUCTIONS repr_labels llm_generate df,
         answered llm_generate
           (rubric_0_shot.main SYSTEM_INSTRUCTIONS repr_labels json_loads
              llm_generate df []).1 (pre ++ out :: post) →
         length (pre ++ out :: post) = pandas.index_len df →
         zero_shot_writes SYSTEM_INSTRUCTIONS repr_labels json_loads llm_generate df
           (length pre) typed).
Proof.
  intros Hout Hloads Hv.
  destruct (accepts_JSON_SCHEMA v Hv)
    as (d & b1 & b2 & b3 & b4 & b5 & s & -> & H1 & H2 & H3 & H4 & H5 & H6).
  exists d, b1, b2, b3, b4, b5, s. intros typed.
  assert (row_of json_loads out = typed) as Hrow.
  { unfold row_of. rewrite Hout, Hloads. unfold dict_get.
    by rewrite H1, H2, H3, H4, H5, H6. }
  rewrite <- Hrow. do 7 (split; [done |]). split.
  - apply collected.
  - intros SI repr_labels llm df. apply zero_shot_writes_row.
Qed.

(** The full object in the first row. *)
Lemma schema_valid_row_is_typed_witness :
  zero_shot_writes samples.instructions samples.repr_plain json.loads
    (samples.canned [samples.answer samples.full_json; samples.no_answer])
    samples.sheet 0
    (mk_row (PyStr samples.full_json)
       (PyBool true) (PyBool false) (PyBool false) (PyBool false) (PyBool false)
       (PyStr (str_lit "Personal view."))).
Proof.
  destruct (schema_valid_row_is_typed json.loads [] [samples.no_answer]
              (samples.answer samples.full_json)
              {| vllm.text := samples.full_json |} []
              (PyDict [(str_lit "individual_voice", PyBool true);
                       (str_lit "collective_voice", PyBool false);
                       (str_lit "internal_deliberation", PyBool false);
                       (str_lit "align_with_company", PyBool false);
                       (str_lit "none_of_the_above", PyBool false);
                       (str_lit "reason", PyStr (str_lit "Personal view."))])
              eq_refl eq_refl eq_refl)
    as (d & b1 & b2 & b3 & b4 & b5 & s & Hd & H1 & H2 & H3 & H4 & H5 & H6 & _ & Hrun).
  injection Hd as <-.
  injection H1 as <-. injection H2 as <-. injection H3 as <-.
  injection H4 as <-. injection H5 as <-. injection H6 as <-.
  apply Hrun; [eapply canned_answered_0; reflexivity | reflexivity].
Defined.

(** C10, as amended.  Zero-shot: when the stripped text of a result
    decodes without raising, the loop body raises nothing.  If the
    decoded value is an object, each of the five label entries is the
    value under its name, or [None] when the name is absent, and the
    reason entry is the value under [reason], or the empty string when
    it is absent; so an absent label gives the same entry as a label
    that is null, and an absent reason the same entry as an empty one.
    If the decoded value is not an object, the lookup of [get] fails and
    the row is the one of a failed decoding, with the description of the
    attribute error in the reason. *)
Theorem decoded_row_uses_defaults
    (json_loads : pystr -> pyresult pyval)
    (pre post : list vllm.RequestOutput) (out : vllm.RequestOutput)
    (o : vllm.CompletionOutput) (os : list vllm.CompletionOutput) (v : pyval) :
  vllm.outputs out = o :: os →
  json_loads (strip (vllm.text o)) = Ok v →
  ∃ row,
    (∃ ls, for_each (pre ++ out :: post) (rubric_0_shot.collect json_loads)
             rubric_0_shot.empty_lists = (ls, Ok tt)
           ∧ row_at ls (length pre) = Some row
           ∧ all_length ls (length (pre ++ out :: post)))
    ∧ (∀ SYSTEM_INSTRUCTIONS repr_labels llm_generate df,
         answered llm_generate
           (rubric_0_shot.main SYSTEM_INSTRUCTIONS repr_labels json_loads
              llm_generate df []).1 (pre ++ out :: post) →
         length (pre ++ out :: post) = pandas.index_len df →
         zero_shot_writes SYSTEM_INSTRUCTIONS repr_labels json_loads llm_generate df
           (length pre) row)
    ∧ (∀ d, v = PyDict d →
         row = mk_row (PyStr (strip (vllm.text o)))
                 (dict_get d (str_lit "individual_voice") PyNone)
                 (dict_get d (str_lit "collective_voice") PyNone)
                 (dict_get d (str_lit "internal_deliberation") PyNone)
                 (dict_get d (str_lit "align_with_company") PyNone)
                 (dict_get d (str_lit "none_of_the_above") PyNone)
                 (dict_get d (str_lit "reason") (PyStr []))
         ∧ (∀ k, dict_lookup d k = None ∨ dict_lookup d k = Some PyNone →
                 dict_get d k PyNone = PyNone)
         ∧ (∀ k, dict_lookup d k = None ∨ dict_lookup d k = Some (PyStr []) →
                 dict_get d k (PyStr []) = PyStr []))
    ∧ ((∀ d, v ≠ PyDict d) →
       row = mk_row (PyStr (strip (vllm.text o)))
               PyNone PyNone PyNone PyNone PyNone
               (PyStr (str_lit "JSON parse error: '" ++ type_name v
                       ++ str_lit "' object has no attribute 'get'"))).
Proof.
  intros Hout Hloads. exists (row_of json_loads out).
  split; [apply collected |].
  split; [intros SI repr_labels llm df; apply zero_shot_writes_row |].
  unfold row_of. rewrite Hout, Hloads. split.
  - intros d ->. split; [done |]. split.
    + intros k [H|H]; [by apply dict_get_None | by apply dict_get_Some].
    + intros k [H|H]; [by apply dict_get_None | by apply dict_get_Some].
  - intros Hv. destruct v; try done.
    + by destruct (Hv d).
Qed.

(** An object with one label only, and the object that spells out the
    absent fields as null and empty: the label and reason entries are
    the same. *)
Lemma decoded_row_uses_defaults_witness :
  zero_shot_writes samples.instructions samples.repr_plain json.loads
    (samples.canned [samples.answer samples.partial_json; samples.no_answer])
    samples.sheet 0
    (mk_row (PyStr samples.partial_json)
       PyNone (PyBool true) PyNone PyNone PyNone (PyStr []))
  ∧ zero_shot_writes samples.instructions samples.repr_plain json.loads
      (samples.canned [samples.answer samples.explicit_json; samples.no_answer])
      samples.sheet 0
      (mk_row (PyStr samples.explicit_json)
         PyNone (PyBool true) PyNone PyNone PyNone (PyStr [])).
Proof.
  split.
  - destruct (decoded_row_uses_defaults json.loads [] [samples.no_answer]
                (samples.answer samples.partial_json)
                {| vllm.text := samples.partial_json |} []
                (PyDict [(str_lit "collective_voice", PyBool true)])
                eq_refl eq_refl)
      as (row & _ & Hrun & Hdict & _).
    destruct (Hdict _ eq_refl) as (-> & _).
    apply Hrun; [eapply canned_answered_0; reflexivity | reflexivity].
  - destruct (decoded_row_uses_defaults json.loads [] [samples.no_answer]
                (samples.answer samples.explicit_json)
                {| vllm.text := samples.explicit_json |} []
                (PyDict [(str_lit "individual_voice", PyNone);
                         (str_lit "collective_voice", PyBool true);
                         (str_lit "internal_deliberation", PyNone);
                         (str_lit "align_with_company", PyNone);
                         (str_lit "none_of_the_above", PyNone);
                         (str_lit "reason", PyStr [])])
                eq_refl eq_refl)
      as (row & _ & Hrun & Hdict & _).
    destruct (Hdict _ eq_refl) as (-> & _).
    apply Hrun; [eapply canned_answered_0; reflexivity | reflexivity].
Defined.

(** C10 as stated fails on a decoded value that is not an object: the
    text [[]] decodes to the empty list, and the reason entry for it is
    the error marker, not the empty string. *)
Lemma non_object_row_has_error_marker :
  json.loads (str_lit "[]") = Ok (PyList [])
  ∧ ∃ ls, for_each [samples.answer (str_lit "[]")] (rubric_0_shot.collect json.loads)
            rubric_0_shot.empty_lists = (ls, Ok tt)
          ∧ row_at ls 0
            = Some (mk_row (PyStr (str_lit "[]"))
                      PyNone PyNone PyNone PyNone PyNone
                      (PyStr (str_lit "JSON parse error: 'list' object has no attribute 'get'")))
          ∧ row_at ls 0
            ≠ Some (mk_row (PyStr (str_lit "[]"))
                      PyNone PyNone PyNone PyNone PyNone (PyStr [])).
Proof.
  split; [reflexivity |]. eexists. split; [reflexivity |].
  split; [reflexivity | discriminate].
Qed.

(** ** The few-shot label (C8) *)

(** C8.  Few-shot: for a result with a completion, the label appended is
    the text of the first completion with the whitespace at both ends
    removed and nothing else done to it, whatever the text is; the loop
    goes on to its end with one label per result.  A run answered with
    one result per row, by whatever engine, ends normally with that
    label in that row of the column [voice_label] of the written frame. *)
Theorem few_shot_label_is_stripped_text
    (pre post : list vllm.RequestOutput) (out : vllm.RequestOutput)
    (o : vllm.CompletionOutput) (os : list vllm.CompletionOutput) :
  vllm.outputs out = o :: os →
  let label := strip (vllm.text o) in
  (∃ labels, for_each (pre ++ out :: post) rubric_many_shots.collect []
             = (labels, Ok tt)
             ∧ labels !! length pre = Some (PyStr label)
             ∧ length labels = length (pre ++ out :: post))
  ∧ (∃ l r, vllm.text o = l ++ label ++ r
            ∧ Forall (fun c => isspace c = true) l
            ∧ Forall (fun c => isspace c = true) r)
  ∧ (∀ c t, label = c :: t → isspace c = false)
  ∧ (∀ c t, label = t ++ [c] → isspace c = false)
  ∧ (∀ SYSTEM_INSTRUCTIONS repr_labels llm_generate df,
       answered llm_generate
         (rubric_many_shots.main SYSTEM_INSTRUCTIONS repr_labels
            llm_generate df []).1 (pre ++ out :: post) →
       length (pre ++ out :: post) = pandas.index_len df →
       many_shots_writes SYSTEM_INSTRUCTIONS repr_labels llm_generate df
         (length pre) (PyStr label)).
Proof.
  intros Hout label.
  assert (label_of out = PyStr label) as Hlabel.
  { unfold label_of. by rewrite Hout. }
  destruct (strip_spec (vllm.text o)) as (Hsplit & Hhead & Hlast).
  rewrite <- Hlabel. split; [| split; [| split; [| split]]]; try done.
  - eexists. split; [apply collect_labels_all |]. simpl. split.
    + rewrite list_lookup_fmap. by rewrite list_lookup_middle.
    + by rewrite length_fmap.
  - intros SI repr_labels llm df. apply many_shots_writes_label.
Qed.

(** The comment of the sample sheet against an engine with a fixed
    answer that has blanks and a line feed around it. *)
Lemma few_shot_label_is_stripped_text_witness :
  many_shots_writes samples.instructions samples.repr_plain
    (samples.canned [samples.answer (str_lit "  Align With Company " ++ LF);
                     samples.no_answer])
    samples.sheet 0 (PyStr (str_lit "Align With Company")).
Proof.
  destruct (few_shot_label_is_stripped_text [] [samples.no_answer]
              (samples.answer (str_lit "  Align With Company " ++ LF))
              {| vllm.text := str_lit "  Align With Company " ++ LF |} []
              eq_refl)
    as (_ & _ & _ & _ & Hrun).
  apply Hrun; [eapply canned_answered_many; reflexivity | reflexivity].
Defined.

(** ** The columns of the input (C9) *)

Lemma filter_ext_elem_of {A : Type} (P Q : A → Prop)
    `{!∀ x, Decision (P x)} `{!∀ x, Decision (Q x)} (l : list A) :
  (∀ x, x ∈ l → P x ↔ Q x) → filter P l = filter Q l.
Proof.
  induction l as [|a l IH]; intros Hext; [reflexivity |].
  rewrite !filter_cons.
  rewrite IH by (intros x Hx; apply Hext; by right).
  assert (P a ↔ Q a) as Ha by (apply Hext; by left).
  destruct (decide (P a)) as [HP|HP], (decide (Q a)) as [HQ|HQ];
    try reflexivity; tauto.
Qed.

(** After the assignments the labels are those of the frame, followed
    by the assigned names that were not among them. *)
Lemma set_columns_labels_filter (cols table : list (pystr * list pyval)) :
  NoDup table.*1 →
  (set_columns cols table).*1 = cols.*1 ++ filter (fun k => k ∉ cols.*1) table.*1.
Proof.
  revert cols. induction table as [|[k v] table IH]; intros cols Hnd.
  - simpl. by rewrite app_nil_r.
  - simpl in Hnd. apply NoDup_cons in Hnd as [Hk Hnd].
    unfold set_columns. simpl.
    fold (set_columns (pandas.set_column cols k v) table).
    rewrite IH by done. rewrite filter_cons.
    destruct (decide (k ∉ cols.*1)) as [Hout|Hin].
    + rewrite set_column_fresh, fmap_app by done. simpl.
      rewrite <- app_assoc. simpl. do 2 f_equal.
      apply filter_ext_elem_of. intros x Hx. rewrite not_elem_of_app.
      split; [tauto |]. intros Hx'. split; [done |].
      intros ->%list_elem_of_singleton. done.
    + apply dec_stable in Hin. by rewrite set_column_labels_present.
Qed.

Section Passthrough.
Import pandas vllm.
Variables SYSTEM_INSTRUCTIONS_0 SYSTEM_INSTRUCTIONS_many : pystr.
Variable repr_labels : list pystr -> pystr.
Variable json_loads : pystr -> pyresult pyval.
Variables llm_0 llm_many : list pystr -> SamplingParams -> pyresult (list RequestOutput).

Local Abbreviation main0 :=
  (rubric_0_shot.main SYSTEM_INSTRUCTIONS_0 repr_labels json_loads llm_0).
Local Abbreviation main1 :=
  (rubric_many_shots.main SYSTEM_INSTRUCTIONS_many repr_labels llm_many).

(** C9, as amended.  In a run answered with one result per row, the
    frame written has every column of the input whose label is not the
    name of a result column, with its cells as they were, and the labels
    of the input come first and in their order, followed by the names of
    the result columns that the input did not have.  When no label of
    the input is the name of a result column, the frame written is the
    input followed by the result columns: seven for the zero-shot
    script, one for the few-shot script.  A column of the input whose
    label is the name of a result column stays where it is and holds the
    collected list in place of its cells: always for the few-shot
    script, whose labels are strings, and for the zero-shot script when
    the collected values are booleans, [None] and strings. *)
Theorem other_columns_pass_through (df : DataFrame) (outs : list RequestOutput) :
  length outs = index_len df →
  (answered llm_0 (main0 df []).1 outs →
   ∃ df' ls,
     written (main0 df []).1 df'
     ∧ (∀ df'', written (main0 df []).1 df'' → df'' = df')
     ∧ for_each outs (rubric_0_shot.collect json_loads) rubric_0_shot.empty_lists
       = (ls, Ok tt)
     ∧ (∀ k, k ∉ result_columns_0_shot →
             column (columns df') k = column (columns df) k)
     ∧ labels df `prefix_of` labels df'
     ∧ ((∀ k, k ∈ result_columns_0_shot → k ∉ labels df) →
        columns df' = columns df ++ result_table_0_shot ls)
     ∧ labels df'
       = labels df ++ filter (fun k => k ∉ labels df) result_columns_0_shot
     ∧ (lists_stored_as_given ls →
        ∀ k v, (k, v) ∈ result_table_0_shot ls → column (columns df') k = Some v))
  ∧ (answered llm_many (main1 df []).1 outs →
     ∃ df' ls,
       written (main1 df []).1 df'
       ∧ (∀ df'', written (main1 df []).1 df'' → df'' = df')
       ∧ for_each outs rubric_many_shots.collect [] = (ls, Ok tt)
       ∧ (∀ k, k ∉ result_columns_many_shots →
               column (columns df') k = column (columns df) k)
       ∧ labels df `prefix_of` labels df'
       ∧ ((∀ k, k ∈ result_columns_many_shots → k ∉ labels df) →
          columns df' = columns df ++ [(str_lit "voice_label", ls)])
       ∧ labels df'
         = labels df ++ filter (fun k => k ∉ labels df) result_columns_many_shots
       ∧ Forall stored_as_given ls
       ∧ column (columns df') (str_lit "voice_label") = Some ls).
Proof.
  intros Hlen. split.
  - intros Hans.
    destruct (zero_shot_answered _ _ _ _ _ _ Hans Hlen) as (_ & Hw & Huniq).
    eexists _, _. split; [exact Hw |]. split; [exact Huniq |].
    split; [apply collect_all |]. cbn [columns labels].
    split; [| split; [| split; [| split]]].
    + intros k Hk. apply set_columns_column_other. exact Hk.
    + apply set_columns_labels_prefix.
    + intros Hfresh. apply set_columns_fresh.
      * apply result_columns_NoDup.
      * exact Hfresh.
    + unfold labels. cbn [columns].
      by rewrite set_columns_labels_filter by apply result_columns_NoDup.
    + intros _ k v Hkv. apply column_set_columns_in; [| done].
      apply result_columns_NoDup.
  - intros Hans.
    destruct (many_shots_answered _ _ _ _ _ Hans Hlen) as (_ & Hw & Huniq).
    eexists _, _. split; [exact Hw |]. split; [exact Huniq |].
    split; [apply collect_labels_all |]. cbn [columns labels app].
    split; [| split; [| split; [| split; [| split]]]].
    + intros k Hk. apply column_set_column_ne.
      intros <-. apply Hk. by left.
    + unfold labels. cbn [columns].
      destruct (set_column_labels (columns df) (str_lit "voice_label")
                  (label_of <$> outs)) as [-> | ->]; [done |].
      by apply prefix_app_r.
    + intros Hfresh. apply set_column_fresh. apply Hfresh. by left.
    + unfold labels. cbn [columns].
      exact (set_columns_labels_filter (columns df)
               [(str_lit "voice_label", label_of <$> outs)]
               (NoDup_singleton (str_lit "voice_label"))).
    + apply Forall_fmap, Forall_forall. intros out _. simpl.
      unfold label_of. by destruct (outputs out).
    + apply column_set_column_eq.
Qed.

End Passthrough.

(** The sample sheet: the identifier column is as it was and the result
    columns follow the two columns of the input.  The sheet that already
    has a [voice_label] and a [reason] column: the labels of the few-shot
    frame are those of the input, and either column holds the collected
    list. *)
Lemma other_columns_pass_through_witness :
  let outs := [samples.answer samples.full_json; samples.no_answer] in
  (∃ df', written (rubric_0_shot.main samples.instructions samples.repr_plain
                     json.loads (samples.canned outs) samples.sheet []).1 df'
          ∧ pandas.column (pandas.columns df') (str_lit "id") = Some [PyInt 1; PyInt 2]
          ∧ pandas.labels df'
            = [str_lit "id"; str_lit "body_text"] ++ result_columns_0_shot)
  ∧ (∃ df', written (rubric_many_shots.main samples.instructions samples.repr_plain
                       (samples.canned outs) samples.sheet []).1 df'
            ∧ pandas.column (pandas.columns df') (str_lit "id") = Some [PyInt 1; PyInt 2]
            ∧ pandas.labels df'
              = [str_lit "id"; str_lit "body_text"] ++ result_columns_many_shots)
  ∧ (∃ df', written (rubric_many_shots.main samples.instructions samples.repr_plain
                       (samples.canned [samples.answer (str_lit "x")])
                       samples.sheet_labelled []).1 df'
            ∧ pandas.labels df' = pandas.labels samples.sheet_labelled
            ∧ pandas.column (pandas.columns df') (str_lit "voice_label")
              = Some [PyStr (str_lit "x")])
  ∧ (∃ df', written (rubric_0_shot.main samples.instructions samples.repr_plain
                       json.loads (samples.canned [samples.no_answer])
                       samples.sheet_labelled []).1 df'
            ∧ pandas.column (pandas.columns df') (str_lit "reason")
              = Some [PyStr (str_lit "LLM returned empty output")]).
Proof.
  intros outs.
  destruct (other_columns_pass_through samples.instructions samples.instructions
              samples.repr_plain json.loads (samples.canned outs)
              (samples.canned outs) samples.sheet outs eq_refl) as (H0 & H1).
  destruct (other_columns_pass_through samples.instructions samples.instructions
              samples.repr_plain json.loads (samples.canned [samples.no_answer])
              (samples.canned [samples.answer (str_lit "x")]) samples.sheet_labelled
              [samples.answer (str_lit "x")] eq_refl) as (_ & H3).
  destruct (other_columns_pass_through samples.instructions samples.instructions
              samples.repr_plain json.loads (samples.canned [samples.no_answer])
              (samples.canned [samples.answer (str_lit "x")]) samples.sheet_labelled
              [samples.no_answer] eq_refl) as (H2 & _).
  split; [| split; [| split]].
  - destruct H0 as (df' & ls & Hw & _ & Hls & Hother & _ & Hfresh & _).
    + eapply canned_answered_0; reflexivity.
    + exists df'. split; [exact Hw |]. split.
      * rewrite Hother; [reflexivity |]. vm_compute. intros H.
        repeat (apply elem_of_cons in H as [H|H]; [discriminate H |]).
        by apply elem_of_nil in H.
      * unfold pandas.labels. rewrite Hfresh.
        -- rewrite fmap_app. injection Hls as <-. reflexivity.
        -- intros k Hk Hin. vm_compute in Hk, Hin.
           repeat (apply elem_of_cons in Hk as [Hk|Hk];
                   [subst k;
                    repeat (apply elem_of_cons in Hin as [Hin|Hin]; [discriminate Hin |]);
                    by apply elem_of_nil in Hin |]).
           by apply elem_of_nil in Hk.
  - destruct H1 as (df' & ls & Hw & _ & Hls & Hother & _ & Hfresh & _).
    + eapply canned_answered_many; reflexivity.
    + exists df'. split; [exact Hw |]. split.
      * rewrite Hother; [reflexivity |]. vm_compute. intros H.
        repeat (apply elem_of_cons in H as [H|H]; [discriminate H |]).
        by apply elem_of_nil in H.
      * unfold pandas.labels. rewrite Hfresh.
        -- rewrite fmap_app. reflexivity.
        -- intros k Hk Hin. vm_compute in Hk, Hin.
           repeat (apply elem_of_cons in Hk as [Hk|Hk];
                   [subst k;
                    repeat (apply elem_of_cons in Hin as [Hin|Hin]; [discriminate Hin |]);
                    by apply elem_of_nil in Hin |]).
           by apply elem_of_nil in Hk.
  - destruct H3 as (df' & ls & Hw & _ & Hls & _ & _ & _ & Hlabels & _ & Hcol).
    + eapply canned_answered_many; reflexivity.
    + exists df'. split; [exact Hw |]. split.
      * rewrite Hlabels. vm_compute. reflexivity.
      * rewrite Hcol. injection Hls as <-. reflexivity.
  - destruct H2 as (df' & ls & Hw & _ & Hls & _ & _ & _ & _ & Hcol).
    + eapply canned_answered_0; reflexivity.
    + exists df'. split; [exact Hw |].
      injection Hls as <-. apply Hcol.
      * repeat split; repeat constructor.
      * unfold result_table_0_shot. repeat (rewrite elem_of_cons). tauto.
Defined.

(** C9 as stated fails on a sheet that already has a column named like a
    result column: the few-shot run replaces the cells of [voice_label]
    and the zero-shot run those of [reason], and adds no column of that
    name. *)
Lemma existing_result_column_is_overwritten :
  pandas.wf samples.sheet_labelled
  ∧ pandas.column (pandas.columns samples.sheet_labelled) (str_lit "voice_label")
    = Some [PyStr (str_lit "hand label")]
  ∧ pandas.column (pandas.columns samples.sheet_labelled) (str_lit "reason")
    = Some [PyStr (str_lit "moderator note")]
  ∧ (∃ df', written (rubric_many_shots.main samples.instructions samples.repr_plain
                       (samples.canned [samples.answer (str_lit "x")])
                       samples.sheet_labelled []).1 df'
            ∧ pandas.column (pandas.columns df') (str_lit "voice_label")
              = Some [PyStr (str_lit "x")]
            ∧ pandas.labels df' = pandas.labels samples.sheet_labelled)
  ∧ (∃ df', written (rubric_0_shot.main samples.instructions samples.repr_plain
                       json.loads (samples.canned [samples.no_answer])
                       samples.sheet_labelled []).1 df'
            ∧ pandas.column (pandas.columns df') (str_lit "reason")
              = Some [PyStr (str_lit "LLM returned empty output")]).
Proof.
  split; [apply sheet_labelled_wf |]. split; [reflexivity |]. split; [reflexivity |].
  split.
  - destruct (many_shots_answered samples.instructions samples.repr_plain
                (samples.canned [samples.answer (str_lit "x")])
                samples.sheet_labelled [samples.answer (str_lit "x")])
      as (_ & Hw & _).
    + eapply canned_answered_many; reflexivity.
    + reflexivity.
    + eexists. split; [exact Hw |]. split; reflexivity.
  - destruct (zero_shot_answered samples.instructions samples.repr_plain json.loads
                (samples.canned [samples.no_answer])
                samples.sheet_labelled [samples.no_answer])
      as (_ & Hw & _).
    + eapply canned_answered_0; reflexivity.
    + reflexivity.
    + eexists. split; [exact Hw |]. reflexivity.
Qed.

(** * Further properties of the two scripts *)

(** ** Prompt building on whole columns *)

Lemma build_prompt_0_str (SYSTEM_INSTRUCTIONS t : pystr) :
  rubric_0_shot.build_prompt SYSTEM_INSTRUCTIONS (PyStr t)
  = Ok (prompt_0_shot SYSTEM_INSTRUCTIONS t).
Proof.
  unfold rubric_0_shot.build_prompt, str_add, prompt_0_shot.
  cbn [mbind pyresult_bind]. f_equal. by rewrite <- !app_assoc.
Qed.

Lemma build_prompt_many_str (SYSTEM_INSTRUCTIONS t : pystr) :
  rubric_many_shots.build_prompt SYSTEM_INSTRUCTIONS (PyStr t)
  = Ok (prompt_many_shots SYSTEM_INSTRUCTIONS t).
Proof.
  unfold rubric_many_shots.build_prompt, str_add, prompt_many_shots.
  cbn [mbind pyresult_bind]. f_equal. by rewrite <- !app_assoc.
Qed.

Lemma build_prompt_0_bad (SYSTEM_INSTRUCTIONS : pystr) (b : pyval) :
  is_str b = false →
  rubric_0_shot.build_prompt SYSTEM_INSTRUCTIONS b = Raise (concat_type_error b).
Proof. destruct b; try discriminate; reflexivity. Qed.

Lemma build_prompt_many_bad (SYSTEM_INSTRUCTIONS : pystr) (b : pyval) :
  is_str b = false →
  rubric_many_shots.build_prompt SYSTEM_INSTRUCTIONS b = Raise (concat_type_error b).
Proof. destruct b; try discriminate; reflexivity. Qed.

(** The loop over a list stops at the first element that raises. *)
Lemma mapM_Raise {A B : Type} (f : A → pyresult B) (l1 l2 : list A) (x : A)
    (ys : list B) (e : pyexc) :
  mapM f l1 = Ok ys → f x = Raise e → mapM f (l1 ++ x :: l2) = Raise e.
Proof.
  revert ys. induction l1 as [|a l1 IH]; intros ys Hl1 Hx.
  - cbn [app mapM]. by rewrite Hx.
  - cbn [app mapM] in *. destruct (f a) as [b|e']; [| discriminate Hl1].
    cbn [mbind pyresult_bind] in *.
    destruct (mapM f l1) as [ys'|e'] eqn:Hm; [| discriminate Hl1].
    by rewrite (IH ys' eq_refl Hx).
Qed.

(** Filling the missing cells of a column of text leaves strings only. *)
Lemma fillna_text (series : list pyval) :
  Forall text_or_missing series →
  pandas.fillna (PyStr []) series = PyStr <$> (cell_text <$> series).
Proof.
  induction 1 as [|v series Hv _ IH]; [reflexivity |].
  unfold pandas.fillna in *. cbn [fmap list_fmap] in *.
  change (list_fmap pyval pyval (fun v => if pandas.isna v then PyStr [] else v) series)
    with ((fun v => if pandas.isna v then PyStr [] else v) <$> series).
  rewrite IH. f_equal.
  destruct Hv as [Hna | [s ->]]; [| reflexivity].
  rewrite Hna. destruct v as [| | |[]| | |]; try discriminate; reflexivity.
Qed.

Lemma column_contains (df : pandas.DataFrame) (k : pystr) (c : list pyval) :
  pandas.column (pandas.columns df) k = Some c → pandas.contains k df = true.
Proof.
  intros Hc. unfold pandas.contains, pandas.labels. apply bool_decide_eq_true.
  apply column_elem_of in Hc. apply list_elem_of_fmap. by exists (k, c).
Qed.

Lemma load_comments_text_0 (df : pandas.DataFrame) (series : list pyval) :
  pandas.column (pandas.columns df) rubric_0_shot.TEXT_COLUMN = Some series →
  rubric_0_shot.load_comments df = Ok (pandas.fillna (PyStr []) series).
Proof.
  intros Hc. unfold rubric_0_shot.load_comments, pandas.getitem. by rewrite Hc.
Qed.

Lemma load_comments_text_many (df : pandas.DataFrame) (series : list pyval) :
  pandas.column (pandas.columns df) rubric_many_shots.TEXT_COLUMN = Some series →
  rubric_many_shots.load_comments df = Ok (pandas.fillna (PyStr []) series).
Proof.
  intros Hc. unfold rubric_many_shots.load_comments, pandas.getitem. by rewrite Hc.
Qed.

Section Batch.
Import pandas vllm.
Variables SYSTEM_INSTRUCTIONS_0 SYSTEM_INSTRUCTIONS_many : pystr.
Variable repr_labels : list pystr -> pystr.
Variable json_loads : pystr -> pyresult pyval.
Variables llm_0 llm_many : list pystr -> SamplingParams -> pyresult (list RequestOutput).

Local Abbreviation main0 :=
  (rubric_0_shot.main SYSTEM_INSTRUCTIONS_0 repr_labels json_loads llm_0).
Local Abbreviation main1 :=
  (rubric_many_shots.main SYSTEM_INSTRUCTIONS_many repr_labels llm_many).

(** X1.  When every cell of the text column is a string or missing, each
    script sends the engine one batch and no other, whatever comes of
    it: one prompt per cell, in the order of the rows, the prompt of a
    missing cell being the one of the empty text, with the sampling
    parameters of the script. *)
Theorem batch_has_one_prompt_per_row (df : DataFrame) (series : list pyval) :
  column (columns df) rubric_0_shot.TEXT_COLUMN = Some series →
  Forall text_or_missing series →
  let batch0 := prompt_0_shot SYSTEM_INSTRUCTIONS_0 <$> (cell_text <$> series) in
  let batch1 := prompt_many_shots SYSTEM_INSTRUCTIONS_many <$> (cell_text <$> series) in
  EvGenerate batch0 rubric_0_shot.sampling_params ∈ (main0 df []).1
  ∧ (∀ prompts sp, EvGenerate prompts sp ∈ (main0 df []).1 →
                   prompts = batch0 ∧ sp = rubric_0_shot.sampling_params)
  ∧ EvGenerate batch1 rubric_many_shots.sampling_params ∈ (main1 df []).1
  ∧ (∀ prompts sp, EvGenerate prompts sp ∈ (main1 df []).1 →
                   prompts = batch1 ∧ sp = rubric_many_shots.sampling_params)
  ∧ length batch0 = length series ∧ length batch1 = length series
  ∧ batches (main0 df []).1 = [(batch0, rubric_0_shot.sampling_params)]
  ∧ batches (main1 df []).1 = [(batch1, rubric_many_shots.sampling_params)].
Proof.
  intros Hcol Htext batch0 batch1.
  pose proof (column_contains _ _ _ Hcol) as Hin.
  pose proof (load_comments_text_0 _ _ Hcol) as Hload0.
  pose proof (load_comments_text_many _ _ Hcol) as Hload1.
  rewrite (fillna_text _ Htext) in Hload0, Hload1.
  assert (rubric_0_shot.build_prompts SYSTEM_INSTRUCTIONS_0
            (PyStr <$> (cell_text <$> series)) = Ok batch0) as Hb0.
  { apply mapM_Ok. apply build_prompt_0_str. }
  assert (rubric_many_shots.build_prompts SYSTEM_INSTRUCTIONS_many
            (PyStr <$> (cell_text <$> series)) = Ok batch1) as Hb1.
  { apply mapM_Ok. apply build_prompt_many_str. }
  split; [by eapply zero_shot_sends |]. split.
  { intros prompts sp H.
    destruct (zero_shot_sent _ _ _ _ _ _ _ H) as (_ & -> & comments & Hl & Hb).
    rewrite Hload0 in Hl. injection Hl as <-. rewrite Hb0 in Hb.
    by injection Hb as <-. }
  split; [by eapply many_shots_sends |]. split.
  { intros prompts sp H.
    destruct (many_shots_sent _ _ _ _ _ _ H) as (_ & -> & comments & Hl & Hb).
    rewrite Hload1 in Hl. injection Hl as <-. rewrite Hb1 in Hb.
    by injection Hb as <-. }
  split; [subst batch0; by rewrite !length_fmap |].
  split; [subst batch1; by rewrite !length_fmap |].
  rewrite zero_shot_run, many_shots_run. cbv zeta.
  change (contains rubric_many_shots.TEXT_COLUMN df)
    with (contains rubric_0_shot.TEXT_COLUMN df).
  rewrite Hin. simpl negb. cbv iota. rewrite Hload0, Hload1, Hb0, Hb1. split.
  - destruct (llm_0 _ _) as [outs|e];
      [destruct (rubric_0_shot.add_columns _ _) as [df'|e] |]; reflexivity.
  - destruct (llm_many _ _) as [outs|e];
      [destruct (setitem _ _ _) as [df'|e] |]; reflexivity.
Qed.

(** X2.  When the first cell of the text column that is neither a string
    nor missing holds [bad], each script raises the [TypeError] of
    adding [bad] to a string.  The engine has been started by then, but
    no batch is sent and no frame is written. *)
Theorem non_text_cell_stops_before_batch (df : DataFrame)
    (pre post : list pyval) (bad : pyval) :
  column (columns df) rubric_0_shot.TEXT_COLUMN = Some (pre ++ bad :: post) →
  Forall text_or_missing pre →
  isna bad = false →
  is_str bad = false →
  (main0 df []).2 = Raise (concat_type_error bad)
  ∧ reached_engine (main0 df []).1
  ∧ ¬ sent_batch (main0 df []).1
  ∧ (∀ df', ¬ written (main0 df []).1 df')
  ∧ (main1 df []).2 = Raise (concat_type_error bad)
  ∧ reached_engine (main1 df []).1
  ∧ ¬ sent_batch (main1 df []).1
  ∧ (∀ df', ¬ written (main1 df []).1 df').
Proof.
  intros Hcol Hpre Hna Hbad.
  pose proof (column_contains _ _ _ Hcol) as Hin.
  pose proof (load_comments_text_0 _ _ Hcol) as Hload0.
  pose proof (load_comments_text_many _ _ Hcol) as Hload1.
  assert (fillna (PyStr []) (pre ++ bad :: post)
          = (PyStr <$> (cell_text <$> pre)) ++ bad :: fillna (PyStr []) post) as Hfill.
  { rewrite <- (fillna_text _ Hpre). unfold fillna. rewrite fmap_app.
    cbn [fmap list_fmap]. by rewrite Hna. }
  rewrite Hfill in Hload0, Hload1.
  assert (rubric_0_shot.build_prompts SYSTEM_INSTRUCTIONS_0
            ((PyStr <$> (cell_text <$> pre)) ++ bad :: fillna (PyStr []) post)
          = Raise (concat_type_error bad)) as Hb0.
  { eapply mapM_Raise; [apply mapM_Ok, build_prompt_0_str |].
    by apply build_prompt_0_bad. }
  assert (rubric_many_shots.build_prompts SYSTEM_INSTRUCTIONS_many
            ((PyStr <$> (cell_text <$> pre)) ++ bad :: fillna (PyStr []) post)
          = Raise (concat_type_error bad)) as Hb1.
  { eapply mapM_Raise; [apply mapM_Ok, build_prompt_many_str |].
    by apply build_prompt_many_bad. }
  rewrite zero_shot_run, many_shots_run. cbv zeta.
  change (contains rubric_many_shots.TEXT_COLUMN df)
    with (contains rubric_0_shot.TEXT_COLUMN df).
  rewrite Hin. simpl negb. cbv iota. rewrite Hload0, Hload1, Hb0, Hb1.
  cbn [fst snd].
  split; [done |]. split.
  { exists rubric_0_shot.MODEL_NAME, rubric_0_shot.MAX_MODEL_LEN.
    repeat (rewrite elem_of_cons). tauto. }
  split; [intros (p & sp & H); trace_cases H |].
  split; [intros df' (path & H); trace_cases H |].
  split; [done |]. split.
  { exists rubric_many_shots.MODEL_NAME, rubric_many_shots.MAX_MODEL_LEN.
    repeat (rewrite elem_of_cons). tauto. }
  split; [intros (p & sp & H); trace_cases H |].
  intros df' (path & H); trace_cases H.
Qed.

End Batch.

(** The sample sheet, whose second cell is missing. *)
Lemma batch_has_one_prompt_per_row_witness :
  batches (rubric_0_shot.main samples.instructions samples.repr_plain json.loads
             (samples.canned []) samples.sheet []).1
  = [([prompt_0_shot samples.instructions (str_lit "I do not support this strike.");
       prompt_0_shot samples.instructions []],
      rubric_0_shot.sampling_params)].
Proof.
  destruct (batch_has_one_prompt_per_row samples.instructions samples.instructions
              samples.repr_plain json.loads (samples.canned []) (samples.canned [])
              samples.sheet
              [PyStr (str_lit "I do not support this strike."); PyFloat FNaN]
              eq_refl) as (_ & _ & _ & _ & _ & _ & H & _).
  - constructor; [right; by eexists |]. constructor; [by left | constructor].
  - exact H.
Defined.

(** The sheet whose second cell is a number. *)
Lemma non_text_cell_stops_before_batch_witness :
  (rubric_0_shot.main samples.instructions samples.repr_plain json.loads
     (samples.canned []) more_samples.sheet_numeric []).2
  = Raise (mk_exc TypeError
             (str_lit "can only concatenate str (not " ++ [34%N] ++ str_lit "int"
              ++ [34%N] ++ str_lit ") to str"))
  ∧ ¬ sent_batch
        (rubric_0_shot.main samples.instructions samples.repr_plain json.loads
           (samples.canned []) more_samples.sheet_numeric []).1.
Proof.
  destruct (non_text_cell_stops_before_batch samples.instructions samples.instructions
              samples.repr_plain json.loads (samples.canned []) (samples.canned [])
              more_samples.sheet_numeric
              [PyStr (str_lit "first")] [PyStr (str_lit "third")] (PyInt 42)
              eq_refl) as (H & _ & Hsent & _).
  - constructor; [right; by eexists | constructor].
  - reflexivity.
  - reflexivity.
  - split; [exact H | exact Hsent].
Defined.

(** ** Runs that fail, and the order of the effects *)

Lemma setitem_mismatch (df : pandas.DataFrame) (k : pystr) (v : list pyval) :
  length v ≠ pandas.index_len df →
  pandas.index_len df ≠ 0 →
  pandas.setitem df k v
  = Raise (pandas.length_mismatch (length v) (pandas.index_len df)).
Proof.
  intros Hlen Hidx. unfold pandas.setitem.
  by rewrite !bool_decide_false.
Qed.

(** Where an event stands in an explicit trace. *)
Lemma app_cons_inv {A : Type} (t1 t2 l : list A) (x a : A) :
  t1 ++ x :: t2 = a :: l →
  (t1 = [] ∧ x = a ∧ t2 = l) ∨ (∃ t1', t1 = a :: t1' ∧ t1' ++ x :: t2 = l).
Proof.
  destruct t1 as [|b t1]; simpl; intros H; injection H as ? ?; subst.
  - by left.
  - right. by exists t1.
Qed.

Ltac split_trace H :=
  repeat (apply app_cons_inv in H as [(-> & -> & ->)|(? & -> & H)]);
  try match type of H with
      | ?t ++ _ :: _ = [] => by destruct t
      end.

(** In a run of the zero-shot script the frame is written after the
    batch was sent, and the batch is sent after the engine was started. *)
Lemma zero_shot_order (SYSTEM_INSTRUCTIONS : pystr)
    (repr_labels : list pystr -> pystr) (json_loads : pystr -> pyresult pyval)
    (llm_generate : list pystr -> vllm.SamplingParams
                    -> pyresult (list vllm.RequestOutput))
    (df : pandas.DataFrame) (t1 t2 : list event) (ev : event) :
  (rubric_0_shot.main SYSTEM_INSTRUCTIONS repr_labels json_loads llm_generate
     df []).1 = t1 ++ ev :: t2 →
  (∀ path df', ev = EvToCsv path df' → sent_batch t1)
  ∧ (∀ prompts sp, ev = EvGenerate prompts sp → reached_engine t1).
Proof.
  rewrite zero_shot_run. cbv zeta.
  destruct (negb (pandas.contains rubric_0_shot.TEXT_COLUMN df));
    [| destruct (rubric_0_shot.load_comments df) as [comments|e];
       [destruct (rubric_0_shot.build_prompts _ _) as [prompts|e];
        [destruct (llm_generate _ _) as [outs|e];
         [destruct (rubric_0_shot.add_columns _ _) as [df1|e] |] |] |]];
    cbn [fst app]; intros H; symmetry in H; split_trace H;
    (split; [intros path df' Hev | intros ps sp Hev]); try discriminate Hev.
  all: try (eexists _, _; repeat (rewrite elem_of_cons); tauto).
Qed.

Lemma many_shots_order (SYSTEM_INSTRUCTIONS : pystr)
    (repr_labels : list pystr -> pystr)
    (llm_generate : list pystr -> vllm.SamplingParams
                    -> pyresult (list vllm.RequestOutput))
    (df : pandas.DataFrame) (t1 t2 : list event) (ev : event) :
  (rubric_many_shots.main SYSTEM_INSTRUCTIONS repr_labels llm_generate
     df []).1 = t1 ++ ev :: t2 →
  (∀ path df', ev = EvToCsv path df' → sent_batch t1)
  ∧ (∀ prompts sp, ev = EvGenerate prompts sp → reached_engine t1).
Proof.
  rewrite many_shots_run. cbv zeta.
  destruct (negb (pandas.contains rubric_many_shots.TEXT_COLUMN df));
    [| destruct (rubric_many_shots.load_comments df) as [comments|e];
       [destruct (rubric_many_shots.build_prompts _ _) as [prompts|e];
        [destruct (llm_generate _ _) as [outs|e];
         [destruct (pandas.setitem _ _ _) as [df1|e] |] |] |]];
    cbn [fst app]; intros H; symmetry in H; split_trace H;
    (split; [intros path df' Hev | intros ps sp Hev]); try discriminate Hev.
  all: try (eexists _, _; repeat (rewrite elem_of_cons); tauto).
Qed.

Section Failures.
Import pandas vllm.
Variables SYSTEM_INSTRUCTIONS_0 SYSTEM_INSTRUCTIONS_many : pystr.
Variable repr_labels : list pystr -> pystr.
Variable json_loads : pystr -> pyresult pyval.
Variables llm_0 llm_many : list pystr -> SamplingParams -> pyresult (list RequestOutput).

Local Abbreviation main0 :=
  (rubric_0_shot.main SYSTEM_INSTRUCTIONS_0 repr_labels json_loads llm_0).
Local Abbreviation main1 :=
  (rubric_many_shots.main SYSTEM_INSTRUCTIONS_many repr_labels llm_many).

(** X3.  A run of either script has written its frame exactly when it
    ends normally; a frame is written only after a batch was sent, and
    a batch is sent only after the engine was started: in the trace,
    what comes before the writing of a frame contains a batch, and what
    comes before a batch contains the start of the engine. *)
Theorem output_written_iff_run_succeeds (df : DataFrame) :
  ((main0 df []).2 = Ok tt ↔ ∃ df', written (main0 df []).1 df')
  ∧ ((∃ df', written (main0 df []).1 df') → sent_batch (main0 df []).1)
  ∧ (sent_batch (main0 df []).1 → reached_engine (main0 df []).1)
  ∧ ((main1 df []).2 = Ok tt ↔ ∃ df', written (main1 df []).1 df')
  ∧ ((∃ df', written (main1 df []).1 df') → sent_batch (main1 df []).1)
  ∧ (sent_batch (main1 df []).1 → reached_engine (main1 df []).1)
  ∧ (∀ t1 t2 path df', (main0 df []).1 = t1 ++ EvToCsv path df' :: t2 →
                       sent_batch t1)
  ∧ (∀ t1 t2 prompts sp, (main0 df []).1 = t1 ++ EvGenerate prompts sp :: t2 →
                         reached_engine t1)
  ∧ (∀ t1 t2 path df', (main1 df []).1 = t1 ++ EvToCsv path df' :: t2 →
                       sent_batch t1)
  ∧ (∀ t1 t2 prompts sp, (main1 df []).1 = t1 ++ EvGenerate prompts sp :: t2 →
                         reached_engine t1).
Proof.
  assert (((main0 df []).2 = Ok tt ↔ ∃ df', written (main0 df []).1 df')
          ∧ ((∃ df', written (main0 df []).1 df') → sent_batch (main0 df []).1)
          ∧ (sent_batch (main0 df []).1 → reached_engine (main0 df []).1)
          ∧ ((main1 df []).2 = Ok tt ↔ ∃ df', written (main1 df []).1 df')
          ∧ ((∃ df', written (main1 df []).1 df') → sent_batch (main1 df []).1)
          ∧ (sent_batch (main1 df []).1 → reached_engine (main1 df []).1))
    as (H1 & H2 & H3 & H4 & H5 & H6); [|
    do 6 (split; [assumption |]);
    split; [intros t1 t2 path df' H;
            by destruct (zero_shot_order _ _ _ _ _ _ _ _ H) as [Ha _]; eapply Ha |];
    split; [intros t1 t2 prompts sp H;
            by destruct (zero_shot_order _ _ _ _ _ _ _ _ H) as [_ Hb]; eapply Hb |];
    split; [intros t1 t2 path df' H;
            by destruct (many_shots_order _ _ _ _ _ _ _ H) as [Ha _]; eapply Ha |];
    intros t1 t2 prompts sp H;
    by destruct (many_shots_order _ _ _ _ _ _ _ H) as [_ Hb]; eapply Hb].
  rewrite zero_shot_run, many_shots_run. cbv zeta.
  split; [| split; [| split; [| split; [| split]]]].
  - destruct (negb (contains rubric_0_shot.TEXT_COLUMN df));
      [| destruct (rubric_0_shot.load_comments df) as [comments|e];
         [destruct (rubric_0_shot.build_prompts _ _) as [prompts|e];
          [destruct (llm_0 _ _) as [outs|e];
           [destruct (rubric_0_shot.add_columns _ _) as [df'|e] |] |] |]];
      cbn [fst snd app]; (split; [intros H; try discriminate H |
                                   intros (d & path & H); trace_cases H]).
    + eexists _, _. repeat (rewrite elem_of_cons). tauto.
    + reflexivity.
  - destruct (negb (contains rubric_0_shot.TEXT_COLUMN df));
      [| destruct (rubric_0_shot.load_comments df) as [comments|e];
         [destruct (rubric_0_shot.build_prompts _ _) as [prompts|e];
          [destruct (llm_0 _ _) as [outs|e];
           [destruct (rubric_0_shot.add_columns _ _) as [df'|e] |] |] |]];
      cbn [fst snd app]; intros (d & path & H); trace_cases H.
    eexists _, _. repeat (rewrite elem_of_cons). tauto.
  - destruct (negb (contains rubric_0_shot.TEXT_COLUMN df));
      [| destruct (rubric_0_shot.load_comments df) as [comments|e];
         [destruct (rubric_0_shot.build_prompts _ _) as [prompts|e];
          [destruct (llm_0 _ _) as [outs|e];
           [destruct (rubric_0_shot.add_columns _ _) as [df'|e] |] |] |]];
      cbn [fst snd app]; intros (p & sp & H); trace_cases H;
      eexists _, _; repeat (rewrite elem_of_cons); tauto.
  - destruct (negb (contains rubric_many_shots.TEXT_COLUMN df));
      [| destruct (rubric_many_shots.load_comments df) as [comments|e];
         [destruct (rubric_many_shots.build_prompts _ _) as [prompts|e];
          [destruct (llm_many _ _) as [outs|e];
           [destruct (setitem _ _ _) as [df'|e] |] |] |]];
      cbn [fst snd app]; (split; [intros H; try discriminate H |
                                   intros (d & path & H); trace_cases H]).
    + eexists _, _. repeat (rewrite elem_of_cons). tauto.
    + reflexivity.
  - destruct (negb (contains rubric_many_shots.TEXT_COLUMN df));
      [| destruct (rubric_many_shots.load_comments df) as [comments|e];
         [destruct (rubric_many_shots.build_prompts _ _) as [prompts|e];
          [destruct (llm_many _ _) as [outs|e];
           [destruct (setitem _ _ _) as [df'|e] |] |] |]];
      cbn [fst snd app]; intros (d & path & H); trace_cases H.
    eexists _, _. repeat (rewrite elem_of_cons). tauto.
  - destruct (negb (contains rubric_many_shots.TEXT_COLUMN df));
      [| destruct (rubric_many_shots.load_comments df) as [comments|e];
         [destruct (rubric_many_shots.build_prompts _ _) as [prompts|e];
          [destruct (llm_many _ _) as [outs|e];
           [destruct (setitem _ _ _) as [df'|e] |] |] |]];
      cbn [fst snd app]; intros (p & sp & H); trace_cases H;
      eexists _, _; repeat (rewrite elem_of_cons); tauto.
Qed.

(** X4.  When the engine raises on the batch that a run sent it, the run
    ends with that very exception, no frame is written, and that batch
    is the only one the run has sent. *)
Theorem engine_failure_propagates (df : DataFrame) (e : pyexc) :
  (∀ prompts sp, EvGenerate prompts sp ∈ (main0 df []).1 →
                 llm_0 prompts sp = Raise e →
                 (main0 df []).2 = Raise e
                 ∧ (∀ df', ¬ written (main0 df []).1 df')
                 ∧ batches (main0 df []).1 = [(prompts, sp)])
  ∧ (∀ prompts sp, EvGenerate prompts sp ∈ (main1 df []).1 →
                   llm_many prompts sp = Raise e →
                   (main1 df []).2 = Raise e
                   ∧ (∀ df', ¬ written (main1 df []).1 df')
                   ∧ batches (main1 df []).1 = [(prompts, sp)]).
Proof.
  split.
  - intros prompts sp Hsent Hraise.
    destruct (zero_shot_sent _ _ _ _ _ _ _ Hsent) as (Hin & -> & comments & Hl & Hb).
    rewrite zero_shot_run. cbv zeta. rewrite Hin. simpl negb. cbv iota.
    rewrite Hl, Hb, Hraise. cbn [fst snd app]. split; [done |].
    split; [| reflexivity].
    intros df' (path & H). trace_cases H.
  - intros prompts sp Hsent Hraise.
    destruct (many_shots_sent _ _ _ _ _ _ Hsent) as (Hin & -> & comments & Hl & Hb).
    rewrite many_shots_run. cbv zeta. rewrite Hin. simpl negb. cbv iota.
    rewrite Hl, Hb, Hraise. cbn [fst snd app]. split; [done |].
    split; [| reflexivity].
    intros df' (path & H). trace_cases H.
Qed.

(** X5.  When the engine answers the batch of a run on a sheet that has
    rows with a number of results other than the number of rows, the
    run ends with the [ValueError] of the first column assignment and
    no frame is written. *)
Theorem result_count_mismatch_is_fatal (df : DataFrame) (outs : list RequestOutput) :
  length outs ≠ index_len df →
  index_len df ≠ 0 →
  (answered llm_0 (main0 df []).1 outs →
   (main0 df []).2 = Raise (length_mismatch (length outs) (index_len df))
   ∧ ∀ df', ¬ written (main0 df []).1 df')
  ∧ (answered llm_many (main1 df []).1 outs →
     (main1 df []).2 = Raise (length_mismatch (length outs) (index_len df))
     ∧ ∀ df', ¬ written (main1 df []).1 df').
Proof.
  intros Hlen Hidx. split.
  - intros (prompts & sp & Hsent & Hans).
    destruct (zero_shot_sent _ _ _ _ _ _ _ Hsent) as (Hin & -> & comments & Hl & Hb).
    rewrite zero_shot_run. cbv zeta. rewrite Hin. simpl negb. cbv iota.
    rewrite Hl, Hb, Hans.
    assert (rubric_0_shot.add_columns df
              (foldl push_row rubric_0_shot.empty_lists (row_of json_loads <$> outs))
            = Raise (length_mismatch (length outs) (index_len df))) as ->.
    { unfold rubric_0_shot.add_columns. rewrite push_rows_fields.
      cbn [rubric_0_shot.raw_json_outputs rubric_0_shot.empty_lists app].
      rewrite setitem_mismatch; rewrite ?length_fmap; done. }
    cbn [fst snd app]. split; [done |].
    intros df' (path & H). trace_cases H.
  - intros (prompts & sp & Hsent & Hans).
    destruct (many_shots_sent _ _ _ _ _ _ Hsent) as (Hin & -> & comments & Hl & Hb).
    rewrite many_shots_run. cbv zeta. rewrite Hin. simpl negb. cbv iota.
    rewrite Hl, Hb, Hans.
    rewrite setitem_mismatch; rewrite ?length_fmap; try done.
    cbn [fst snd app]. split; [done |].
    intros df' (path & H). trace_cases H.
Qed.

End Failures.

(** The sample sheet with one answer and one empty result: the run ends
    normally, so the frame is written. *)
Lemma output_written_iff_run_succeeds_witness :
  ∃ df', written
           (rubric_0_shot.main samples.instructions samples.repr_plain json.loads
              (samples.canned [samples.answer samples.full_json; samples.no_answer])
              samples.sheet []).1 df'.
Proof.
  destruct (output_written_iff_run_succeeds samples.instructions samples.instructions
              samples.repr_plain json.loads
              (samples.canned [samples.answer samples.full_json; samples.no_answer])
              (samples.canned []) samples.sheet) as ((Hwritten & _) & _).
  apply Hwritten. reflexivity.
Defined.

(** The sample sheet against an engine that fails. *)
Lemma engine_failure_propagates_witness :
  (rubric_0_shot.main samples.instructions samples.repr_plain json.loads
     (more_samples.failing more_samples.out_of_memory) samples.sheet []).2
  = Raise more_samples.out_of_memory
  ∧ length (batches
              (rubric_0_shot.main samples.instructions samples.repr_plain json.loads
                 (more_samples.failing more_samples.out_of_memory) samples.sheet []).1)
    = 1
  ∧ (rubric_many_shots.main samples.instructions samples.repr_plain
       (more_samples.failing more_samples.out_of_memory) samples.sheet []).2
    = Raise more_samples.out_of_memory.
Proof.
  destruct (engine_failure_propagates samples.instructions samples.instructions
              samples.repr_plain json.loads
              (more_samples.failing more_samples.out_of_memory)
              (more_samples.failing more_samples.out_of_memory)
              samples.sheet more_samples.out_of_memory) as (H0 & H1).
  split; [| split].
  - eapply H0; [| reflexivity].
    eapply zero_shot_sends; reflexivity.
  - edestruct H0 as (_ & _ & ->); [| reflexivity | reflexivity].
    eapply zero_shot_sends; reflexivity.
  - eapply H1; [| reflexivity].
    eapply many_shots_sends; reflexivity.
Defined.

(** The sample sheet of two rows against an engine with one result. *)
Lemma result_count_mismatch_is_fatal_witness :
  (rubric_0_shot.main samples.instructions samples.repr_plain json.loads
     (samples.canned [samples.answer samples.full_json]) samples.sheet []).2
  = Raise (mk_exc ValueError
             (str_lit "Length of values (1) does not match length of index (2)"))
  ∧ (rubric_many_shots.main samples.instructions samples.repr_plain
       (samples.canned [samples.answer samples.full_json]) samples.sheet []).2
    = Raise (mk_exc ValueError
               (str_lit "Length of values (1) does not match length of index (2)")).
Proof.
  destruct (result_count_mismatch_is_fatal samples.instructions samples.instructions
              samples.repr_plain json.loads
              (samples.canned [samples.answer samples.full_json])
              (samples.canned [samples.answer samples.full_json])
              samples.sheet [samples.answer samples.full_json])
    as (H0 & H1).
  - simpl. lia.
  - simpl. lia.
  - split.
    + apply H0. eapply canned_answered_0; reflexivity.
    + apply H1. eapply canned_answered_many; reflexivity.
Defined.

(** ** Rows and results *)

Section Alignment.
Import pandas vllm.
Variables SYSTEM_INSTRUCTIONS_0 SYSTEM_INSTRUCTIONS_many : pystr.
Variable repr_labels : list pystr -> pystr.
Variable json_loads : pystr -> pyresult pyval.
Variables llm_0 llm_many : list pystr -> SamplingParams -> pyresult (list RequestOutput).

Local Abbreviation main0 :=
  (rubric_0_shot.main SYSTEM_INSTRUCTIONS_0 repr_labels json_loads llm_0).
Local Abbreviation main1 :=
  (rubric_many_shots.main SYSTEM_INSTRUCTIONS_many repr_labels llm_many).

(** X6.  In a run answered with one result per row, row [i] of the
    result columns of the written frame is what the collecting loop
    leaves when it is run on the [i]-th result alone: the results keep
    their order and no row depends on another result.  Beyond the last
    result the result columns have no row.  For the zero-shot script
    this is for results whose collected values are booleans, [None] and
    strings, which a column takes as they are; the labels of the
    few-shot script are always strings. *)
Theorem rows_follow_results_in_order (df : DataFrame) (outs : list RequestOutput) :
  length outs = index_len df →
  (answered llm_0 (main0 df []).1 outs →
   ∀ ls_all,
     for_each outs (rubric_0_shot.collect json_loads) rubric_0_shot.empty_lists
     = (ls_all, Ok tt) →
     lists_stored_as_given ls_all →
     ∃ df', written (main0 df []).1 df'
            ∧ (∀ i out, outs !! i = Some out →
                 ∃ ls, for_each [out] (rubric_0_shot.collect json_loads)
                         rubric_0_shot.empty_lists = (ls, Ok tt)
                       ∧ frame_row df' i = row_at ls 0
                       ∧ is_Some (frame_row df' i))
            ∧ (∀ i, length outs ≤ i → frame_row df' i = None))
  ∧ (answered llm_many (main1 df []).1 outs →
     ∃ df' labels_all,
       written (main1 df []).1 df'
       ∧ for_each outs rubric_many_shots.collect [] = (labels_all, Ok tt)
       ∧ Forall stored_as_given labels_all
       ∧ (∀ i out, outs !! i = Some out →
            ∃ labels, for_each [out] rubric_many_shots.collect [] = (labels, Ok tt)
                      ∧ cell df' (str_lit "voice_label") i = labels !! 0
                      ∧ is_Some (cell df' (str_lit "voice_label") i))
       ∧ (∀ i, length outs ≤ i → cell df' (str_lit "voice_label") i = None)).
Proof.
  intros Hlen. split.
  - intros Hans ls_all _ _.
    destruct (zero_shot_answered _ _ _ _ _ _ Hans Hlen) as (_ & Hw & _).
    eexists. split; [exact Hw |]. split.
    + intros i out Hi. eexists. split; [apply collect_all |].
      rewrite frame_row_set_columns, !row_at_rows, list_lookup_fmap, Hi.
      split; [reflexivity | by eexists].
    + intros i Hi.
      rewrite frame_row_set_columns, row_at_rows, list_lookup_fmap.
      by rewrite (lookup_ge_None_2 outs i Hi).
  - intros Hans.
    destruct (many_shots_answered _ _ _ _ _ Hans Hlen) as (_ & Hw & _).
    eexists _, _. split; [exact Hw |]. split; [apply collect_labels_all |].
    split; [| split].
    + simpl. apply Forall_fmap, Forall_forall. intros out _. simpl.
      unfold label_of. by destruct (outputs out).
    + intros i out Hi. eexists. split; [apply collect_labels_all |].
      unfold cell. cbn [columns]. rewrite column_set_column_eq. simpl.
      rewrite list_lookup_fmap, Hi. split; [reflexivity | by eexists].
    + intros i Hi. unfold cell. cbn [columns].
      rewrite column_set_column_eq. simpl.
      rewrite list_lookup_fmap. by rewrite (lookup_ge_None_2 outs i Hi).
Qed.

End Alignment.

(** The sample sheet: the second row is the row of the empty result. *)
Lemma rows_follow_results_in_order_witness :
  ∃ df', written
           (rubric_0_shot.main samples.instructions samples.repr_plain json.loads
              (samples.canned [samples.answer samples.full_json; samples.no_answer])
              samples.sheet []).1 df'
         ∧ frame_row df' 1
           = Some (mk_row (PyStr []) PyNone PyNone PyNone PyNone PyNone
                     (PyStr (str_lit "LLM returned empty output")))
         ∧ frame_row df' 2 = None.
Proof.
  destruct (rows_follow_results_in_order samples.instructions samples.instructions
              samples.repr_plain json.loads
              (samples.canned [samples.answer samples.full_json; samples.no_answer])
              (samples.canned []) samples.sheet
              [samples.answer samples.full_json; samples.no_answer] eq_refl)
    as (H0 & _).
  edestruct H0 as (df' & Hw & Hrows & Hbeyond).
  - eapply canned_answered_0; reflexivity.
  - reflexivity.
  - repeat split; repeat constructor.
  - exists df'. split; [exact Hw |]. split.
    + destruct (Hrows 1 samples.no_answer eq_refl) as (ls & Hls & -> & _).
      injection Hls as <-. reflexivity.
    + apply Hbeyond. simpl. lia.
Defined.

Lemma lstrip_all_space (s : pystr) :
  Forall (fun c => isspace c = true) s → lstrip s = [].
Proof.
  induction 1 as [|c s Hc _ IH]; [reflexivity |]. simpl. by rewrite Hc.
Qed.

Lemma strip_all_space (s : pystr) :
  Forall (fun c => isspace c = true) s → strip s = [].
Proof.
  intros Hs. unfold strip. by rewrite (lstrip_all_space s Hs).
Qed.

(** X7.  A completion whose text is nothing but whitespace is not taken
    for an empty result.  Few-shot: its label is the empty string, not
    the sentinel.  Zero-shot: its raw text is the empty string, which is
    handed to the decoder; when the decoder raises on the empty text the
    row is the one of a failed decoding, not the one of an empty
    result. *)
Theorem whitespace_only_completion_is_not_empty_output
    (pre post : list vllm.RequestOutput) (out : vllm.RequestOutput)
    (o : vllm.CompletionOutput) (os : list vllm.CompletionOutput) :
  vllm.outputs out = o :: os →
  Forall (fun c => isspace c = true) (vllm.text o) →
  (∃ labels, for_each (pre ++ out :: post) rubric_many_shots.collect []
             = (labels, Ok tt)
             ∧ labels !! length pre = Some (PyStr [])
             ∧ labels !! length pre ≠ Some (PyStr (str_lit "ERROR:EMPTY_OUTPUT")))
  ∧ (∀ json_loads e,
       json_loads [] = Raise e →
       ∃ ls, for_each (pre ++ out :: post) (rubric_0_shot.collect json_loads)
               rubric_0_shot.empty_lists = (ls, Ok tt)
             ∧ row_at ls (length pre)
               = Some (mk_row (PyStr []) PyNone PyNone PyNone PyNone PyNone
                         (PyStr (str_lit "JSON parse error: " ++ exc_str e)))).
Proof.
  intros Hout Hspace. pose proof (strip_all_space _ Hspace) as Hstrip. split.
  - eexists. split; [apply collect_labels_all |]. simpl.
    rewrite list_lookup_fmap, list_lookup_middle by done. simpl.
    unfold label_of. rewrite Hout, Hstrip. split; [done | discriminate].
  - intros json_loads e He. eexists. split; [apply collect_all |].
    rewrite collected_row_at. unfold row_of. by rewrite Hout, Hstrip, He.
Qed.

(** Two blanks and a line feed. *)
Lemma whitespace_only_completion_is_not_empty_output_witness :
  (∃ labels, for_each [samples.answer (str_lit "  " ++ LF)]
               rubric_many_shots.collect [] = (labels, Ok tt)
             ∧ labels !! 0 = Some (PyStr []))
  ∧ (∃ ls, for_each [samples.answer (str_lit "  " ++ LF)]
             (rubric_0_shot.collect json.loads) rubric_0_shot.empty_lists
           = (ls, Ok tt)
           ∧ row_at ls 0
             = Some (mk_row (PyStr []) PyNone PyNone PyNone PyNone PyNone
                       (PyStr (str_lit "JSON parse error: Expecting value: line 1 column 1 (char 0)")))).
Proof.
  destruct (whitespace_only_completion_is_not_empty_output [] []
              (samples.answer (str_lit "  " ++ LF))
              {| vllm.text := str_lit "  " ++ LF |} [] eq_refl)
    as ((labels & Hl & Hl0 & _) & H0).
  - repeat constructor.
  - split; [by exists labels |].
    apply (H0 json.loads (json.decode_error "Expecting value" [] 0) eq_refl).
Defined.

(** ** The shape of the written frame *)

Section Shape.
Import pandas vllm.
Variables SYSTEM_INSTRUCTIONS_0 SYSTEM_INSTRUCTIONS_many : pystr.
Variable repr_labels : list pystr -> pystr.
Variable json_loads : pystr -> pyresult pyval.
Variables llm_0 llm_many : list pystr -> SamplingParams -> pyresult (list RequestOutput).

Local Abbreviation main0 :=
  (rubric_0_shot.main SYSTEM_INSTRUCTIONS_0 repr_labels json_loads llm_0).
Local Abbreviation main1 :=
  (rubric_many_shots.main SYSTEM_INSTRUCTIONS_many repr_labels llm_many).

(** X8.  In a run answered with one result per row, the labels of the
    written frame are those of the input followed by the names of the
    result columns that the input did not have, in the order of the
    assignments.  Every result column of the written frame holds the
    list the loop collected for it, whether the input had a column of
    that name or not: for the zero-shot script when the collected values
    are booleans, [None] and strings, which a column takes as they are,
    and always for the few-shot script, whose labels are strings. *)
Theorem result_columns_hold_collected_lists (df : DataFrame)
    (outs : list RequestOutput) :
  length outs = index_len df →
  (answered llm_0 (main0 df []).1 outs →
   ∃ df' ls,
     written (main0 df []).1 df'
     ∧ for_each outs (rubric_0_shot.collect json_loads) rubric_0_shot.empty_lists
       = (ls, Ok tt)
     ∧ (lists_stored_as_given ls →
        ∀ k v, (k, v) ∈ result_table_0_shot ls → column (columns df') k = Some v)
     ∧ labels df'
       = labels df ++ filter (fun k => k ∉ labels df) result_columns_0_shot)
  ∧ (answered llm_many (main1 df []).1 outs →
     ∃ df' ls,
       written (main1 df []).1 df'
       ∧ for_each outs rubric_many_shots.collect [] = (ls, Ok tt)
       ∧ Forall stored_as_given ls
       ∧ column (columns df') (str_lit "voice_label") = Some ls
       ∧ labels df'
         = labels df ++ filter (fun k => k ∉ labels df) result_columns_many_shots).
Proof.
  intros Hlen. split.
  - intros Hans.
    destruct (zero_shot_answered _ _ _ _ _ _ Hans Hlen) as (_ & Hw & _).
    eexists _, _. split; [exact Hw |]. split; [apply collect_all |].
    cbn [columns]. split.
    + intros _ k v Hkv. apply column_set_columns_in; [| done].
      apply result_columns_NoDup.
    + unfold labels. cbn [columns].
      rewrite set_columns_labels_filter by apply result_columns_NoDup.
      reflexivity.
  - intros Hans.
    destruct (many_shots_answered _ _ _ _ _ Hans Hlen) as (_ & Hw & _).
    eexists _, _. split; [exact Hw |]. split; [apply collect_labels_all |].
    cbn [columns app]. split; [| split; [apply column_set_column_eq |]].
    + apply Forall_fmap, Forall_forall. intros out _. simpl.
      unfold label_of. by destruct (outputs out).
    + unfold labels. cbn [columns].
      exact (set_columns_labels_filter (columns df)
               [(str_lit "voice_label", label_of <$> outs)]
               (NoDup_singleton (str_lit "voice_label"))).
Qed.

End Shape.

(** The sheet that already has a [reason] and a [voice_label] column:
    the zero-shot run adds the six other result columns after them, and
    the [reason] column holds the collected reasons. *)
Lemma result_columns_hold_collected_lists_witness :
  ∃ df', written
           (rubric_0_shot.main samples.instructions samples.repr_plain json.loads
              (samples.canned [samples.no_answer]) samples.sheet_labelled []).1 df'
         ∧ pandas.labels df'
           = [str_lit "body_text"; str_lit "reason"; str_lit "voice_label";
              str_lit "voice_label_raw_json"; str_lit "individual_voice";
              str_lit "collective_voice"; str_lit "internal_deliberation";
              str_lit "align_with_company"; str_lit "none_of_the_above"]
         ∧ pandas.column (pandas.columns df') (str_lit "reason")
           = Some [PyStr (str_lit "LLM returned empty output")].
Proof.
  destruct (result_columns_hold_collected_lists samples.instructions
              samples.instructions samples.repr_plain json.loads
              (samples.canned [samples.no_answer]) (samples.canned [])
              samples.sheet_labelled [samples.no_answer] eq_refl) as (H0 & _).
  destruct H0 as (df' & ls & Hw & Hls & Hcol & Hlabels).
  - eapply canned_answered_0; reflexivity.
  - exists df'. split; [exact Hw |]. split.
    + rewrite Hlabels. vm_compute. reflexivity.
    + injection Hls as <-. apply Hcol.
      * repeat split; repeat constructor.
      * unfold result_table_0_shot. repeat (rewrite elem_of_cons). tauto.
Defined.

(** ** Edge cases of the input and of the results *)

Lemma zero_shot_sent_reached (SYSTEM_INSTRUCTIONS : pystr)
    (repr_labels : list pystr -> pystr) (json_loads : pystr -> pyresult pyval)
    (llm_generate : list pystr -> vllm.SamplingParams
                    -> pyresult (list vllm.RequestOutput))
    (df : pandas.DataFrame) :
  sent_batch (rubric_0_shot.main SYSTEM_INSTRUCTIONS repr_labels json_loads
                llm_generate df []).1 →
  reached_engine (rubric_0_shot.main SYSTEM_INSTRUCTIONS repr_labels json_loads
                    llm_generate df []).1.
Proof.
  intros (prompts & sp & Hsent).
  destruct (zero_shot_sent _ _ _ _ _ _ _ Hsent) as (Hin & _ & comments & Hl & Hb).
  exists rubric_0_shot.MODEL_NAME, rubric_0_shot.MAX_MODEL_LEN.
  rewrite zero_shot_run. cbv zeta. rewrite Hin. simpl negb. cbv iota.
  rewrite Hl, Hb.
  destruct (llm_generate _ _) as [outs|e];
    [destruct (rubric_0_shot.add_columns _ _) as [df'|e] |];
    cbn [fst app]; repeat (rewrite elem_of_cons); tauto.
Qed.

Lemma many_shots_sent_reached (SYSTEM_INSTRUCTIONS : pystr)
    (repr_labels : list pystr -> pystr)
    (llm_generate : list pystr -> vllm.SamplingParams
                    -> pyresult (list vllm.RequestOutput))
    (df : pandas.DataFrame) :
  sent_batch (rubric_many_shots.main SYSTEM_INSTRUCTIONS repr_labels
                llm_generate df []).1 →
  reached_engine (rubric_many_shots.main SYSTEM_INSTRUCTIONS repr_labels
                    llm_generate df []).1.
Proof.
  intros (prompts & sp & Hsent).
  destruct (many_shots_sent _ _ _ _ _ _ Hsent) as (Hin & _ & comments & Hl & Hb).
  exists rubric_many_shots.MODEL_NAME, rubric_many_shots.MAX_MODEL_LEN.
  rewrite many_shots_run. cbv zeta. rewrite Hin. simpl negb. cbv iota.
  rewrite Hl, Hb.
  destruct (llm_generate _ _) as [outs|e];
    [destruct (pandas.setitem _ _ _) as [df'|e] |];
    cbn [fst app]; repeat (rewrite elem_of_cons); tauto.
Qed.

Section EmptySheet.
Import pandas vllm.
Variables SYSTEM_INSTRUCTIONS_0 SYSTEM_INSTRUCTIONS_many : pystr.
Variable repr_labels : list pystr -> pystr.
Variable json_loads : pystr -> pyresult pyval.
Variables llm_0 llm_many : list pystr -> SamplingParams -> pyresult (list RequestOutput).

Local Abbreviation main0 :=
  (rubric_0_shot.main SYSTEM_INSTRUCTIONS_0 repr_labels json_loads llm_0).
Local Abbreviation main1 :=
  (rubric_many_shots.main SYSTEM_INSTRUCTIONS_many repr_labels llm_many).

(** X9.  On a sheet that has the text column and no row, each script
    still starts the engine and sends it the empty batch; when the
    engine answers that batch with no result, the run ends normally and
    writes a frame without rows, all of whose columns, the result
    columns included, are empty. *)
Theorem empty_sheet_sends_empty_batch (df : DataFrame) :
  wf df →
  index_len df = 0 →
  contains rubric_0_shot.TEXT_COLUMN df = true →
  reached_engine (main0 df []).1
  ∧ EvGenerate [] rubric_0_shot.sampling_params ∈ (main0 df []).1
  ∧ (llm_0 [] rubric_0_shot.sampling_params = Ok [] →
     (main0 df []).2 = Ok tt
     ∧ ∃ df', written (main0 df []).1 df' ∧ index_len df' = 0
              ∧ labels df' = labels df ++ filter (fun k => k ∉ labels df)
                                            result_columns_0_shot
              ∧ ∀ k v, (k, v) ∈ columns df' → v = [])
  ∧ reached_engine (main1 df []).1
  ∧ EvGenerate [] rubric_many_shots.sampling_params ∈ (main1 df []).1
  ∧ (llm_many [] rubric_many_shots.sampling_params = Ok [] →
     (main1 df []).2 = Ok tt
     ∧ ∃ df', written (main1 df []).1 df' ∧ index_len df' = 0
              ∧ labels df' = labels df ++ filter (fun k => k ∉ labels df)
                                            result_columns_many_shots
              ∧ ∀ k v, (k, v) ∈ columns df' → v = []).
Proof.
  intros Hwf Hidx Hin.
  destruct (load_comments_0 df Hin) as (series & Hseries & Hload0).
  pose proof (load_comments_text_many df series Hseries) as Hload1.
  assert (series = []) as ->.
  { destruct Hwf as [_ Hlen]. rewrite Forall_forall in Hlen.
    specialize (Hlen _ (column_elem_of _ _ _ Hseries)). simpl in Hlen.
    rewrite Hidx in Hlen. by apply nil_length_inv. }
  cbn in Hload0, Hload1.
  assert (EvGenerate [] rubric_0_shot.sampling_params ∈ (main0 df []).1) as Hs0
    by (by eapply zero_shot_sends).
  assert (EvGenerate [] rubric_many_shots.sampling_params ∈ (main1 df []).1) as Hs1
    by (by eapply many_shots_sends).
  assert (∀ df', wf df' → index_len df' = 0 → ∀ k v, (k, v) ∈ columns df' → v = [])
    as Hempty.
  { intros df' [_ Hlen] Hidx' k v Hkv. rewrite Forall_forall in Hlen.
    specialize (Hlen _ Hkv). simpl in Hlen. rewrite Hidx' in Hlen.
    by apply nil_length_inv. }
  split; [apply zero_shot_sent_reached; by eexists _, _ |].
  split; [exact Hs0 |]. split.
  { intros Hans.
    assert (answered llm_0 (main0 df []).1 []) as Hanswered by (by eexists _, _).
    destruct (zero_shot_answered _ _ _ _ df [] Hanswered (eq_sym Hidx))
      as (Hok & Hw & _).
    split; [exact Hok |]. eexists. split; [exact Hw |]. split; [exact Hidx |].
    split.
    - unfold labels. cbn [columns].
      by rewrite set_columns_labels_filter by apply result_columns_NoDup.
    - apply Hempty; [| exact Hidx].
      apply set_columns_wf; [done |]. apply result_table_lengths.
      rewrite Hidx. apply (all_length_rows []). }
  split; [apply many_shots_sent_reached; by eexists _, _ |].
  split; [exact Hs1 |].
  intros Hans.
  assert (answered llm_many (main1 df []).1 []) as Hanswered by (by eexists _, _).
  destruct (many_shots_answered _ _ _ df [] Hanswered (eq_sym Hidx))
    as (Hok & Hw & _).
  split; [exact Hok |]. eexists. split; [exact Hw |]. split; [exact Hidx |].
  split.
  - unfold labels. cbn [columns].
    exact (set_columns_labels_filter (columns df) [(str_lit "voice_label", [])]
             (NoDup_singleton (str_lit "voice_label"))).
  - apply Hempty; [| exact Hidx].
    refine (set_columns_wf df [(str_lit "voice_label", [])] Hwf _).
    repeat constructor. simpl. by rewrite Hidx.
Qed.

End EmptySheet.

(** The sheet with its header only. *)
Lemma empty_sheet_sends_empty_batch_witness :
  EvGenerate [] rubric_0_shot.sampling_params
  ∈ (rubric_0_shot.main samples.instructions samples.repr_plain json.loads
       (samples.canned []) more_samples.sheet_empty []).1
  ∧ (rubric_0_shot.main samples.instructions samples.repr_plain json.loads
       (samples.canned []) more_samples.sheet_empty []).2 = Ok tt.
Proof.
  destruct (empty_sheet_sends_empty_batch samples.instructions samples.instructions
              samples.repr_plain json.loads (samples.canned []) (samples.canned [])
              more_samples.sheet_empty) as (_ & Hsent & Hrun & _).
  - split.
    + apply (bool_decide_unpack _). vm_compute. reflexivity.
    + repeat constructor.
  - reflexivity.
  - reflexivity.
  - split; [exact Hsent |]. by destruct (Hrun eq_refl).
Defined.

(** X10.  For a result with a completion, the raw-text entry of the
    zero-shot loop is the stripped text of the first completion
    whatever the decoder does with it, and it is the label the few-shot
    loop appends for the same result. *)
Theorem raw_text_is_kept_whatever_the_decoder_does
    (json_loads : pystr -> pyresult pyval)
    (pre post : list vllm.RequestOutput) (out : vllm.RequestOutput)
    (o : vllm.CompletionOutput) (os : list vllm.CompletionOutput) :
  vllm.outputs out = o :: os →
  ∃ ls labels,
    for_each (pre ++ out :: post) (rubric_0_shot.collect json_loads)
      rubric_0_shot.empty_lists = (ls, Ok tt)
    ∧ for_each (pre ++ out :: post) rubric_many_shots.collect [] = (labels, Ok tt)
    ∧ rubric_0_shot.raw_json_outputs ls !! length pre
      = Some (PyStr (strip (vllm.text o)))
    ∧ labels !! length pre = Some (PyStr (strip (vllm.text o))).
Proof.
  intros Hout. eexists _, _.
  split; [apply collect_all |]. split; [apply collect_labels_all |].
  rewrite push_rows_fields. simpl.
  rewrite !list_lookup_fmap, !list_lookup_middle by done. simpl.
  unfold row_of, label_of. rewrite Hout. split; [| done].
  destruct (json_loads (strip (vllm.text o))) as [[]|]; reflexivity.
Qed.

(** A text that does not decode, with a blank before it. *)
Lemma raw_text_is_kept_whatever_the_decoder_does_witness :
  ∃ ls labels,
    for_each [samples.answer (str_lit " not json")] (rubric_0_shot.collect json.loads)
      rubric_0_shot.empty_lists = (ls, Ok tt)
    ∧ for_each [samples.answer (str_lit " not json")] rubric_many_shots.collect []
      = (labels, Ok tt)
    ∧ rubric_0_shot.raw_json_outputs ls !! 0 = Some (PyStr (str_lit "not json"))
    ∧ labels !! 0 = Some (PyStr (str_lit "not json")).
Proof.
  apply (raw_text_is_kept_whatever_the_decoder_does json.loads [] []
           (samples.answer (str_lit " not json"))
           {| vllm.text := str_lit " not json" |} [] eq_refl).
Defined.

(** X11.  Only the first completion of a result counts: two lists of
    results that differ in the further completions of one result give
    the same lists in either loop. *)
Theorem only_first_completion_counts
    (json_loads : pystr -> pyresult pyval)
    (pre post : list vllm.RequestOutput) (out1 out2 : vllm.RequestOutput)
    (o : vllm.CompletionOutput) (os1 os2 : list vllm.CompletionOutput) :
  vllm.outputs out1 = o :: os1 →
  vllm.outputs out2 = o :: os2 →
  for_each (pre ++ out1 :: post) (rubric_0_shot.collect json_loads)
    rubric_0_shot.empty_lists
  = for_each (pre ++ out2 :: post) (rubric_0_shot.collect json_loads)
      rubric_0_shot.empty_lists
  ∧ for_each (pre ++ out1 :: post) rubric_many_shots.collect []
    = for_each (pre ++ out2 :: post) rubric_many_shots.collect [].
Proof.
  intros H1 H2.
  assert (row_of json_loads out1 = row_of json_loads out2) as Hrow
    by (unfold row_of; by rewrite H1, H2).
  assert (label_of out1 = label_of out2) as Hlabel
    by (unfold label_of; by rewrite H1, H2).
  rewrite !collect_all, !collect_labels_all, !fmap_app, !fmap_cons.
  by rewrite Hrow, Hlabel.
Qed.

(** One result with a second completion, one without. *)
Lemma only_first_completion_counts_witness :
  for_each [{| vllm.outputs := [{| vllm.text := samples.full_json |};
                                {| vllm.text := str_lit "second" |}] |}]
    (rubric_0_shot.collect json.loads) rubric_0_shot.empty_lists
  = for_each [samples.answer samples.full_json]
      (rubric_0_shot.collect json.loads) rubric_0_shot.empty_lists
  ∧ for_each [{| vllm.outputs := [{| vllm.text := samples.full_json |};
                                  {| vllm.text := str_lit "second" |}] |}]
      rubric_many_shots.collect []
    = for_each [samples.answer samples.full_json] rubric_many_shots.collect [].
Proof.
  apply (only_first_completion_counts json.loads [] []
           {| vllm.outputs := [{| vllm.text := samples.full_json |};
                               {| vllm.text := str_lit "second" |}] |}
           (samples.answer samples.full_json)
           {| vllm.text := samples.full_json |}
           [{| vllm.text := str_lit "second" |}] [] eq_refl eq_refl).
Defined.
